(** * buzzline-06-mee: a streaming pipeline of user-status events

    A shallow embedding of the three Python modules of the repository

    - [producers/producer_mee.py]   (event generator and producer main),
    - [consumers/kafka_consumer_mee.py] (message processor and consume loop),
    - [consumers/db_sqlite_mee.py]  (the SQLite store operations),

    together with the properties of the pipeline they implement.

    Conventions.  A Python [dict] with string keys is a [gmap string pyval].
    A Python call that can raise is a function into [result]; a
    [try: ... except Exception] block is [try_except].  The SQLite database
    file and the aggregator dictionary [user_status_data] are threaded
    explicitly.  Calls to [logger] write to a log that no function reads
    back, and are left out. *)

From Stdlib Require Import ZArith List Lia Ascii String.
From stdpp Require Import base option list strings gmap pretty.

Set Warnings "-register-all".

Local Open Scope string_scope.
Local Open Scope Z_scope.
Local Open Scope list_scope.

(** ** Python values and exceptions *)

Module Py.

(** The values a decoded JSON payload can hold, as far as the pipeline
    distinguishes them: [None], strings, integers, and containers (written
    [PList]; a nested dict behaves like a list everywhere below: it is
    unhashable and cannot be bound to an SQL parameter). *)
Inductive pyval : Type :=
  | PNone : pyval
  | PStr (s : string) : pyval
  | PInt (z : Z) : pyval
  | PList (items : list pyval) : pyval.

(** The exception classes that occur.  [KeyboardInterrupt] and
    [SystemExit] derive from [BaseException] only; all the others derive
    from [Exception]. *)
Inductive exn : Type :=
  | KeyError (key : string)
  | TypeError
  | OverflowError
  | IndexError
  | FileNotFoundError
  | OSError
  | OperationalError      (* sqlite3.OperationalError *)
  | ProgrammingError      (* sqlite3.ProgrammingError *)
  | KafkaError            (* kafka.errors.KafkaError and its subclasses *)
  | KeyboardInterrupt
  | SystemExit (code : Z).

Definition is_Exception (e : exn) : bool :=
  match e with
  | KeyboardInterrupt | SystemExit _ => false
  | _ => true
  end.

Definition is_KeyboardInterrupt (e : exn) : bool :=
  match e with
  | KeyboardInterrupt => true
  | _ => false
  end.

(** The outcome of a call: a returned value or a raised exception. *)
Inductive result (A : Type) : Type :=
  | Ok (a : A)
  | Raise (e : exn).
Arguments Ok {A} a.
Arguments Raise {A} e.

(** Effectful code over a state [S]: the outcome and the state the call
    leaves behind (also when it raises). *)
Definition M (S A : Type) : Type := S -> result A * S.

Definition ret {S A} (a : A) : M S A := fun s => (Ok a, s).

Definition raise {S A} (e : exn) : M S A := fun s => (Raise e, s).

Definition bind {S A B} (c : M S A) (k : A -> M S B) : M S B :=
  fun s =>
    match c s with
    | (Ok a, s') => k a s'
    | (Raise e, s') => (Raise e, s')
    end.

(** [try: body  except Exception as e: handler e].  An exception that
    does not derive from [Exception] passes through. *)
Definition try_except {S A} (body : M S A) (handler : exn -> M S A) : M S A :=
  fun s =>
    match body s with
    | (Ok a, s') => (Ok a, s')
    | (Raise e, s') => if is_Exception e then handler e s' else (Raise e, s')
    end.

(** A pure computation that may raise, run inside stateful code. *)
Definition lift {S A} (r : result A) : M S A := fun s => (r, s).

Definition get_state {S} : M S S := fun s => (Ok s, s).
Definition put_state {S} (s' : S) : M S unit := fun _ => (Ok tt, s').

(** The call returns normally (it does not raise). *)
Definition returns {S A} (c : M S A) (s : S) : Prop :=
  exists a s', c s = (Ok a, s').

(** Whatever the code raises derives from [Exception]. *)
Definition raises_Exception_only {S A} (c : M S A) : Prop :=
  forall s x s', c s = (Raise x, s') -> is_Exception x = true.

(** [d[k]]: subscripting raises [KeyError] on a missing key. *)
Definition getitem (d : gmap string pyval) (k : string) : result pyval :=
  match d !! k with
  | Some v => Ok v
  | None => Raise (KeyError k)
  end.

(** [d.get(k)]: [None] on a missing key. *)
Definition get (d : gmap string pyval) (k : string) : pyval :=
  match d !! k with
  | Some v => v
  | None => PNone
  end.

(** Truth value of [None] or a dict, as tested by [if processed_message:]. *)
Definition truthy (r : option (gmap string pyval)) : bool :=
  match r with
  | None => false
  | Some d => negb (Nat.eqb (size d) 0)
  end.

End Py.
Export Py.

(** [M S] with stdpp's notations: [x ← c; k] and [c;; k]. *)

#[export] Instance M_ret {S} : MRet (M S) := fun A a => ret a.
#[export] Instance M_bind {S} : MBind (M S) := fun A B k c => bind c k.

Abbreviation dict := (gmap string pyval).

(** ** The SQLite store ([consumers/db_sqlite_mee.py]) *)

Module Store.

(** *** The database file

    Every column but [id] is declared [TEXT]: a cell holds [NULL] or a
    text. *)
Record row : Type := Row {
  row_id : Z;
  row_user_id : option string;        (* "User ID" *)
  row_status : option string;         (* Status *)
  row_log_in : option string;         (* "Log in" *)
  row_last_request : option string;   (* "Last Request" *)
  row_description : option string     (* Description *)
}.

(** The table [streamed_messages]: its rows in rowid order, and the
    largest rowid ever handed out, which [AUTOINCREMENT] keeps in
    [sqlite_sequence]. *)
Record table : Type := Table {
  rows : list row;
  seq : Z
}.

Definition empty_table : table := Table [] 0.

(** What [db_path] designates. *)
Inductive store : Type :=
  | NoDirectory                 (* the parent directory does not exist yet *)
  | Unopenable                  (* not a database, or no permission *)
  | Database (t : option table) (* a database, with or without the table;
                                   a file yet to be created is a database
                                   without the table *).

Definition MAX_ROWID : Z := 9223372036854775807.
Definition MIN_INT64 : Z := -9223372036854775808.

Definition in_int64 (z : Z) : bool := (MIN_INT64 <=? z) && (z <=? MAX_ROWID).

(** Rowids are unique, handed out in increasing order and never above the
    counter. *)
Fixpoint ids_increasing (lo : Z) (rs : list row) : bool :=
  match rs with
  | [] => true
  | r :: rs' => (lo <? row_id r) && ids_increasing (row_id r) rs'
  end.

Definition table_ok (t : table) : bool :=
  ids_increasing 0 (rows t)
  && forallb (fun r => row_id r <=? seq t) (rows t)
  && (0 <=? seq t) && (seq t <=? MAX_ROWID).

Definition store_ok (s : store) : bool :=
  match s with
  | Database (Some t) => table_ok t
  | _ => true
  end.

(** *** [os.path.dirname] and [os.makedirs] *)

Definition is_sep (c : ascii) : bool := Ascii.eqb c "/"%char.

(** [p[:p.rfind('/') + 1]] *)
Fixpoint upto_last_sep (p : list ascii) : list ascii :=
  match p with
  | [] => []
  | c :: p' => if existsb is_sep p then c :: upto_last_sep p' else []
  end.

Fixpoint lstrip_sep (p : list ascii) : list ascii :=
  match p with
  | [] => []
  | c :: p' => if is_sep c then lstrip_sep p' else p
  end.

Definition rstrip_sep (p : list ascii) : list ascii :=
  rev (lstrip_sep (rev p)).

Definition dirname (p : string) : string :=
  let head := upto_last_sep (list_ascii_of_string p) in
  string_of_list_ascii
    (if forallb is_sep head then head else rstrip_sep head).

(** [os.makedirs(dir, exist_ok=True)] *)
Definition makedirs (dir : string) : M store unit :=
  fun s =>
    if String.eqb dir EmptyString then (Raise FileNotFoundError, s)
    else match s with
         | NoDirectory => (Ok tt, Database None)
         | _ => (Ok tt, s)
         end.

(** *** The SQL statements, as the [sqlite3] module runs them *)

(** [sqlite3.connect(path)] *)
Definition connect : M store unit :=
  fun s =>
    match s with
    | Database _ => (Ok tt, s)
    | NoDirectory | Unopenable => (Raise OperationalError, s)
    end.

(** [DROP TABLE IF EXISTS streamed_messages;]  Dropping the table also
    drops its [sqlite_sequence] counter. *)
Definition exec_drop_table_if_exists : M store unit :=
  fun s =>
    match s with
    | Database _ => (Ok tt, Database None)
    | _ => (Raise OperationalError, s)
    end.

(** [CREATE TABLE IF NOT EXISTS streamed_messages (...)] *)
Definition exec_create_table_if_not_exists : M store unit :=
  fun s =>
    match s with
    | Database None => (Ok tt, Database (Some empty_table))
    | Database (Some t) => (Ok tt, s)
    | _ => (Raise OperationalError, s)
    end.

(** Compiling a statement on [streamed_messages]: "no such table" when the
    table is absent.  [cursor.execute] compiles the statement, then binds
    its parameters, then runs it. *)
Definition prepare : M store unit :=
  fun s =>
    match s with
    | Database (Some _) => (Ok tt, s)
    | _ => (Raise OperationalError, s)
    end.

(** Binding a Python value to a [?] of a [TEXT] column: [None] is [NULL],
    a string is itself, an integer is stored in its text form, a container
    is refused. *)
Definition bind_text (v : pyval) : result (option string) :=
  match v with
  | PNone => Ok None
  | PStr s => Ok (Some s)
  | PInt z => if in_int64 z then Ok (Some (pretty z)) else Raise OverflowError
  | PList _ => Raise ProgrammingError
  end.

Definition max_rowid (rs : list row) : Z :=
  fold_right (fun r m => Z.max (row_id r) m) 0 rs.

(** Appending a row under [AUTOINCREMENT]: the new rowid is one more than
    the largest ever used; at the largest 64-bit integer the insert fails
    ("database or disk is full"). *)
Definition append_row (u st li lr de : option string) : M store unit :=
  fun s =>
    match s with
    | Database (Some t) =>
        let last := Z.max (seq t) (max_rowid (rows t)) in
        if MAX_ROWID <=? last then (Raise OperationalError, s)
        else
          let r := Row (last + 1) u st li lr de in
          (Ok tt, Database (Some (Table (rows t ++ [r]) (last + 1))))
    | _ => (Raise OperationalError, s)
    end.

(** [INSERT INTO streamed_messages ("User ID", Status, "Log in",
    "Last Request", Description) VALUES (?, ?, ?, ?, ?)] *)
Definition exec_insert (params : pyval * pyval * pyval * pyval * pyval)
  : M store unit :=
  let '(u, st, li, lr, de) := params in
  prepare;;
  u' ← lift (bind_text u);
  st' ← lift (bind_text st);
  li' ← lift (bind_text li);
  lr' ← lift (bind_text lr);
  de' ← lift (bind_text de);
  append_row u' st' li' lr' de'.

(** Binding a Python [int] to a [?]: it must fit in 64 bits. *)
Definition bind_int (z : Z) : result Z :=
  if in_int64 z then Ok z else Raise OverflowError.

Definition delete_rows (id : Z) : M store unit :=
  fun s =>
    match s with
    | Database (Some t) =>
        let keep := filter (fun r => row_id r ≠ id) (rows t) in
        (Ok tt, Database (Some (Table keep (seq t))))
    | _ => (Raise OperationalError, s)
    end.

(** [DELETE FROM streamed_messages WHERE id = ?] *)
Definition exec_delete (message_id : Z) : M store unit :=
  prepare;;
  id ← lift (bind_int message_id);
  delete_rows id.

(** [SELECT * FROM streamed_messages], then [cursor.fetchall()] *)
Definition fetchall : M store (list row) :=
  fun s =>
    match s with
    | Database (Some t) => (Ok (rows t), s)
    | _ => (Raise OperationalError, s)
    end.

Definition exec_select_all : M store (list row) :=
  prepare;;
  fetchall.

Definition cell (c : option string) : pyval :=
  match c with
  | None => PNone
  | Some s => PStr s
  end.

(** [dict(row)] with [row_factory = sqlite3.Row]: one key per column. *)
Definition dict_of_row (r : row) : dict :=
  <["id" := PInt (row_id r)]>
    (<["User ID" := cell (row_user_id r)]>
      (<["Status" := cell (row_status r)]>
        (<["Log in" := cell (row_log_in r)]>
          (<["Last Request" := cell (row_last_request r)]>
            (<["Description" := cell (row_description r)]> ∅))))).

(** *** The four operations *)

Definition init_db (db_path : string) : M store unit :=
  try_except
    (makedirs (dirname db_path);;
     connect;;
     exec_drop_table_if_exists;;
     exec_create_table_if_not_exists)
    (fun e => ret tt).

Definition insert_message (message : dict) (db_path : string)
  : M store unit :=
  try_except
    (connect;;
     u ← lift (getitem message "User ID");
     st ← lift (getitem message "Status");
     li ← lift (getitem message "Log in");
     lr ← lift (getitem message "Last Request");
     de ← lift (getitem message "Description");
     exec_insert (u, st, li, lr, de))
    (fun e => ret tt).

Definition delete_message (message_id : Z) (db_path : string)
  : M store unit :=
  try_except
    (connect;;
     exec_delete message_id)
    (fun e => ret tt).

Definition get_all_messages (db_path : string) : M store (list dict) :=
  try_except
    (connect;;
     fetched ← exec_select_all;
     ret (map dict_of_row fetched))
    (fun e => ret []).

(** *** Observations on a store *)

Definition stored_rows (s : store) : list row :=
  match s with
  | Database (Some t) => rows t
  | _ => []
  end.

Definition row_count (s : store) : nat := length (stored_rows s).

Definition has_row (id : Z) (s : store) : bool :=
  existsb (fun r => row_id r =? id) (stored_rows s).

(** The five columns an event fills. *)
Definition columns : list string :=
  ["User ID"; "Status"; "Log in"; "Last Request"; "Description"].

(** The event holds a string (or [None]) under the key. *)
Definition text_field (message : dict) (k : string) : bool :=
  match message !! k with
  | Some (PStr _) | Some PNone => true
  | _ => false
  end.

End Store.

(** ** The consumer ([consumers/kafka_consumer_mee.py]) *)

Module Consumer.
Import Store.

(** The keys of [user_status_data]: the hashable values. *)
Inductive hkey : Type :=
  | HNone
  | HStr (s : string)
  | HInt (z : Z).

#[export] Instance hkey_eq_dec : EqDecision hkey.
Proof. solve_decision. Defined.

#[export] Instance hkey_countable : Countable hkey.
Proof.
  refine (inj_countable'
    (fun k => match k with
              | HNone => inl ()
              | HStr s => inr (inl s)
              | HInt z => inr (inr z)
              end)
    (fun x => match x with
              | inl _ => HNone
              | inr (inl s) => HStr s
              | inr (inr z) => HInt z
              end) _).
  by intros [].
Defined.

(** [hash(v)]: a container is unhashable. *)
Definition hash_key (v : pyval) : result hkey :=
  match v with
  | PNone => Ok HNone
  | PStr s => Ok (HStr s)
  | PInt z => Ok (HInt z)
  | PList _ => Raise TypeError
  end.

(** What the consumer process reads and writes: the database file and the
    module-level dictionary [user_status_data]. *)
Record world : Type := World {
  db : store;
  user_status_data : gmap hkey dict
}.

(** A store operation, run by the consumer. *)
Definition on_db {A} (c : M store A) : M world A :=
  fun w =>
    let '(r, s') := c (db w) in
    (r, World s' (user_status_data w)).

Definition store_entry (k : hkey) (v : dict) : M world unit :=
  fun w => (Ok tt, World (db w) (<[k := v]> (user_status_data w))).

(** [user_status_data[user_id] = processed_message] *)
Definition set_user_status (user_id : pyval) (processed_message : dict)
  : M world unit :=
  k ← lift (hash_key user_id);
  store_entry k processed_message.

(** The dict literal of [process_message]. *)
Definition processed (message : dict) : dict :=
  <["User_ID" := get message "User_ID"]>
    (<["Status" := get message "Status"]>
      (<["Log_in" := get message "Log_in"]>
        (<["Last_Request" := get message "Last_Request"]>
          (<["Description" := get message "Description"]>
            (<["timestamp" := get message "timestamp"]> ∅))))).

Definition process_message (message : dict) : M world (option dict) :=
  try_except
    (let processed_message := processed message in
     user_id ← lift (getitem processed_message "User_ID");
     set_user_status user_id processed_message;;
     ret (Some processed_message))
    (fun e => ret None).

(** One turn of [for message in consumer:].  The chart redraw that follows
    only reads [user_status_data]. *)
Definition consume_one (sql_path : string) (value : dict) : M world unit :=
  processed_message ← process_message value;
  if truthy processed_message
  then match processed_message with
       | Some d => on_db (insert_message d sql_path)
       | None => ret tt
       end
  else ret tt.

(** The loop of [consume_messages_from_kafka] over the payloads received. *)
Fixpoint consume_messages (sql_path : string) (values : list dict)
  : M world unit :=
  match values with
  | [] => ret tt
  | value :: rest =>
      consume_one sql_path value;;
      consume_messages sql_path rest
  end.

(** The processor alone, over the same payloads. *)
Fixpoint process_messages (values : list dict) : M world unit :=
  match values with
  | [] => ret tt
  | value :: rest =>
      process_message value;;
      process_messages rest
  end.

(** The five fields of an event, by their keys on the wire. *)
Definition fields : list string :=
  ["User_ID"; "Status"; "Log_in"; "Last_Request"; "Description"].

End Consumer.

(** ** The producer ([producers/producer_mee.py]) *)

Module Producer.

(** *** Naive datetimes

    A [datetime] is a number of microseconds since 0001-01-01 00:00, the
    smallest value of the type. *)
Definition datetime : Type := Z.

Definition MINUTE : Z := 60 * 1000000.
Definition HOUR : Z := 60 * MINUTE.
Definition DAY : Z := 24 * HOUR.

(** [timedelta(hours=h)], [timedelta(minutes=m)] *)
Definition timedelta_hours (h : Z) : Z := h * HOUR.
Definition timedelta_minutes (m : Z) : Z := m * MINUTE.

(** [dt - delta], for a [delta] that is not negative: "date value out of
    range" below the smallest datetime. *)
Definition datetime_sub (dt : datetime) (delta : Z) : result datetime :=
  if 0 <=? dt - delta then Ok (dt - delta) else Raise OverflowError.

(** Year, month and day of the day numbered [days] from 0001-01-01, by the
    proleptic Gregorian calendar. *)
Definition civil_of_days (days : Z) : Z * Z * Z :=
  let z := days + 306 in
  let era := z / 146097 in
  let doe := z - era * 146097 in
  let yoe := (doe - doe / 1460 + doe / 36524 - doe / 146096) / 365 in
  let doy := doe - (365 * yoe + yoe / 4 - yoe / 100) in
  let mp := (5 * doy + 2) / 153 in
  let d := doy - (153 * mp + 2) / 5 + 1 in
  let m := if mp <? 10 then mp + 3 else mp - 9 in
  let y := yoe + era * 400 + (if m <=? 2 then 1 else 0) in
  (y, m, d).

Definition two_digits (n : Z) : string :=
  if n <? 10 then "0" +:+ pretty n else pretty n.

(** [dt.strftime("%m/%d/%Y %H:%M")] *)
Definition strftime (dt : datetime) : string :=
  let '(y, m, d) := civil_of_days (dt / DAY) in
  let hh := (dt mod DAY) / HOUR in
  let mm := (dt mod HOUR) / MINUTE in
  two_digits m +:+ "/" +:+ two_digits d +:+ "/" +:+ pretty y
    +:+ " " +:+ two_digits hh +:+ ":" +:+ two_digits mm.

(** *** Messages *)

(** The dict a turn of the generator builds, with its keys in order. *)
Record message : Type := Message {
  User_ID : string;
  Status : string;
  Log_in : string;
  Last_Request : string;
  Description : string
}.

(** The same message as the consumer's deserializer hands it on. *)
Definition to_dict (m : message) : dict :=
  <["User_ID" := PStr (User_ID m)]>
    (<["Status" := PStr (Status m)]>
      (<["Log_in" := PStr (Log_in m)]>
        (<["Last_Request" := PStr (Last_Request m)]>
          (<["Description" := PStr (Description m)]> ∅)))).

Definition dquote : string := String (ascii_of_nat 34) EmptyString.

Definition json_string (s : string) : string := dquote +:+ s +:+ dquote.

Definition json_pair (k v : string) : string :=
  json_string k +:+ ": " +:+ json_string v.

(** [json.dumps(message)].  No string of a generated message holds a
    character that JSON escapes. *)
Definition json_dumps (m : message) : string :=
  "{" +:+ json_pair "User_ID" (User_ID m)
    +:+ ", " +:+ json_pair "Status" (Status m)
    +:+ ", " +:+ json_pair "Log_in" (Log_in m)
    +:+ ", " +:+ json_pair "Last_Request" (Last_Request m)
    +:+ ", " +:+ json_pair "Description" (Description m) +:+ "}".

(** *** The environment of a run

    What the producer cannot decide: the clock, the random source, and
    the outcome of every call that leaves the process. *)
Record config : Type := Config {
  interval_secs : Z;
  topic : string;
  kafka_server : string;
  live_data_path : string
}.

Record env : Type := Env {
  (* the k-th call of [datetime.now()] *)
  clock : nat -> datetime;
  (* the k-th draw of the random source *)
  entropy : nat -> Z;
  (* STEP 1: the four getters of [utils.utils_config] *)
  read_config : result config;
  (* STEP 2 and 3 *)
  unlink : result unit;
  makedirs : result unit;
  (* STEP 4 *)
  verify_services : result unit;
  KafkaProducer : result unit;
  create_kafka_topic : result unit;
  (* STEP 5, turn by turn *)
  file_append : nat -> result unit;
  producer_send : nat -> result unit;
  sleep : nat -> result unit;
  producer_close : result unit
}.

(** The calls made on the outside, in order. *)
Inductive event : Type :=
  | Write (line : string)                 (* [f.write(line)] *)
  | Send (topic : string) (m : message)   (* [producer.send(topic, value=m)] *)
  | Sleep (secs : Z)                      (* [time.sleep(secs)] *)
  | Close.                                (* [producer.close()] *)

Record state : Type := State {
  clock_reads : nat;
  draws : nat;
  turn : nat;                  (* turns of the streaming loop begun *)
  live_data : option (list string);
                               (* the lines of the live data file, if it
                                  exists *)
  published : list message;    (* the messages [producer.send] accepted *)
  trace : list event
}.

Definition initial (file : option (list string)) : state :=
  State 0 0 0 file [] [].

Section Run.

Variable e : env.

(** [random._randbelow(n)]: some integer from 0 to [n - 1]. *)
Definition randbelow (n : Z) : M state Z :=
  fun s =>
    (Ok (entropy e (draws s) mod n),
     State (clock_reads s) (S (draws s)) (turn s) (live_data s)
           (published s) (trace s)).

(** [random.randint(a, b)] *)
Definition randint (a b : Z) : M state Z :=
  r ← randbelow (b + 1 - a);
  ret (a + r).

(** [random.choice(seq)] *)
Definition choice (seq : list string) : M state string :=
  if Nat.eqb (length seq) 0 then raise IndexError
  else
    i ← randbelow (Z.of_nat (length seq));
    match seq !! Z.to_nat i with
    | Some x => ret x
    | None => raise IndexError
    end.

(** [datetime.now()] *)
Definition datetime_now : M state datetime :=
  fun s =>
    (Ok (clock e (clock_reads s)),
     State (S (clock_reads s)) (draws s) (turn s) (live_data s)
           (published s) (trace s)).

Definition users : list string :=
  ["ajurek"; "bwendt"; "cclemens"; "dsmith"; "ejones"].

Definition statuses : list string := ["green"; "yellow"; "red"].

Definition descriptions : list string :=
  ["Invoice Entry - Brief Mode";
   "Service Orders for Scheduling";
   "Job Summary Inquiry";
   "Customer Account Management";
   "Inventory Check"].

(** The offsets that a turn of the generator begun in state [s] draws. *)
Definition hours_drawn (s : state) : Z := 1 + entropy e (draws s) mod 8.
Definition minutes_drawn (s : state) : Z :=
  1 + entropy e (S (draws s)) mod 60.

(** One turn of the [while True:] of [generate_messages], up to its
    [yield]. *)
Definition generate_message : M state message :=
  current_time ← datetime_now;
  h ← randint 1 8;
  login_time ← lift (datetime_sub current_time (timedelta_hours h));
  m ← randint 1 60;
  last_request_time ← lift (datetime_sub current_time (timedelta_minutes m));
  user ← choice users;
  status ← choice statuses;
  description ← choice descriptions;
  ret (Message user status (strftime login_time)
               (strftime last_request_time) description).

(** The first [n] messages the generator yields. *)
Fixpoint generate_messages (n : nat) : M state (list message) :=
  match n with
  | O => ret []
  | S n' =>
      m ← generate_message;
      ms ← generate_messages n';
      ret (m :: ms)
  end.

(** *** [main] *)

Definition newline : string := String (ascii_of_nat 10) EmptyString.

Definition record (ev : event) : M state unit :=
  fun s =>
    (Ok tt,
     State (clock_reads s) (draws s) (turn s) (live_data s) (published s)
           (trace s ++ [ev])).

Definition set_live_data (file : option (list string)) : M state unit :=
  fun s =>
    (Ok tt,
     State (clock_reads s) (draws s) (turn s) file (published s) (trace s)).

(** [if live_data_path.exists(): live_data_path.unlink()] *)
Definition delete_live_data : M state unit :=
  s ← get_state;
  match live_data s with
  | Some _ => lift (unlink e);; set_live_data None
  | None => ret tt
  end.

(** [with live_data_path.open("a") as f: f.write(line)] *)
Definition append_live_data (line : string) : M state unit :=
  record (Write line);;
  s ← get_state;
  lift (file_append e (turn s));;
  set_live_data (Some (default [] (live_data s) ++ [line])).

(** [producer.send(topic, value=message)] *)
Definition send (topic : string) (m : message) : M state unit :=
  record (Send topic m);;
  s ← get_state;
  lift (producer_send e (turn s));;
  put_state (State (clock_reads s) (draws s) (turn s) (live_data s)
                   (published s ++ [m]) (trace s)).

(** [time.sleep(interval_secs)] *)
Definition time_sleep (secs : Z) : M state unit :=
  record (Sleep secs);;
  s ← get_state;
  lift (sleep e (turn s)).

Definition next_turn : M state unit :=
  fun s =>
    (Ok tt,
     State (clock_reads s) (draws s) (S (turn s)) (live_data s)
           (published s) (trace s)).

(** Where control is when the turns observed have run. *)
Inductive status : Type :=
  | Streaming     (* inside the loop of STEP 5 *)
  | Returned.     (* [main] has returned *)

(** The line a message takes in the live data file. *)
Definition json_line (m : message) : string := json_dumps m +:+ newline.

(** The body of [for message in generate_messages():]. *)
Definition stream_turn (cfg : config) (producer : bool) : M state unit :=
  message ← generate_message;
  append_live_data (json_line message);;
  (if producer then send (topic cfg) message else ret tt);;
  time_sleep (interval_secs cfg);;
  next_turn.

(** The loop, observed for [fuel] turns.  It has no exit of its own. *)
Fixpoint stream (cfg : config) (producer : bool) (fuel : nat)
  : M state status :=
  match fuel with
  | O => ret Streaming
  | S fuel' =>
      stream_turn cfg producer;;
      stream cfg producer fuel'
  end.

Definition sys_exit {A} (code : Z) : M state A := raise (SystemExit code).

(** STEP 1 *)
Definition step1 : M state config :=
  try_except (lift (read_config e)) (fun _ => sys_exit 1).

(** STEP 2 and STEP 3 *)
Definition step2_3 : M state unit :=
  try_except
    (delete_live_data;;
     lift (makedirs e))
    (fun _ => sys_exit 2).

(** STEP 4: [true] when [producer] is a producer, [false] when it is
    [None]. *)
Definition step4 : M state bool :=
  producer ← try_except
               (lift (verify_services e);;
                lift (KafkaProducer e);;
                ret true)
               (fun _ => ret false);
  if (producer : bool)
  then try_except
         (lift (create_kafka_topic e);;
          ret true)
         (fun _ => ret false)
  else ret false.

(** [finally: if producer: producer.close()] *)
Definition finally_close (producer : bool) : M state unit :=
  if producer then record Close;; lift (producer_close e) else ret tt.

(** STEP 5: the loop inside
    [try: ... except KeyboardInterrupt: ... except Exception: ...
     finally: ...] *)
Definition step5 (cfg : config) (producer : bool) (fuel : nat)
  : M state status :=
  fun s =>
    match stream cfg producer fuel s with
    | (Ok Streaming, s') => (Ok Streaming, s')
    | (Ok Returned, s') => (finally_close producer;; ret Returned) s'
    | (Raise x, s') =>
        if is_KeyboardInterrupt x || is_Exception x
        then (finally_close producer;; ret Returned) s'
        else (finally_close producer;; raise x) s'
    end.

Definition main (fuel : nat) : M state status :=
  cfg ← step1;
  step2_3;;
  producer ← step4;
  step5 cfg producer fuel.

End Run.

(** How the process ends: [sys.exit(code)], a normal return of [main]
    (code 0), or a traceback for an exception nothing caught. *)
Inductive exit_status : Type :=
  | Running
  | Exit (code : Z)
  | Traceback (x : exn).

Definition exit_status_of (r : result status) : exit_status :=
  match r with
  | Ok Streaming => Running
  | Ok Returned => Exit 0
  | Raise (SystemExit code) => Exit code
  | Raise x => Traceback x
  end.

(** *** Observations on a trace *)

Definition is_send (ev : event) : bool :=
  match ev with
  | Send _ _ => true
  | _ => false
  end.

(** No publish was attempted. *)
Definition no_send (tr : list event) : bool := forallb (fun ev => negb (is_send ev)) tr.

Definition writes_line_of (prev : option event) (m : message) : bool :=
  match prev with
  | Some (Write line) => String.eqb line (json_line m)
  | _ => false
  end.

(** Every publish attempt comes right after the write of the line of the
    same message. *)
Fixpoint sends_follow_writes (prev : option event) (tr : list event) : bool :=
  match tr with
  | [] => true
  | ev :: rest =>
      match ev with
      | Send _ m => writes_line_of prev m
      | _ => true
      end && sends_follow_writes (Some ev) rest
  end.

(** The lines of the live data file; none when it does not exist. *)
Definition lines_of (s : state) : list string := default [] (live_data s).

(** From [s] to [s'] the run only added calls to the trace and lines to
    the file; every publish attempt follows the write of its message, whose
    line is among the lines added; without a producer nothing was
    published. *)
Definition streamed (producer : bool) (s s' : state) : Prop :=
  exists tr new,
    trace s' = trace s ++ tr
    /\ lines_of s' = lines_of s ++ new
    /\ sends_follow_writes None tr = true
    /\ (producer = false -> no_send tr = true)
    /\ (forall t m, In (Send t m) tr -> In (json_line m) new).

(** STEP 4 ends without a producer: one of its three calls raised an
    [Exception]. *)
Definition demoted (e : env) : bool :=
  match verify_services e with
  | Raise x => is_Exception x
  | Ok _ =>
      match KafkaProducer e with
      | Raise x => is_Exception x
      | Ok _ =>
          match create_kafka_topic e with
          | Raise x => is_Exception x
          | Ok _ => false
          end
      end
  end.

End Producer.

(** ** Sample data *)

Module Samples.
Import Store Consumer Producer.

(** The test message of [main] in [db_sqlite_mee.py]. *)
Definition test_message : dict :=
  <["User ID" := PStr "cclemens"]>
    (<["Status" := PStr "green"]>
      (<["Log in" := PStr "02/18/25 8:45:14 AM"]>
        (<["Last Request" := PStr "02/18/25 11:22:37 AM"]>
          (<["Description" := PStr "Job Summary Inquiry"]> ∅)))).

Definition TEST_DB_PATH : string := "data/test_buzz.sqlite".

(** A payload as the producer publishes it. *)
Definition payload (user status description : string) : dict :=
  to_dict (Message user status "02/18/2025 08:49" "02/18/2025 11:42"
                   description).

(** Three events for two users. *)
Definition three_events : list dict :=
  [payload "bwendt" "green" "Invoice Entry - Brief Mode";
   payload "cclemens" "yellow" "Job Summary Inquiry";
   payload "bwendt" "red" "Inventory Check"].

(** A payload that lacks four of the five fields. *)
Definition only_user_id : dict := {["User_ID" := PStr "x"]}.

(** A payload whose user id is a JSON array. *)
Definition list_user_id : dict :=
  <["User_ID" := PList [PStr "bwendt"]]> (payload "bwendt" "green" "Inventory Check").

(** An environment in which every call succeeds: the clock starts on
    02/18/2025 at 08:49 and moves a second at each reading. *)
Definition calm : env :=
  Env (fun k => 63875465399999999 + Z.of_nat k * 1000000)
      (fun k => Z.of_nat k * 7 + 3)
      (Ok (Config 2 "buzzline" "localhost:9092" "data/project_live.json"))
      (Ok tt) (Ok tt)
      (Ok tt) (Ok tt) (Ok tt)
      (fun _ => Ok tt) (fun _ => Ok tt) (fun _ => Ok tt)
      (Ok tt).

(** The random source that draws the offsets 1 hour and 60 minutes. *)
Definition equal_offsets : env :=
  Env (clock calm)
      (fun k => match k with O => 0 | _ => 59 end)
      (read_config calm) (unlink calm) (makedirs calm)
      (verify_services calm) (KafkaProducer calm) (create_kafka_topic calm)
      (file_append calm) (producer_send calm) (sleep calm)
      (producer_close calm).

(** [calm] with one oracle changed. *)
Definition with_kafka (e : env) (verify new_producer topic : result unit)
  : env :=
  Env (clock e) (entropy e) (read_config e) (unlink e) (makedirs e)
      verify new_producer topic
      (file_append e) (producer_send e) (sleep e) (producer_close e).

Definition with_send (e : env) (outcome : nat -> result unit) : env :=
  Env (clock e) (entropy e) (read_config e) (unlink e) (makedirs e)
      (verify_services e) (KafkaProducer e) (create_kafka_topic e)
      (file_append e) outcome (sleep e) (producer_close e).

Definition with_file_append (e : env) (outcome : nat -> result unit) : env :=
  Env (clock e) (entropy e) (read_config e) (unlink e) (makedirs e)
      (verify_services e) (KafkaProducer e) (create_kafka_topic e)
      outcome (producer_send e) (sleep e) (producer_close e).

Definition with_setup (e : env) (cfg : result config)
  (unlinked made : result unit) : env :=
  Env (clock e) (entropy e) cfg unlinked made
      (verify_services e) (KafkaProducer e) (create_kafka_topic e)
      (file_append e) (producer_send e) (sleep e) (producer_close e).

(** No broker answers: [KafkaProducer(...)] raises. *)
Definition no_broker : env := with_kafka calm (Ok tt) (Raise KafkaError) (Ok tt).

(** The broker is there at startup; the first [producer.send] raises. *)
Definition send_raises : env :=
  with_send calm (fun k => match k with O => Raise KafkaError | _ => Ok tt end).

(** No broker, and the second write to the live data file fails. *)
Definition write_raises : env :=
  with_file_append no_broker
    (fun k => match k with 1%nat => Raise OSError | _ => Ok tt end).

(** A configuration getter raises. *)
Definition no_config : env :=
  with_setup calm (Raise (KeyError "KAFKA_TOPIC")) (Ok tt) (Ok tt).

(** The folders of the live data file cannot be made. *)
Definition no_folder : env :=
  with_setup calm (read_config calm) (Ok tt) (Raise OSError).

(** The consumer after [init_db], before the first message. *)
Definition fresh_world : world := World (Database (Some empty_table)) ∅.

End Samples.

(** ** The test run of the store ([main] of [db_sqlite_mee.py]) *)

Module StoreMain.
Import Store Samples.

(** The path holds a "/". *)
Definition has_sep (p : string) : bool :=
  existsb is_sep (list_ascii_of_string p).

(** What a value reads as once it went through a [TEXT] column. *)
Definition as_text (v : pyval) : option pyval :=
  match bind_text v with
  | Ok c => Some (cell c)
  | Raise _ => None
  end.

(** The five cells of the row an event makes, when each key is there and
    each value can be bound. *)
Definition cells_of (message : dict)
  : option (option string * option string * option string
            * option string * option string) :=
  match message !! "User ID", message !! "Status", message !! "Log in",
        message !! "Last Request", message !! "Description" with
  | Some u, Some st, Some li, Some lr, Some de =>
      match bind_text u, bind_text st, bind_text li, bind_text lr,
            bind_text de with
      | Ok cu, Ok cst, Ok cli, Ok clr, Ok cde => Some (cu, cst, cli, clr, cde)
      | _, _, _, _, _ => None
      end
  | _, _, _, _, _ => None
  end.

(** The table is there and can take one more row. *)
Definition has_room (s : store) : bool :=
  match s with
  | Database (Some t) => Z.max (seq t) (max_rowid (rows t)) <? MAX_ROWID
  | _ => false
  end.

(** [insert_message] will add a row. *)
Definition accepts (message : dict) (s : store) : bool :=
  match cells_of message with
  | Some _ => has_room s
  | None => false
  end.

(** A call of one of the four operations, and a history of calls run in
    order on a store. *)
Inductive call : Type :=
  | Init (db_path : string)
  | Insert (message : dict) (db_path : string)
  | Delete (message_id : Z) (db_path : string)
  | GetAll (db_path : string).

Definition run_call (c : call) (s : store) : store :=
  match c with
  | Init db_path => snd (init_db db_path s)
  | Insert message db_path => snd (insert_message message db_path s)
  | Delete message_id db_path => snd (delete_message message_id db_path s)
  | GetAll db_path => snd (get_all_messages db_path s)
  end.

Definition run_calls (cs : list call) (s : store) : store :=
  fold_left (fun s c => run_call c s) cs s.

(** The ids of the records of a listing. *)
Definition ids_of (records : list dict) : list pyval :=
  map (fun d => get d "id") records.

(** [main()] from the call of [init_db] on, for the path its first two
    statements bind to [TEST_DB_PATH].  Those two statements read
    [config.get_base_data_path] of the configuration module and are not
    part of this definition: what they give, or raise, is the caller's to
    say.  [all_messages[0]['id']] is an integer for every record
    [get_all_messages] returns; [None] or a list in its place would delete
    nothing. *)
Definition main (TEST_DB_PATH : string) : M store unit :=
  init_db TEST_DB_PATH;;
  insert_message test_message TEST_DB_PATH;;
  all_messages ← get_all_messages TEST_DB_PATH;
  match all_messages with
  | first :: _ =>
      id ← lift (getitem first "id");
      match id with
      | PInt message_id => delete_message message_id TEST_DB_PATH
      | _ => ret tt
      end
  | [] => ret tt
  end.

(** The test message, with a number for its user. *)
Definition numbered_message : dict := <["User ID" := PInt 42]> test_message.

End StoreMain.

(** ** What the consumer has seen *)

Module Aggregate.
Import Consumer.

(** The six keys of a processed event. *)
Definition event_keys : list string := fields ++ ["timestamp"].

(** The event of the last payload of [values] whose user id is [k]. *)
Fixpoint last_event_of (k : hkey) (values : list dict) : option dict :=
  match values with
  | [] => None
  | value :: rest =>
      match last_event_of k rest with
      | Some event => Some event
      | None =>
          match hash_key (get value "User_ID") with
          | Ok k' => if decide (k' = k) then Some (processed value) else None
          | Raise _ => None
          end
      end
  end.

End Aggregate.

(** ** What a run of the producer leaves *)

Module ProducerViews.
Import Producer.

Definition is_close (ev : event) : bool :=
  match ev with
  | Close => true
  | _ => false
  end.

(** The message is made of roster entries. *)
Definition in_rosters (m : message) : Prop :=
  User_ID m ∈ users /\ Status m ∈ statuses /\ Description m ∈ descriptions.

(** The line is the JSON line of a message made of roster entries. *)
Definition generated_line (line : string) : Prop :=
  exists m, line = json_line m /\ in_rosters m.

(** The three calls of STEP 4 all returned: [producer] is a producer. *)
Definition connected (e : env) : bool :=
  match verify_services e, KafkaProducer e, create_kafka_topic e with
  | Ok _, Ok _, Ok _ => true
  | _, _, _ => false
  end.

(** Ctrl-C arrives while the second turn sleeps. *)
Definition interrupted : env :=
  Env (clock Samples.calm) (entropy Samples.calm) (read_config Samples.calm)
      (unlink Samples.calm) (makedirs Samples.calm)
      (verify_services Samples.calm) (KafkaProducer Samples.calm)
      (create_kafka_topic Samples.calm)
      (file_append Samples.calm) (producer_send Samples.calm)
      (fun k => match k with 1%nat => Raise KeyboardInterrupt | _ => Ok tt end)
      (producer_close Samples.calm).

End ProducerViews.

(** ** The run of the consumer ([update_chart] and
    [consume_messages_from_kafka] of [kafka_consumer_mee.py]) *)

Module ConsumerRun.
Import Store Consumer.

(** The value of a message once deserialized: a JSON object, or some other
    JSON value (an array, a string, a number). *)
Inductive payload : Type :=
  | JObject (d : dict)
  | JOther.

(** What [for message in consumer:] gets when it asks for the next
    message: a message, the end of the iteration, or an exception (of the
    deserializer, of the broker, or Ctrl-C). *)
Inductive polled : Type :=
  | Message (value : payload)
  | Exhausted
  | Failed (x : exn).

(** What [update_chart] asks matplotlib to draw: the text "No data to
    display", or one bar for each user, with its label (the status) and
    its colour.  The left-to-right order of the bars is not recorded. *)
Inductive chart : Type :=
  | NoData
  | Bars (bars : gmap hkey (pyval * string)).

(** What the consumer cannot decide. *)
Record env : Type := Env {
  verify_services : result unit;
  create_kafka_consumer : result unit;
  is_topic_available : result bool;
  (* the k-th message asked of the consumer *)
  next_message : nat -> polled;
  (* [current_time - last_update_time >= 5], after the k-th message *)
  redraw_due : nat -> bool;
  (* the calls on [ax] and [plt] that draw a chart *)
  plot : chart -> result unit;
  (* [plt.draw(); plt.pause(0.001)], after the k-th message *)
  show : nat -> result unit;
  consumer_close : result unit
}.

(** The calls made on matplotlib and on the consumer, in order. *)
Inductive call : Type :=
  | Clear               (* [ax.clear()] *)
  | Plot (c : chart)    (* the text, or the bars with their labels *)
  | Show                (* [plt.draw(); plt.pause(0.001)] *)
  | CloseConsumer.      (* [consumer.close()] *)

Record state : Type := State {
  world : Consumer.world;
  received : nat;        (* messages received so far *)
  consumer : bool;       (* [consumer] is a consumer, not [None] *)
  calls : list call
}.

Definition initial (w : Consumer.world) : state := State w 0 false [].

(** Code of the processor and of the store, run by the consumer. *)
Definition on_world {A} (c : M Consumer.world A) : M state A :=
  fun s =>
    let '(r, w') := c (world s) in
    (r, State w' (received s) (consumer s) (calls s)).

Definition record (c : call) : M state unit :=
  fun s => (Ok tt, State (world s) (received s) (consumer s) (calls s ++ [c])).

Definition set_consumer (b : bool) : M state unit :=
  fun s => (Ok tt, State (world s) (received s) b (calls s)).

Definition count_received : M state unit :=
  fun s => (Ok tt, State (world s) (S (received s)) (consumer s) (calls s)).

(** [color_map.get(status, 'gray')], for a status that can be hashed. *)
Definition color_of (status : pyval) : string :=
  match status with
  | PStr s =>
      if String.eqb s "green" then "green"
      else if String.eqb s "yellow" then "yellow"
      else if String.eqb s "red" then "red"
      else "gray"
  | _ => "gray"
  end.

Definition hashable (v : pyval) : bool :=
  match v with
  | PList _ => false
  | _ => true
  end.

(** [[data['Status'] for data in user_status_data.values()]] *)
Definition statuses_of (data : gmap hkey dict) : result (gmap hkey pyval) :=
  if bool_decide (map_Forall (fun _ d => is_Some (d !! "Status")) data)
  then Ok ((fun d => get d "Status") <$> data)
  else Raise (KeyError "Status").

(** [[color_map.get(status, 'gray') for status in statuses]] *)
Definition colors_of (statuses : gmap hkey pyval)
  : result (gmap hkey string) :=
  if bool_decide (map_Forall (fun _ st => hashable st = true) statuses)
  then Ok (color_of <$> statuses)
  else Raise TypeError.

Section Run.

Variable e : env.

Definition update_chart (frame : Z) : M state unit :=
  record Clear;;
  s ← get_state;
  statuses ← lift (statuses_of (user_status_data (world s)));
  colors ← lift (colors_of statuses);
  let c := if Nat.eqb (size (user_status_data (world s))) 0
           then NoData
           else Bars (map_zip statuses colors) in
  record (Plot c);;
  lift (plot e c).

(** [process_message(message.value)], then [insert_message] when it
    returned an event.  On a value that is not a dict [message.get] raises
    [AttributeError] inside the [try] of [process_message], which returns
    [None]. *)
Definition consume_value (sql_path : string) (value : payload)
  : M state unit :=
  match value with
  | JObject d => on_world (consume_one sql_path d)
  | JOther => ret tt
  end.

(** The redraw at the end of a turn of the loop. *)
Definition redraw (k : nat) : M state unit :=
  if redraw_due e k
  then update_chart 0;;
       record Show;;
       lift (show e k)
  else ret tt.

(** Where control is when the turns observed have run. *)
Inductive progress : Type :=
  | Consuming    (* waiting for the next message *)
  | Returned.    (* [consume_messages_from_kafka] has returned *)

(** [for message in consumer: ...], observed for [fuel] turns. *)
Fixpoint consume (sql_path : string) (fuel : nat) : M state progress :=
  match fuel with
  | O => ret Consuming
  | S fuel' =>
      s ← get_state;
      match next_message e (received s) with
      | Exhausted => ret Returned
      | Failed x => raise x
      | Message value =>
          count_received;;
          consume_value sql_path value;;
          redraw (received s);;
          consume sql_path fuel'
      end
  end.

(** [finally: if consumer: consumer.close()] *)
Definition finally_close : M state unit :=
  s ← get_state;
  if consumer s then record CloseConsumer;; lift (consumer_close e)
  else ret tt.

(** Steps 1 to 4 inside the [try].  [raise ValueError(...)] for a missing
    topic is caught by the [except Exception] of the same [try]: it ends
    the body as the handler does. *)
Definition consume_messages_from_kafka
    (topic kafka_url group sql_path : string) (interval_secs : Z)
    (fuel : nat) : M state progress :=
  fun s0 =>
    match
      (set_consumer false;;
       try_except
         (lift (verify_services e);;
          lift (create_kafka_consumer e);;
          set_consumer true;;
          available ← lift (is_topic_available e);
          if (available : bool)
          then consume sql_path fuel
          else ret Returned)
         (fun _ => ret Returned)) s0
    with
    | (Ok Consuming, s) => (Ok Consuming, s)
    | (Ok Returned, s) => (finally_close;; ret Returned) s
    | (Raise x, s) => (finally_close;; raise x) s
    end.

End Run.

(** Steps 1 to 3 end without reaching the loop: one of the three calls
    raised an [Exception], or the topic is not there. *)
Definition setup_fails (e : env) : bool :=
  match verify_services e with
  | Raise x => is_Exception x
  | Ok _ =>
      match create_kafka_consumer e with
      | Raise x => is_Exception x
      | Ok _ =>
          match is_topic_available e with
          | Raise x => is_Exception x
          | Ok available => negb available
          end
      end
  end.

(** [create_kafka_consumer] was reached and returned. *)
Definition created (e : env) : bool :=
  match verify_services e, create_kafka_consumer e with
  | Ok _, Ok _ => true
  | _, _ => false
  end.

(** The loop is reached. *)
Definition ready (e : env) : bool :=
  match verify_services e, create_kafka_consumer e, is_topic_available e with
  | Ok _, Ok _, Ok true => true
  | _, _, _ => false
  end.

(** The world after the processor has seen a value, and after it has seen
    a list of values in order. *)
Definition after_value (value : payload) (w : Consumer.world)
  : Consumer.world :=
  match value with
  | JObject d => snd (process_message d w)
  | JOther => w
  end.

Definition after_values (values : list payload) (w : Consumer.world)
  : Consumer.world :=
  fold_left (fun w v => after_value v w) values w.

(** From [s] to [s'] the database and the consumer variable are the same,
    no message was given back, and the calls made are added at the end,
    [consumer.close()] not among them. *)
Definition keeps (s s' : state) : Prop :=
  db (world s') = db (world s)
  /\ consumer s' = consumer s
  /\ (received s <= received s')%nat
  /\ exists tr, calls s' = calls s ++ tr /\ ~ In CloseConsumer tr.

(** A broker that hands out the values of a list, then stops as [last]
    says; no redraw is due and every call succeeds. *)
Definition serving (values : list payload) (last : polled) : env :=
  Env (Ok tt) (Ok tt) (Ok true)
      (fun k => match values !! k with
                | Some v => Message v
                | None => last
                end)
      (fun _ => false)
      (fun _ => Ok tt) (fun _ => Ok tt) (Ok tt).

(** The same, with a redraw due after every message. *)
Definition redrawing (values : list payload) (last : polled) : env :=
  Env (Ok tt) (Ok tt) (Ok true)
      (next_message (serving values last))
      (fun _ => true)
      (fun _ => Ok tt) (fun _ => Ok tt) (Ok tt).

(** A payload whose status is a JSON array. *)
Definition list_status : dict :=
  <["Status" := PList [PStr "green"]]>
    (Samples.payload "dsmith" "green" "Inventory Check").

End ConsumerRun.

(** * Properties *)

Import Store Consumer Samples.

(** ** Running monadic code *)

Lemma bind_Ok {S A B} (c : M S A) (k : A -> M S B) s a s' :
  c s = (Ok a, s') -> (c ≫= k) s = k a s'.
Proof. intros H. unfold mbind, M_bind, bind. by rewrite H. Qed.

Lemma bind_Raise {S A B} (c : M S A) (k : A -> M S B) s x s' :
  c s = (Raise x, s') -> (c ≫= k) s = (Raise x, s').
Proof. intros H. unfold mbind, M_bind, bind. by rewrite H. Qed.

Lemma try_except_Ok {S A} (body : M S A) h s a s' :
  body s = (Ok a, s') -> try_except body h s = (Ok a, s').
Proof. intros H. unfold try_except. by rewrite H. Qed.

Lemma try_except_Raise {S A} (body : M S A) h s x s' :
  body s = (Raise x, s') -> is_Exception x = true ->
  try_except body h s = h x s'.
Proof. intros H Hx. unfold try_except. by rewrite H, Hx. Qed.

Lemma ret_safe {S A} (a : A) : raises_Exception_only (ret (S:=S) a).
Proof. intros s x s' H. discriminate. Qed.

Lemma bind_safe {S A B} (c : M S A) (k : A -> M S B) :
  raises_Exception_only c -> (∀ a, raises_Exception_only (k a)) ->
  raises_Exception_only (c ≫= k).
Proof.
  intros Hc Hk s x s'. unfold mbind, M_bind, bind.
  destruct (c s) as [[a|y] s1] eqn:E.
  - apply Hk.
  - intros [= <- <-]. by eapply Hc.
Qed.

Lemma lift_safe {S A} (r : result A) :
  (∀ x, r = Raise x -> is_Exception x = true) ->
  raises_Exception_only (lift (S:=S) r).
Proof. intros Hr s x s' [= -> _]. by apply Hr. Qed.

(** A [try] whose body raises nothing beyond [Exception], with a handler
    that returns, returns. *)
Lemma try_except_returns {S A} (body : M S A) (v : A) s :
  raises_Exception_only body ->
  returns (try_except body (fun _ => ret v)) s.
Proof.
  intros Hsafe. unfold returns, try_except.
  destruct (body s) as [[a|x] s1] eqn:E.
  - by eexists _, _.
  - rewrite (Hsafe _ _ _ E). by eexists _, _.
Qed.

(** ** The store *)

Section StoreFacts.

Implicit Types (s : store) (t : table) (message : dict) (db_path : string).

Lemma init_db_returns db_path s : ∃ s', init_db db_path s = (Ok tt, s').
Proof.
  unfold init_db, try_except, makedirs, mbind, M_bind, bind.
  destruct (String.eqb _ _); [by eexists|].
  destruct s as [| |[t|]]; simpl; by eexists.
Qed.

Lemma init_db_opens db_path s :
  dirname db_path ≠ EmptyString -> s ≠ Unopenable ->
  init_db db_path s = (Ok tt, Database (Some empty_table)).
Proof.
  intros Hdir Hs.
  unfold init_db, try_except, makedirs, mbind, M_bind, bind.
  destruct (String.eqb_spec (dirname db_path) EmptyString) as [|_]; [done|].
  by destruct s as [| |[t|]].
Qed.

Lemma init_db_fails db_path s :
  dirname db_path = EmptyString \/ s = Unopenable ->
  init_db db_path s = (Ok tt, s).
Proof.
  unfold init_db, try_except, makedirs, mbind, M_bind, bind.
  intros [-> | ->]; [done|].
  by destruct (String.eqb _ _).
Qed.

(** A key that is missing stops [insert_message] before any statement
    runs. *)
Lemma insert_message_missing_key message db_path s k :
  k ∈ columns -> message !! k = None ->
  insert_message message db_path s = (Ok tt, s).
Proof.
  intros Hk Hnone.
  unfold insert_message, try_except, mbind, M_bind, bind, connect, lift, getitem.
  destruct s as [| |d]; [done..|].
  unfold columns in Hk.
  repeat (apply elem_of_cons in Hk as [-> | Hk];
          [ rewrite Hnone; repeat case_match; simplify_eq; done | ]).
  by apply elem_of_nil in Hk.
Qed.

Lemma max_rowid_le t :
  forallb (fun r => row_id r <=? seq t) (rows t) = true -> 0 <= seq t ->
  max_rowid (rows t) <= seq t.
Proof.
  intros H H0. unfold max_rowid. induction (rows t) as [|r rs IH]; simpl in *.
  - done.
  - apply andb_true_iff in H as [Hr Hrs]. apply Z.leb_le in Hr.
    specialize (IH Hrs). lia.
Qed.

Lemma table_ok_last t :
  table_ok t = true -> Z.max (seq t) (max_rowid (rows t)) = seq t.
Proof.
  unfold table_ok. rewrite !andb_true_iff.
  intros [[[_ Hall] H0] _]. apply Z.leb_le in H0.
  pose proof (max_rowid_le t Hall H0). lia.
Qed.

Lemma table_ok_below t r :
  table_ok t = true -> r ∈ rows t -> row_id r <= seq t.
Proof.
  unfold table_ok. rewrite !andb_true_iff.
  intros [[[_ Hall] _] _] Hr.
  rewrite forallb_forall in Hall. apply Z.leb_le, Hall.
  by apply list_elem_of_In.
Qed.

Lemma ids_increasing_app lo rs r :
  ids_increasing lo rs = true ->
  lo < row_id r -> (∀ r', r' ∈ rs -> row_id r' < row_id r) ->
  ids_increasing lo (rs ++ [r]) = true.
Proof.
  revert lo. induction rs as [|r0 rs IH]; intros lo Hinc Hlo Hlt; simpl in *.
  - rewrite andb_true_r. by apply Z.ltb_lt.
  - apply andb_true_iff in Hinc as [H0 Hinc]. rewrite H0. simpl.
    apply IH; [done| |].
    + apply Hlt. by left.
    + intros r' Hr'. apply Hlt. by right.
Qed.

Lemma append_row_ok t u st li lr de :
  table_ok t = true -> seq t < MAX_ROWID ->
  table_ok (Table (rows t ++ [Row (seq t + 1) u st li lr de]) (seq t + 1)) = true.
Proof.
  intros Hok Hroom. pose proof Hok as Hok'.
  unfold table_ok in Hok |- *. rewrite !andb_true_iff in Hok |- *.
  destruct Hok as [[[Hinc Hall] H0] Hmax].
  apply Z.leb_le in H0. simpl. repeat split.
  - apply ids_increasing_app; simpl; [done|lia|].
    intros r' Hr'. pose proof (table_ok_below t r' Hok' Hr'). lia.
  - rewrite forallb_app. simpl. rewrite andb_true_iff. split.
    + rewrite forallb_forall in Hall |- *. intros x Hx.
      specialize (Hall x Hx). apply Z.leb_le in Hall. apply Z.leb_le. lia.
    + rewrite andb_true_r. apply Z.leb_le. lia.
  - apply Z.leb_le. lia.
  - apply Z.leb_le. lia.
Qed.

Lemma text_field_bind message k :
  text_field message k = true ->
  ∃ v c, message !! k = Some v /\ bind_text v = Ok c /\ cell c = v.
Proof.
  unfold text_field. destruct (message !! k) as [[ |x| |]|]; try done.
  - by exists PNone, None.
  - by exists (PStr x), (Some x).
Qed.

Lemma insert_message_appends message db_path t u st li lr de cu cst cli clr cde :
  message !! "User ID" = Some u -> message !! "Status" = Some st ->
  message !! "Log in" = Some li -> message !! "Last Request" = Some lr ->
  message !! "Description" = Some de ->
  bind_text u = Ok cu -> bind_text st = Ok cst -> bind_text li = Ok cli ->
  bind_text lr = Ok clr -> bind_text de = Ok cde ->
  table_ok t = true -> seq t < MAX_ROWID ->
  insert_message message db_path (Database (Some t))
  = (Ok tt,
     Database (Some (Table (rows t ++ [Row (seq t + 1) cu cst cli clr cde])
                           (seq t + 1)))).
Proof.
  intros Hu Hst Hli Hlr Hde Bu Bst Bli Blr Bde Hok Hroom.
  unfold insert_message, try_except, mbind, M_bind, bind, connect, lift,
    getitem, exec_insert, prepare, append_row, mbind, M_bind, bind, lift.
  rewrite Hu, Hst, Hli, Hlr, Hde, Bu, Bst, Bli, Blr, Bde.
  rewrite (table_ok_last t Hok).
  destruct (Z.leb_spec MAX_ROWID (seq t)); [lia|done].
Qed.

Lemma get_all_messages_rows db_path t :
  get_all_messages db_path (Database (Some t))
  = (Ok (map dict_of_row (rows t)), Database (Some t)).
Proof. reflexivity. Qed.

Lemma get_all_messages_failure db_path s :
  (∀ t, s ≠ Database (Some t)) ->
  get_all_messages db_path s = (Ok [], s).
Proof.
  intros Hs. destruct s as [| |[t|]]; try reflexivity.
  by destruct (Hs t).
Qed.

Lemma dict_of_row_columns r :
  dict_of_row r !! "User ID" = Some (cell (row_user_id r))
  /\ dict_of_row r !! "Status" = Some (cell (row_status r))
  /\ dict_of_row r !! "Log in" = Some (cell (row_log_in r))
  /\ dict_of_row r !! "Last Request" = Some (cell (row_last_request r))
  /\ dict_of_row r !! "Description" = Some (cell (row_description r))
  /\ dict_of_row r !! "id" = Some (PInt (row_id r)).
Proof. repeat split; reflexivity. Qed.

(** C2.  Round trip through the store: on a database holding the table,
    with a rowid still to hand out, inserting an event whose five fields
    ("User ID", Status, "Log in", "Last Request", Description) are strings
    and then listing the table returns the records listed before,
    followed by one new record; the five fields of the new record equal
    those of the event, and its id is above every id listed before it. *)
Theorem insert_then_get_all_round_trip message db_path t :
  table_ok t = true -> seq t < MAX_ROWID ->
  forallb (text_field message) columns = true ->
  ∃ record s',
    (insert_message message db_path;; get_all_messages db_path)
      (Database (Some t))
    = (Ok (map dict_of_row (rows t) ++ [record]), s')
    /\ get_all_messages db_path (Database (Some t))
       = (Ok (map dict_of_row (rows t)), Database (Some t))
    /\ (∀ k, k ∈ columns -> record !! k = message !! k)
    /\ record !! "id" = Some (PInt (seq t + 1))
    /\ (∀ r, r ∈ rows t -> row_id r < seq t + 1)
    /\ store_ok s' = true.
Proof.
  intros Hok Hroom Hfields.
  simpl in Hfields. rewrite !andb_true_iff in Hfields.
  destruct Hfields as (Fu & Fst & Fli & Flr & Fde & _).
  apply text_field_bind in Fu as (u & cu & Hu & Bu & Cu).
  apply text_field_bind in Fst as (st & cst & Hst & Bst & Cst).
  apply text_field_bind in Fli as (li & cli & Hli & Bli & Cli).
  apply text_field_bind in Flr as (lr & clr & Hlr & Blr & Clr).
  apply text_field_bind in Fde as (de & cde & Hde & Bde & Cde).
  set (r := Row (seq t + 1) cu cst cli clr cde).
  exists (dict_of_row r).
  exists (Database (Some (Table (rows t ++ [r]) (seq t + 1)))).
  repeat split.
  - erewrite bind_Ok
      by (eapply insert_message_appends; eassumption).
    rewrite get_all_messages_rows. simpl. by rewrite map_app.
  - intros k Hk. unfold columns in Hk.
    destruct (dict_of_row_columns r) as (D1 & D2 & D3 & D4 & D5 & _).
    simpl in D1, D2, D3, D4, D5.
    repeat (apply elem_of_cons in Hk as [-> | Hk]; [ congruence | ]).
    by apply elem_of_nil in Hk.
  - intros r' Hr'. pose proof (table_ok_below t r' Hok Hr'). lia.
  - simpl. by apply append_row_ok.
Qed.

Lemma insert_then_get_all_round_trip_witness :
  ∃ record s',
    (insert_message test_message TEST_DB_PATH;;
     get_all_messages TEST_DB_PATH)
      (Database (Some empty_table))
    = (Ok (map dict_of_row (rows empty_table) ++ [record]), s')
    /\ get_all_messages TEST_DB_PATH (Database (Some empty_table))
       = (Ok (map dict_of_row (rows empty_table)),
          Database (Some empty_table))
    /\ (∀ k, k ∈ columns -> record !! k = test_message !! k)
    /\ record !! "id" = Some (PInt (seq empty_table + 1))
    /\ (∀ r, r ∈ rows empty_table -> row_id r < seq empty_table + 1)
    /\ store_ok s' = true.
Proof.
  apply (insert_then_get_all_round_trip test_message TEST_DB_PATH
           empty_table); [reflexivity | reflexivity | reflexivity].
Defined.

(** With a path that has a directory part, [init_db] is a clean slate:
    whatever the database that can be opened holds (no table, an empty
    table, a table with rows and a used-up counter), or when its directory
    is still to be made, [init_db] leaves exactly the empty table with a
    fresh counter; so does calling it twice in succession, and listing
    then returns nothing. *)
Theorem init_db_clean_slate db_path s :
  dirname db_path ≠ EmptyString -> s ≠ Unopenable ->
  init_db db_path s = (Ok tt, Database (Some empty_table))
  /\ (init_db db_path;; init_db db_path) s
     = (Ok tt, Database (Some empty_table))
  /\ (init_db db_path;; init_db db_path;; get_all_messages db_path) s
     = (Ok [], Database (Some empty_table)).
Proof.
  intros Hdir Hs.
  assert (H1 : init_db db_path s = (Ok tt, Database (Some empty_table)))
    by by apply init_db_opens.
  assert (H2 : init_db db_path (Database (Some empty_table))
               = (Ok tt, Database (Some empty_table)))
    by by apply init_db_opens.
  repeat split.
  - done.
  - by rewrite (bind_Ok _ _ _ _ _ H1).
  - rewrite (bind_Ok _ _ _ _ _ H1), (bind_Ok _ _ _ _ _ H2).
    apply get_all_messages_rows.
Qed.

Lemma init_db_clean_slate_witness :
  let s := Database (Some (Table [Row 4 (Some "cclemens") (Some "green")
                                      None None (Some "Job Summary Inquiry")]
                                 7)) in
  init_db TEST_DB_PATH s = (Ok tt, Database (Some empty_table))
  /\ (init_db TEST_DB_PATH;; init_db TEST_DB_PATH) s
     = (Ok tt, Database (Some empty_table))
  /\ (init_db TEST_DB_PATH;; init_db TEST_DB_PATH;;
      get_all_messages TEST_DB_PATH) s
     = (Ok [], Database (Some empty_table)).
Proof.
  intros s. apply (init_db_clean_slate TEST_DB_PATH s); [ | ].
  - vm_compute. discriminate.
  - discriminate.
Defined.

(** C5, on the code.  With a path that has no directory part, as
    "buzz.sqlite", [os.path.dirname] gives the empty string and
    [os.makedirs] raises before the database is opened; the [except] logs
    the error and [init_db] returns.  So [init_db], called once or twice,
    leaves every store as it was: a table that holds a row keeps it, and
    listing after two calls still returns it.  With "data/buzz.sqlite"
    the same two calls on the same store leave the empty table. *)
Theorem init_db_bare_name_drops_nothing :
  let r := Row 4 (Some "cclemens") (Some "green") None None
               (Some "Job Summary Inquiry") in
  let s := Database (Some (Table [r] 7)) in
  dirname "buzz.sqlite" = EmptyString
  /\ (∀ s0, init_db "buzz.sqlite" s0 = (Ok tt, s0))
  /\ (∀ s0, (init_db "buzz.sqlite";; init_db "buzz.sqlite") s0 = (Ok tt, s0))
  /\ (init_db "buzz.sqlite";; init_db "buzz.sqlite";;
      get_all_messages "buzz.sqlite") s
     = (Ok [dict_of_row r], s)
  /\ row_count s = 1%nat
  /\ (init_db "data/buzz.sqlite";; init_db "data/buzz.sqlite";;
      get_all_messages "data/buzz.sqlite") s
     = (Ok [], Database (Some empty_table)).
Proof.
  intros r s.
  assert (Hbare : ∀ s0, init_db "buzz.sqlite" s0 = (Ok tt, s0)).
  { intros s0. apply init_db_fails. left. reflexivity. }
  assert (Hdir : ∀ s0, s0 ≠ Unopenable ->
            init_db "data/buzz.sqlite" s0
            = (Ok tt, Database (Some empty_table))).
  { intros s0 Hs0. apply init_db_opens; [|done]. vm_compute. discriminate. }
  split; [reflexivity|]. split; [exact Hbare|]. split; [|split; [|split]].
  - intros s0. by rewrite (bind_Ok _ _ _ _ _ (Hbare s0)).
  - rewrite (bind_Ok _ _ _ _ _ (Hbare s)), (bind_Ok _ _ _ _ _ (Hbare s)).
    apply get_all_messages_rows.
  - reflexivity.
  - rewrite (bind_Ok _ _ _ _ _ (Hdir s ltac:(discriminate))).
    rewrite (bind_Ok _ _ _ _ _
               (Hdir (Database (Some empty_table)) ltac:(discriminate))).
    apply get_all_messages_rows.
Qed.

(** Rows with increasing ids: at most one has a given id. *)
Lemma ids_increasing_above lo rs r :
  ids_increasing lo rs = true -> r ∈ rs -> lo < row_id r.
Proof.
  revert lo. induction rs as [|r0 rs IH]; intros lo Hinc Hr; simpl in *.
  - by apply elem_of_nil in Hr.
  - apply andb_true_iff in Hinc as [H0 Hinc]. apply Z.ltb_lt in H0.
    apply elem_of_cons in Hr as [-> | Hr]; [done|].
    specialize (IH _ Hinc Hr). lia.
Qed.

Lemma filter_absent id rs :
  existsb (fun r => row_id r =? id) rs = false ->
  filter (fun r => row_id r ≠ id) rs = rs.
Proof.
  induction rs as [|r rs IH]; simpl; [done|].
  intros H. apply orb_false_iff in H as [Hr Hrs]. apply Z.eqb_neq in Hr.
  rewrite filter_cons_True by done. by rewrite IH.
Qed.

Lemma filter_unique lo id rs :
  ids_increasing lo rs = true ->
  length (filter (fun r => row_id r ≠ id) rs)
  = Nat.sub (length rs)
            (if existsb (fun r => row_id r =? id) rs then 1%nat else 0%nat).
Proof.
  revert lo. induction rs as [|r rs IH]; intros lo Hinc; simpl in *; [done|].
  apply andb_true_iff in Hinc as [H0 Hinc].
  destruct (Z.eqb_spec (row_id r) id) as [Heq | Hne]; simpl.
  - rewrite filter_cons_False by (intros H; by apply H).
    rewrite filter_absent; [lia|].
    apply not_true_is_false. intros Hex.
    apply existsb_exists in Hex as (r' & Hin & Hid).
    apply Z.eqb_eq in Hid. apply list_elem_of_In in Hin.
    pose proof (ids_increasing_above _ _ _ Hinc Hin). lia.
  - rewrite filter_cons_True by done. simpl.
    rewrite (IH _ Hinc).
    destruct (existsb _ rs) eqn:Hex; [|lia].
    apply existsb_exists in Hex as (r' & Hin & _).
    destruct rs; [by destruct Hin | simpl; lia].
Qed.

Lemma filter_gone id rs :
  existsb (fun r => row_id r =? id) (filter (fun r => row_id r ≠ id) rs)
  = false.
Proof.
  apply not_true_is_false. intros Hex.
  apply existsb_exists in Hex as (r & Hin & Hid).
  apply Z.eqb_eq in Hid. apply list_elem_of_In, list_elem_of_filter in Hin.
  by destruct Hin.
Qed.

Lemma ids_increasing_weaken lo lo' rs :
  lo' <= lo -> ids_increasing lo rs = true -> ids_increasing lo' rs = true.
Proof.
  destruct rs as [|r rs]; simpl; [done|].
  intros Hle H. apply andb_true_iff in H as [H0 H]. apply Z.ltb_lt in H0.
  rewrite H, andb_true_r. apply Z.ltb_lt. lia.
Qed.

Lemma ids_increasing_filter lo id rs :
  ids_increasing lo rs = true ->
  ids_increasing lo (filter (fun r => row_id r ≠ id) rs) = true.
Proof.
  revert lo. induction rs as [|r rs IH]; intros lo Hinc; simpl in *; [done|].
  apply andb_true_iff in Hinc as [H0 Hinc].
  destruct (decide (row_id r ≠ id)).
  - rewrite filter_cons_True by done. simpl. rewrite H0. by apply IH.
  - rewrite filter_cons_False by done. apply IH.
    apply Z.ltb_lt in H0. eapply ids_increasing_weaken; [|done]. lia.
Qed.

Lemma delete_rows_ok id t :
  table_ok t = true ->
  table_ok (Table (filter (fun r => row_id r ≠ id) (rows t)) (seq t)) = true.
Proof.
  unfold table_ok. rewrite !andb_true_iff. simpl.
  intros [[[Hinc Hall] H0] Hmax]. repeat split; try done.
  - by apply ids_increasing_filter.
  - rewrite forallb_forall in Hall |- *. intros r Hr. apply Hall.
    apply list_elem_of_In, list_elem_of_filter in Hr as [_ Hr].
    by apply list_elem_of_In.
Qed.

Lemma delete_message_table message_id db_path t :
  in_int64 message_id = true ->
  delete_message message_id db_path (Database (Some t))
  = (Ok tt, Database (Some (Table (filter (fun r => row_id r ≠ message_id)
                                          (rows t)) (seq t)))).
Proof.
  intros Hin.
  unfold delete_message, try_except, exec_delete, mbind, M_bind, bind,
    connect, prepare, lift, bind_int, delete_rows.
  by rewrite Hin.
Qed.

Lemma delete_message_noop message_id db_path s :
  in_int64 message_id = false \/ (∀ t, s ≠ Database (Some t)) ->
  delete_message message_id db_path s = (Ok tt, s).
Proof.
  unfold delete_message, try_except, exec_delete, mbind, M_bind, bind,
    connect, prepare, lift, bind_int, delete_rows.
  intros [Hout | Hs].
  - rewrite Hout. by destruct s as [| |[t|]].
  - destruct s as [| |[t|]]; try done. by destruct (Hs t).
Qed.

Lemma table_ok_int64 t r :
  table_ok t = true -> r ∈ rows t -> in_int64 (row_id r) = true.
Proof.
  intros Hok Hr. pose proof (table_ok_below t r Hok Hr) as Hle.
  unfold table_ok in Hok. rewrite !andb_true_iff in Hok.
  destruct Hok as [[[Hinc _] _] Hmax]. apply Z.leb_le in Hmax.
  pose proof (ids_increasing_above _ _ _ Hinc Hr).
  unfold in_int64, MIN_INT64. apply andb_true_iff.
  split; apply Z.leb_le; unfold MAX_ROWID in *; lia.
Qed.

(** C6.  Delete by id, on any store whose rowids are in order:
    [delete_message] returns normally; the row count drops by exactly one
    when a row has the id and by nothing otherwise; no row with the id is
    left; every other row stays; and when no row has the id the store is
    left as it was. *)
Theorem delete_message_removes_exactly_one message_id db_path s :
  store_ok s = true ->
  ∃ s',
    delete_message message_id db_path s = (Ok tt, s')
    /\ row_count s'
       = (row_count s - (if has_row message_id s then 1 else 0))%nat
    /\ has_row message_id s' = false
    /\ (∀ r, r ∈ stored_rows s -> row_id r ≠ message_id ->
             r ∈ stored_rows s')
    /\ (has_row message_id s = false -> s' = s)
    /\ store_ok s' = true.
Proof.
  intros Hok.
  destruct (in_int64 message_id) eqn:Hin.
  - destruct s as [| |[t|]];
      try (eexists; split;
           [apply delete_message_noop; right; intros ?; discriminate
           | repeat split; try done; unfold row_count; simpl; lia ]).
    exists (Database (Some (Table (filter (fun r => row_id r ≠ message_id)
                                          (rows t)) (seq t)))).
    simpl in Hok. pose proof Hok as Hok'.
    unfold table_ok in Hok'. rewrite !andb_true_iff in Hok'.
    destruct Hok' as [[[Hinc _] _] _].
    split; [by apply delete_message_table|].
    unfold row_count, has_row. simpl. repeat split.
    + by eapply filter_unique.
    + apply filter_gone.
    + intros r Hr Hne. by apply list_elem_of_filter.
    + intros Habs. rewrite filter_absent by done. by destruct t.
    + by apply delete_rows_ok.
  - exists s. split; [apply delete_message_noop; by left|].
    assert (Habs : has_row message_id s = false).
    { apply not_true_is_false. intros Hex. unfold has_row in Hex.
      apply existsb_exists in Hex as (r & Hr & Hid).
      apply Z.eqb_eq in Hid. apply list_elem_of_In in Hr.
      destruct s as [| |[t|]]; simpl in Hr; try by apply elem_of_nil in Hr.
      pose proof (table_ok_int64 t r Hok Hr). congruence. }
    rewrite Habs. repeat split; try done. lia.
Qed.

Lemma delete_message_removes_exactly_one_witness :
  let s := Database (Some (Table [Row 1 (Some "ajurek") (Some "red")
                                      None None None;
                                  Row 3 (Some "bwendt") (Some "green")
                                      None None None] 3)) in
  ∃ s',
    delete_message 3 TEST_DB_PATH s = (Ok tt, s')
    /\ row_count s' = (row_count s - (if has_row 3 s then 1 else 0))%nat
    /\ has_row 3 s' = false
    /\ (∀ r, r ∈ stored_rows s -> row_id r ≠ 3 -> r ∈ stored_rows s')
    /\ (has_row 3 s = false -> s' = s)
    /\ store_ok s' = true.
Proof.
  intros s.
  apply (delete_message_removes_exactly_one 3 TEST_DB_PATH s). reflexivity.
Defined.

Lemma getitem_safe message k :
  raises_Exception_only (lift (S:=store) (getitem message k)).
Proof.
  apply lift_safe. unfold getitem. intros x.
  destruct (message !! k); [done|]. by intros [= <-].
Qed.

Lemma bind_text_safe v : raises_Exception_only (lift (S:=store) (bind_text v)).
Proof.
  apply lift_safe. intros x. destruct v as [ |x0|z|l]; simpl; try done.
  - destruct (in_int64 z); [done|]. by intros [= <-].
  - by intros [= <-].
Qed.

Lemma connect_safe : raises_Exception_only connect.
Proof. intros [| |d] x s'; simpl; try done; by intros [= <- _]. Qed.

Lemma prepare_safe : raises_Exception_only prepare.
Proof. intros [| |[t|]] x s'; simpl; try done; by intros [= <- _]. Qed.

Lemma append_row_safe u st li lr de :
  raises_Exception_only (append_row u st li lr de).
Proof.
  intros [| |[t|]] x s'; simpl; try (by intros [= <- _]).
  destruct (MAX_ROWID <=? _); [by intros [= <- _]|done].
Qed.

Lemma exec_insert_safe params : raises_Exception_only (exec_insert params).
Proof.
  destruct params as [[[[u st] li] lr] de]. unfold exec_insert.
  apply bind_safe; [apply prepare_safe|intros _].
  repeat (apply bind_safe; [apply bind_text_safe|intros ?]).
  apply append_row_safe.
Qed.

Lemma insert_message_returns message db_path s :
  ∃ s', insert_message message db_path s = (Ok tt, s').
Proof.
  destruct (try_except_returns
              (connect;;
               u ← lift (getitem message "User ID");
               st ← lift (getitem message "Status");
               li ← lift (getitem message "Log in");
               lr ← lift (getitem message "Last Request");
               de ← lift (getitem message "Description");
               exec_insert (u, st, li, lr, de)) tt s) as ([] & s' & H).
  - apply bind_safe; [apply connect_safe|intros _].
    repeat (apply bind_safe; [apply getitem_safe|intros ?]).
    apply exec_insert_safe.
  - by exists s'.
Qed.

Lemma delete_message_returns message_id db_path s :
  ∃ s', delete_message message_id db_path s = (Ok tt, s').
Proof.
  destruct (in_int64 message_id) eqn:Hin.
  - destruct s as [| |[t|]];
      [ eexists; apply delete_message_noop; right; intros ?; discriminate ..
      | | eexists; apply delete_message_noop; right; intros ?; discriminate ].
    eexists. by apply delete_message_table.
  - exists s. apply delete_message_noop. by left.
Qed.

Lemma get_all_messages_returns db_path s :
  ∃ messages, get_all_messages db_path s = (Ok messages, s).
Proof.
  destruct s as [| |[t|]]; by eexists.
Qed.

(** C10.  No store operation lets an exception out.  Each of the four
    returns normally on every store; [init_db], [insert_message] and
    [delete_message] return the same [None] when they fail as when they
    succeed; [get_all_messages] returns the empty list whenever the table
    cannot be read; and [insert_message] given a dict that lacks one of
    the keys "User ID", "Status", "Log in", "Last Request", "Description"
    returns normally and leaves the store as it was. *)
Theorem store_operations_never_raise db_path message message_id s :
  (∃ s', init_db db_path s = (Ok tt, s'))
  /\ (∃ s', insert_message message db_path s = (Ok tt, s'))
  /\ (∃ s', delete_message message_id db_path s = (Ok tt, s'))
  /\ (∃ messages, get_all_messages db_path s = (Ok messages, s))
  /\ init_db db_path Unopenable = (Ok tt, Unopenable)
  /\ insert_message message db_path Unopenable = (Ok tt, Unopenable)
  /\ delete_message message_id db_path Unopenable = (Ok tt, Unopenable)
  /\ ((∀ t, s ≠ Database (Some t)) ->
      get_all_messages db_path s = (Ok [], s))
  /\ (∀ k, k ∈ columns -> message !! k = None ->
      insert_message message db_path s = (Ok tt, s)).
Proof.
  split; [apply init_db_returns|].
  split; [apply insert_message_returns|].
  split; [apply delete_message_returns|].
  split; [apply get_all_messages_returns|].
  split; [apply init_db_fails; by right|].
  split; [reflexivity|].
  split; [apply delete_message_noop; right; intros ?; discriminate|].
  split; [apply get_all_messages_failure|].
  intros k. apply insert_message_missing_key.
Qed.

Lemma store_operations_never_raise_witness :
  get_all_messages TEST_DB_PATH (Database None) = (Ok [], Database None)
  /\ insert_message (delete "Status" test_message) TEST_DB_PATH
       (Database (Some empty_table))
     = (Ok tt, Database (Some empty_table)).
Proof.
  destruct (store_operations_never_raise TEST_DB_PATH
              (delete "Status" test_message) 1 (Database None))
    as (_ & _ & _ & _ & _ & _ & _ & Hget & _).
  destruct (store_operations_never_raise TEST_DB_PATH
              (delete "Status" test_message) 1 (Database (Some empty_table)))
    as (_ & _ & _ & _ & _ & _ & _ & _ & Hins).
  split.
  - apply Hget. intros t. discriminate.
  - apply (Hins "Status"); [ | reflexivity].
    unfold columns. apply list_elem_of_In. simpl. tauto.
Defined.

End StoreFacts.

(** ** The consumer *)

Section ConsumerFacts.

Implicit Types (w : world) (message : dict) (values : list dict).

Lemma processed_fields message :
  processed message !! "User_ID" = Some (get message "User_ID")
  /\ processed message !! "Status" = Some (get message "Status")
  /\ processed message !! "Log_in" = Some (get message "Log_in")
  /\ processed message !! "Last_Request" = Some (get message "Last_Request")
  /\ processed message !! "Description" = Some (get message "Description")
  /\ processed message !! "timestamp" = Some (get message "timestamp").
Proof. repeat split; reflexivity. Qed.

(** The processed event has no key "User ID": its own is "User_ID". *)
Lemma processed_no_user_id_column message :
  processed message !! "User ID" = None.
Proof. reflexivity. Qed.

Lemma processed_truthy message : truthy (Some (processed message)) = true.
Proof. reflexivity. Qed.

Lemma process_message_hashable message w k :
  hash_key (get message "User_ID") = Ok k ->
  process_message message w
  = (Ok (Some (processed message)),
     World (db w) (<[k := processed message]> (user_status_data w))).
Proof.
  intros Hk.
  unfold process_message, try_except, mbind, M_bind, bind, lift, getitem,
    set_user_status, store_entry, mbind, M_bind, bind, lift.
  destruct (processed_fields message) as (-> & _).
  by rewrite Hk.
Qed.

Lemma process_message_unhashable message w items :
  get message "User_ID" = PList items ->
  process_message message w = (Ok None, w).
Proof.
  intros Hl.
  unfold process_message, try_except, mbind, M_bind, bind, lift, getitem,
    set_user_status, store_entry, mbind, M_bind, bind, lift.
  destruct (processed_fields message) as (-> & _).
  by rewrite Hl.
Qed.

Lemma hash_key_cases v :
  (∃ k, hash_key v = Ok k) \/ (∃ items, v = PList items).
Proof. destruct v; simpl; eauto. Qed.

(** C3, as the code has it.  [process_message] never raises.  When the
    value under "User_ID" is missing, [None], a string or a number, the
    event is returned, each of its five fields holding the payload's
    value for the key, and [None] where the key is missing; on
    [{"User_ID": "x"}] that is "x" and four times [None].  When the value
    under "User_ID" is a list, [process_message] returns [None] and
    changes nothing. *)
Theorem process_message_missing_keys message w :
  (∃ r w', process_message message w = (Ok r, w'))
  /\ (∀ k, hash_key (get message "User_ID") = Ok k ->
        ∃ event w',
          process_message message w = (Ok (Some event), w')
          /\ (∀ f, f ∈ fields -> event !! f = Some (get message f))
          /\ (∀ f, f ∈ fields -> message !! f = None ->
                   event !! f = Some PNone))
  /\ (∀ items, get message "User_ID" = PList items ->
        process_message message w = (Ok None, w))
  /\ (∃ event w',
        process_message only_user_id w = (Ok (Some event), w')
        /\ event !! "User_ID" = Some (PStr "x")
        /\ event !! "Status" = Some PNone
        /\ event !! "Log_in" = Some PNone
        /\ event !! "Last_Request" = Some PNone
        /\ event !! "Description" = Some PNone).
Proof.
  assert (Hfields : ∀ f, f ∈ fields ->
            processed message !! f = Some (get message f)).
  { intros f Hf. unfold fields in Hf.
    destruct (processed_fields message) as (P1 & P2 & P3 & P4 & P5 & _).
    repeat (apply elem_of_cons in Hf as [-> | Hf]; [done|]).
    by apply elem_of_nil in Hf. }
  split; [|split; [|split]].
  - destruct (hash_key_cases (get message "User_ID")) as [[k Hk]|[l Hl]].
    + rewrite (process_message_hashable _ _ _ Hk). by eexists _, _.
    + rewrite (process_message_unhashable _ _ _ Hl). by eexists _, _.
  - intros k Hk. eexists _, _.
    split; [by apply process_message_hashable|]. split; [done|].
    intros f Hf Hnone. rewrite (Hfields f Hf). unfold get. by rewrite Hnone.
  - intros items. apply process_message_unhashable.
  - eexists _, _.
    split; [by apply (process_message_hashable only_user_id w (HStr "x"))|].
    repeat split; reflexivity.
Qed.

Lemma process_message_missing_keys_witness :
  ∃ event w',
    process_message only_user_id fresh_world = (Ok (Some event), w')
    /\ (∀ f, f ∈ fields -> event !! f = Some (get only_user_id f))
    /\ (∀ f, f ∈ fields -> only_user_id !! f = None ->
             event !! f = Some PNone).
Proof.
  destruct (process_message_missing_keys only_user_id fresh_world)
    as (_ & H & _).
  apply (H (HStr "x")). reflexivity.
Defined.

(** C3 as stated fails: with a list under "User_ID" no event comes
    back. *)
Lemma process_message_list_user_id_returns_None :
  process_message list_user_id fresh_world = (Ok None, fresh_world)
  /\ ¬ (∃ event w',
          process_message list_user_id fresh_world = (Ok (Some event), w')).
Proof.
  assert (H : process_message list_user_id fresh_world
              = (Ok None, fresh_world)) by (vm_compute; reflexivity).
  split; [done|]. intros (event & w' & H'). congruence.
Qed.

(** The store operations of the consumer do not touch the dictionary. *)
Lemma on_db_user_status_data {A} (c : M store A) w :
  user_status_data (snd (on_db c w)) = user_status_data w.
Proof. unfold on_db. by destruct (c (db w)). Qed.

(** What [consume_one] hands the store is refused there. *)
Lemma insert_processed_noop message sql_path s :
  insert_message (processed message) sql_path s = (Ok tt, s).
Proof.
  apply (insert_message_missing_key _ _ _ "User ID").
  - unfold columns. apply list_elem_of_here.
  - apply processed_no_user_id_column.
Qed.

Lemma consume_one_is_process_message sql_path message w :
  consume_one sql_path message w = (process_message message;; ret tt) w.
Proof.
  unfold consume_one, mbind, M_bind, bind.
  destruct (hash_key_cases (get message "User_ID")) as [[k Hk]|[l Hl]].
  - rewrite (process_message_hashable _ _ _ Hk).
    rewrite processed_truthy. unfold on_db. simpl.
    by rewrite insert_processed_noop.
  - by rewrite (process_message_unhashable _ _ _ Hl).
Qed.

Lemma consume_messages_is_process_messages sql_path values w :
  consume_messages sql_path values w = process_messages values w.
Proof.
  revert w. induction values as [|v values IH]; intros w; simpl; [done|].
  unfold mbind, M_bind, bind. rewrite consume_one_is_process_message.
  unfold mbind, M_bind, bind.
  destruct (process_message v w) as [[r|x] w']; simpl; [apply IH|done].
Qed.

Lemma process_message_db message w :
  db (snd (process_message message w)) = db w.
Proof.
  destruct (hash_key_cases (get message "User_ID")) as [[k Hk]|[l Hl]].
  - by rewrite (process_message_hashable _ _ _ Hk).
  - by rewrite (process_message_unhashable _ _ _ Hl).
Qed.

(** C4, as the code has it.  [process_message] is not a pure transform:
    it sets [user_status_data[User_ID]] to the event it returns (and
    changes nothing when the user id is a list).  It leaves the database
    alone.  The loop of the consumer makes no update of its own: the
    dictionary it leaves is the one its calls of [process_message]
    leave. *)
Theorem process_message_updates_user_status_data message w :
  db (snd (process_message message w)) = db w
  /\ (∀ k, hash_key (get message "User_ID") = Ok k ->
        fst (process_message message w) = Ok (Some (processed message))
        /\ user_status_data (snd (process_message message w))
           = <[k := processed message]> (user_status_data w))
  /\ (∀ items, get message "User_ID" = PList items ->
        snd (process_message message w) = w)
  /\ (∀ sql_path values,
        user_status_data (snd (consume_messages sql_path values w))
        = user_status_data (snd (process_messages values w))).
Proof.
  split; [|split; [|split]].
  - apply process_message_db.
  - intros k Hk. by rewrite (process_message_hashable _ _ _ Hk).
  - intros items Hl. by rewrite (process_message_unhashable _ _ _ Hl).
  - intros sql_path values. by rewrite consume_messages_is_process_messages.
Qed.

Lemma process_message_updates_user_status_data_witness :
  fst (process_message only_user_id fresh_world)
  = Ok (Some (processed only_user_id))
  /\ user_status_data (snd (process_message only_user_id fresh_world))
     = <[HStr "x" := processed only_user_id]> (user_status_data fresh_world).
Proof.
  destruct (process_message_updates_user_status_data only_user_id fresh_world)
    as (_ & H & _).
  apply (H (HStr "x")). reflexivity.
Defined.

(** C4 as stated fails: a call of [process_message] alone changes
    [user_status_data]. *)
Lemma process_message_is_not_pure :
  user_status_data fresh_world !! HStr "x" = None
  /\ user_status_data (snd (process_message only_user_id fresh_world))
       !! HStr "x" = Some (processed only_user_id)
  /\ snd (process_message only_user_id fresh_world) ≠ fresh_world.
Proof.
  pose proof (process_message_hashable only_user_id fresh_world (HStr "x")
                eq_refl) as H.
  rewrite H. simpl.
  split; [apply lookup_empty|]. split; [apply lookup_insert_eq|].
  intros Heq. apply (f_equal (fun w => user_status_data w !! HStr "x")) in Heq.
  simpl in Heq. rewrite lookup_insert_eq, lookup_empty in Heq. discriminate.
Qed.

(** C1, on the code.  Three events for two users, consumed on a freshly
    initialized store: the dictionary ends with two entries, each the
    last event processed for its user, but the table ends with no row at
    all, since every insert stops at the missing key "User ID". *)
Theorem consume_three_events_inserts_no_row :
  let w := snd (consume_messages TEST_DB_PATH three_events fresh_world) in
  fst (consume_messages TEST_DB_PATH three_events fresh_world) = Ok tt
  /\ row_count (db w) = 0%nat
  /\ size (user_status_data w) = 2%nat
  /\ user_status_data w !! HStr "bwendt"
     = Some (processed (payload "bwendt" "red" "Inventory Check"))
  /\ user_status_data w !! HStr "cclemens"
     = Some (processed (payload "cclemens" "yellow" "Job Summary Inquiry")).
Proof.
  repeat split; vm_compute; reflexivity.
Qed.

End ConsumerFacts.

(** ** The generator *)

Import Producer.

Section GeneratorFacts.

Variable e : env.

Implicit Types (s : state) (m : message).

(** The state after [c] readings of the clock and [n] draws of the random
    source. *)
Local Abbreviation drawn c n s :=
  (State (c + clock_reads s) (n + draws s) (turn s) (live_data s)
         (published s) (trace s)).

Lemma randint_draws a b s :
  randint e a b s
  = (Ok (a + entropy e (draws s) mod (b + 1 - a)), drawn 0%nat 1%nat s).
Proof. reflexivity. Qed.

Lemma randint_range a b z :
  a <= b -> a <= a + z mod (b + 1 - a) <= b.
Proof. intros Hab. pose proof (Z.mod_pos_bound z (b + 1 - a)). lia. Qed.

Lemma choice_draws (seq : list string) s :
  seq ≠ [] ->
  ∃ x, x ∈ seq /\ choice e seq s = (Ok x, drawn 0%nat 1%nat s).
Proof.
  intros Hne.
  assert (Hlen : (0 < length seq)%nat) by (destruct seq; [done|simpl; lia]).
  pose proof (Z.mod_pos_bound (entropy e (draws s)) (Z.of_nat (length seq)))
    as Hr.
  destruct (lookup_lt_is_Some_2 seq
              (Z.to_nat (entropy e (draws s) mod Z.of_nat (length seq))))
    as [x Hx]; [lia|].
  exists x. split; [by eapply list_elem_of_lookup_2|].
  unfold choice. destruct (Nat.eqb_spec (length seq) 0); [lia|].
  unfold mbind, M_bind, bind, randbelow. simpl. by rewrite Hx.
Qed.

Lemma offsets_in_range s :
  1 <= hours_drawn e s <= 8 /\ 1 <= minutes_drawn e s <= 60.
Proof.
  unfold hours_drawn, minutes_drawn.
  pose proof (Z.mod_pos_bound (entropy e (draws s)) 8).
  pose proof (Z.mod_pos_bound (entropy e (S (draws s))) 60).
  lia.
Qed.

(** A turn of the generator, run to its end. *)
Lemma generate_message_runs s :
  let now := clock e (clock_reads s) in
  let login_time := now - timedelta_hours (hours_drawn e s) in
  let last_request_time := now - timedelta_minutes (minutes_drawn e s) in
  if (0 <=? login_time) && (0 <=? last_request_time)
  then ∃ user status description,
         user ∈ users /\ status ∈ statuses /\ description ∈ descriptions
         /\ generate_message e s
            = (Ok (Message user status (strftime login_time)
                           (strftime last_request_time) description),
               drawn 1%nat 5%nat s)
  else ∃ s', generate_message e s = (Raise OverflowError, s')
             /\ turn s' = turn s /\ live_data s' = live_data s
             /\ published s' = published s /\ trace s' = trace s.
Proof.
  destruct s as [cr dr tn ld pb tr].
  cbv [hours_drawn minutes_drawn generate_message mbind M_bind bind
       datetime_now randint randbelow lift datetime_sub ret
       draws clock_reads turn live_data published trace].
  change (8 + 1 - 1) with 8. change (60 + 1 - 1) with 60.
  destruct (0 <=? clock e cr - timedelta_hours (1 + entropy e dr mod 8));
    cbn [andb]; [|eexists; split; [reflexivity|by cbn]].
  destruct (0 <=? clock e cr
                  - timedelta_minutes (1 + entropy e (S dr) mod 60));
    [|eexists; split; [reflexivity|by cbn]].
  repeat match goal with
         | |- context [choice e ?seq ?st] =>
             let x := fresh "x" in
             let Hx := fresh "Hx" in
             let Ex := fresh "Ex" in
             destruct (choice_draws seq st) as (x & Hx & Ex); [done|];
             rewrite Ex; clear Ex
         end.
  by exists x, x0, x1.
Qed.

(** The turn leaves the file, the broker and the trace alone. *)
Lemma generate_message_frame s r s' :
  generate_message e s = (r, s') ->
  turn s' = turn s /\ live_data s' = live_data s
  /\ published s' = published s /\ trace s' = trace s.
Proof.
  intros H. pose proof (generate_message_runs s) as Hrun. simpl in Hrun.
  destruct (_ && _).
  - destruct Hrun as (u & st & d & _ & _ & _ & E).
    rewrite E in H. by injection H as <- <-.
  - destruct Hrun as (s1 & E & ?). rewrite E in H. by injection H as <- <-.
Qed.

Lemma generate_message_rosters s m s' :
  generate_message e s = (Ok m, s') ->
  User_ID m ∈ users /\ Status m ∈ statuses /\ Description m ∈ descriptions.
Proof.
  intros H. pose proof (generate_message_runs s) as Hrun. simpl in Hrun.
  destruct (_ && _).
  - destruct Hrun as (u & st & d & Hu & Hst & Hd & E).
    rewrite E in H. by injection H as <- <-.
  - destruct Hrun as (s1 & E & _). rewrite E in H. discriminate.
Qed.

Lemma generate_messages_rosters n s ms s' :
  generate_messages e n s = (Ok ms, s') ->
  length ms = n
  /\ ∀ m, m ∈ ms ->
        User_ID m ∈ users /\ Status m ∈ statuses
        /\ Description m ∈ descriptions.
Proof.
  revert s ms s'. induction n as [|n IH]; intros s ms s'; simpl.
  - intros [= <- <-]. split; [done|]. intros m Hm. by apply elem_of_nil in Hm.
  - unfold mbind, M_bind, bind.
    destruct (generate_message e s) as [[m0|x] s1] eqn:G; [|done].
    destruct (generate_messages e n s1) as [[ms1|x] s2] eqn:Gs; [|done].
    intros [= <- <-]. destruct (IH _ _ _ Gs) as [Hlen Hall].
    split; [simpl; by rewrite Hlen|].
    intros m Hm. apply elem_of_cons in Hm as [->|Hm].
    + by eapply generate_message_rosters.
    + by apply Hall.
Qed.

End GeneratorFacts.

(** C7.  Every message a turn of the generator yields has its user in the
    roster of five, its status among green, yellow and red, its
    description in the roster of five texts, its [Log_in] the reading of
    the clock less a whole number of hours from 1 to 8, and its
    [Last_Request] that reading less a whole number of minutes from 1 to
    60.  A clock that reads 8 hours or more past the first datetime always
    yields a message.  The first [n] messages of [generate_messages] are
    [n] such messages.  The login time need not come before the last
    request time: the draws 1 hour and 60 minutes give the same instant. *)
Theorem generate_message_in_rosters :
  (∀ e s m s',
     generate_message e s = (Ok m, s') ->
     let now := clock e (clock_reads s) in
     ∃ h mi,
       1 <= h <= 8 /\ 1 <= mi <= 60
       /\ User_ID m ∈ users
       /\ Status m ∈ statuses
       /\ Description m ∈ descriptions
       /\ Log_in m = strftime (now - timedelta_hours h)
       /\ Last_Request m = strftime (now - timedelta_minutes mi))
  /\ (∀ e s,
        timedelta_hours 8 <= clock e (clock_reads s) ->
        ∃ m s', generate_message e s = (Ok m, s'))
  /\ (∀ e n s ms s',
        generate_messages e n s = (Ok ms, s') ->
        length ms = n
        /\ ∀ m, m ∈ ms ->
              User_ID m ∈ users /\ Status m ∈ statuses
              /\ Description m ∈ descriptions)
  /\ (∃ e s m s' h mi,
        generate_message e s = (Ok m, s')
        /\ Log_in m = strftime (clock e (clock_reads s) - timedelta_hours h)
        /\ Last_Request m
           = strftime (clock e (clock_reads s) - timedelta_minutes mi)
        /\ ¬ (clock e (clock_reads s) - timedelta_hours h
              < clock e (clock_reads s) - timedelta_minutes mi)).
Proof.
  split; [|split; [|split]].
  - intros e s m s' H now.
    pose proof (generate_message_runs e s) as Hrun. simpl in Hrun.
    destruct (_ && _).
    + destruct Hrun as (u & st & d & Hu & Hst & Hd & E).
      rewrite E in H. injection H as <- <-.
      exists (hours_drawn e s), (minutes_drawn e s).
      pose proof (offsets_in_range e s). simpl. tauto.
    + destruct Hrun as (s1 & E & _). rewrite E in H. discriminate.
  - intros e s Hclock.
    pose proof (generate_message_runs e s) as Hrun. simpl in Hrun.
    pose proof (offsets_in_range e s) as [Hh Hm].
    unfold timedelta_hours, timedelta_minutes, HOUR, MINUTE in *.
    destruct (Z.leb_spec 0 (clock e (clock_reads s)
                            - hours_drawn e s * (60 * (60 * 1000000))));
      [|lia].
    destruct (Z.leb_spec 0 (clock e (clock_reads s)
                            - minutes_drawn e s * (60 * 1000000)));
      [|lia].
    destruct Hrun as (u & st & d & _ & _ & _ & E). by eexists _, _.
  - intros e n s ms s'. apply generate_messages_rosters.
  - exists equal_offsets, (initial None).
    eexists _, _. exists 1, 60.
    split; [vm_compute; reflexivity|].
    split; [reflexivity|]. split; [reflexivity|].
    vm_compute. discriminate.
Qed.

Lemma generate_message_in_rosters_witness :
  ∃ m s', generate_message calm (initial None) = (Ok m, s')
          /\ User_ID m ∈ users /\ Status m ∈ statuses
          /\ Description m ∈ descriptions.
Proof.
  destruct generate_message_in_rosters as (Hall & Hruns & _ & _).
  destruct (Hruns calm (initial None)) as (m & s' & E).
  { vm_compute. discriminate. }
  exists m, s'. split; [exact E|].
  destruct (Hall calm (initial None) m s' E)
    as (h & mi & _ & _ & Hu & Hs & Hd & _).
  tauto.
Defined.

(** ** The producer *)

Section ProducerFacts.

Variable e : env.

Implicit Types (s : state) (m : message) (cfg : config) (tr : list event).

Lemma sends_follow_writes_any_prev prev tr :
  sends_follow_writes None tr = true -> sends_follow_writes prev tr = true.
Proof.
  destruct tr as [|ev rest]; [done|]. simpl.
  by destruct ev.
Qed.

Lemma sends_follow_writes_app prev tr1 tr2 :
  sends_follow_writes prev tr1 = true ->
  sends_follow_writes None tr2 = true ->
  sends_follow_writes prev (tr1 ++ tr2) = true.
Proof.
  revert prev. induction tr1 as [|ev tr1 IH]; intros prev H1 H2; simpl in *.
  - by apply sends_follow_writes_any_prev.
  - apply andb_true_iff in H1 as [Hev H1]. rewrite Hev. simpl. by apply IH.
Qed.

Lemma streamed_refl producer s : streamed producer s s.
Proof.
  exists [], []. rewrite !app_nil_r. repeat split; done.
Qed.

Lemma streamed_trans producer s1 s2 s3 :
  streamed producer s1 s2 -> streamed producer s2 s3 ->
  streamed producer s1 s3.
Proof.
  intros (tr1 & new1 & T1 & L1 & F1 & N1 & I1)
         (tr2 & new2 & T2 & L2 & F2 & N2 & I2).
  exists (tr1 ++ tr2), (new1 ++ new2).
  split; [by rewrite T2, T1, app_assoc|].
  split; [by rewrite L2, L1, app_assoc|].
  split; [by apply sends_follow_writes_app|].
  split.
  - intros Hp. unfold no_send in *. rewrite forallb_app.
    by rewrite N1, N2.
  - intros t m Hin. apply in_app_iff. apply in_app_iff in Hin as [Hin|Hin].
    + left. by eapply I1.
    + right. by eapply I2.
Qed.

(** The calls of one turn, whatever their outcome. *)
Lemma stream_turn_streamed cfg producer s r s' :
  stream_turn e cfg producer s = (r, s') -> streamed producer s s'.
Proof.
  unfold stream_turn. unfold mbind at 1, M_bind, bind at 1.
  destruct (generate_message e s) as [[m|x] s1] eqn:G;
    apply generate_message_frame in G as (Gt & Gl & Gp & Gtr).
  2:{ intros [= <- <-]. exists [], []. unfold lines_of.
      rewrite Gl, Gtr, !app_nil_r. repeat split; done. }
  destruct s as [cr dr tn ld pb tr], s1 as [cr1 dr1 tn1 ld1 pb1 tr1].
  simpl in Gt, Gl, Gp, Gtr. subst tn1 ld1 pb1 tr1.
  cbv [mbind M_bind bind append_live_data record get_state lift
       set_live_data send put_state time_sleep next_turn ret
       clock_reads draws turn live_data published trace].
  unfold streamed, lines_of; cbn [trace live_data].
  destruct (file_append e tn) as [[]|x].
  2:{ intros [= <- <-]. exists [Write (json_line m)], [].
      rewrite app_nil_r. repeat split; try done. intros t m' [|[]]; done. }
  destruct producer.
  - destruct (producer_send e tn) as [[]|x].
    2:{ intros [= <- <-].
        exists [Write (json_line m); Send (topic cfg) m], [json_line m].
        rewrite <- app_assoc. cbn [default]. repeat split; try done.
        - cbn. by rewrite String.eqb_refl.
        - intros t m' [|[[= _ <-]|[]]]; [done|by left]. }
    destruct (sleep e tn) as [[]|x]; intros [= <- <-];
      exists [Write (json_line m); Send (topic cfg) m;
              Sleep (interval_secs cfg)], [json_line m];
      rewrite <- !app_assoc; cbn [default]; (repeat split; try done);
      try (cbn; by rewrite String.eqb_refl);
      intros t m' [|[[= _ <-]|[|[]]]]; try done; by left.
  - destruct (sleep e tn) as [[]|x]; intros [= <- <-];
      exists [Write (json_line m); Sleep (interval_secs cfg)], [json_line m];
      rewrite <- !app_assoc; cbn [default]; (repeat split; try done);
      intros t m' [|[|[]]]; done.
Qed.

Lemma stream_streamed cfg producer fuel s r s' :
  stream e cfg producer fuel s = (r, s') -> streamed producer s s'.
Proof.
  revert s. induction fuel as [|fuel IH]; intros s; simpl.
  - intros [= <- <-]. apply streamed_refl.
  - unfold mbind, M_bind, bind.
    destruct (stream_turn e cfg producer s) as [[[]|x] s1] eqn:T;
      apply stream_turn_streamed in T.
    + intros H. eapply streamed_trans; [done|]. by eapply IH.
    + by intros [= <- <-].
Qed.

Lemma finally_close_streamed producer producer' s r s' :
  finally_close e producer s = (r, s') ->
  streamed producer' s s' /\ turn s' = turn s /\ published s' = published s.
Proof.
  destruct s as [cr dr tn ld pb tr]. unfold finally_close.
  destruct producer.
  - cbv [mbind M_bind bind record lift clock_reads draws turn live_data
         published trace].
    intros H. assert (s' = State cr dr tn ld pb (tr ++ [Close])) as ->
      by (destruct (producer_close e); by injection H as _ <-).
    split; [|done]. exists [Close], []. unfold lines_of. cbn.
    rewrite app_nil_r. repeat split; try done. by intros t m [|[]].
  - intros [= <- <-]. split; [apply streamed_refl|done].
Qed.

Lemma step5_streamed cfg producer fuel s r s' :
  step5 e cfg producer fuel s = (r, s') -> streamed producer s s'.
Proof.
  unfold step5.
  destruct (stream e cfg producer fuel s) as [[[]|x] s1] eqn:St;
    apply stream_streamed in St.
  - by intros [= <- <-].
  - unfold mbind, M_bind, bind.
    destruct (finally_close e producer s1) as [[[]|y] s2] eqn:F;
      apply (finally_close_streamed _ producer) in F as [F _];
      intros [= <- <-]; by eapply streamed_trans.
  - destruct (_ || _); unfold mbind, M_bind, bind;
      destruct (finally_close e producer s1) as [[[]|y] s2] eqn:F;
      apply (finally_close_streamed _ producer) in F as [F _];
      intros [= <- <-]; by eapply streamed_trans.
Qed.

(** Before STEP 5 nothing is written or published.  [main] either stops
    there, or goes on to STEP 5 with the live data file deleted, and
    without a producer when STEP 4 failed. *)
Lemma main_cases fuel s :
  (∃ x s1, main e fuel s = (Raise x, s1)
           /\ trace s1 = trace s /\ published s1 = published s)
  \/ (∃ cfg producer,
        let s1 := State (clock_reads s) (draws s) (turn s) None
                        (published s) (trace s) in
        read_config e = Ok cfg
        /\ (demoted e = true -> producer = false)
        /\ main e fuel s = step5 e cfg producer fuel s1).
Proof.
  destruct s as [cr dr tn ld pb tr].
  unfold main, demoted.
  cbv [step1 step2_3 step4 try_except mbind M_bind bind lift sys_exit raise
       ret delete_live_data get_state set_live_data
       clock_reads draws turn live_data published trace].
  destruct (read_config e) as [cfg|x].
  2:{ left. destruct (is_Exception x); by eexists _, _. }
  destruct ld as [lines|].
  - destruct (unlink e) as [[]|x].
    2:{ left. destruct (is_Exception x); by eexists _, _. }
    destruct (makedirs e) as [[]|x].
    2:{ left. destruct (is_Exception x); by eexists _, _. }
    destruct (verify_services e) as [[]|x].
    2:{ destruct (is_Exception x); [right|left]; [|by eexists _, _].
        by exists cfg, false. }
    destruct (KafkaProducer e) as [[]|x].
    2:{ destruct (is_Exception x); [right|left]; [|by eexists _, _].
        by exists cfg, false. }
    destruct (create_kafka_topic e) as [[]|x].
    2:{ destruct (is_Exception x); [right|left]; [|by eexists _, _].
        by exists cfg, false. }
    right. by exists cfg, true.
  - destruct (makedirs e) as [[]|x].
    2:{ left. destruct (is_Exception x); by eexists _, _. }
    destruct (verify_services e) as [[]|x].
    2:{ destruct (is_Exception x); [right|left]; [|by eexists _, _].
        by exists cfg, false. }
    destruct (KafkaProducer e) as [[]|x].
    2:{ destruct (is_Exception x); [right|left]; [|by eexists _, _].
        by exists cfg, false. }
    destruct (create_kafka_topic e) as [[]|x].
    2:{ destruct (is_Exception x); [right|left]; [|by eexists _, _].
        by exists cfg, false. }
    right. by exists cfg, true.
Qed.

Lemma main_streamed fuel s r s' :
  main e fuel s = (r, s') ->
  ∃ tr,
    trace s' = trace s ++ tr
    /\ sends_follow_writes None tr = true
    /\ (demoted e = true -> no_send tr = true)
    /\ (∀ t m, In (Send t m) tr -> In (json_line m) (lines_of s')).
Proof.
  intros H.
  destruct (main_cases fuel s) as [(x & s1 & E & T & _)|(cfg & p & _ & D & E)].
  - rewrite E in H. injection H as _ <-. exists [].
    rewrite app_nil_r. repeat split; done.
  - rewrite E in H. apply step5_streamed in H
      as (tr & new & T & L & F & N & I).
    exists tr. unfold lines_of in *. simpl in T, L.
    rewrite L. repeat split; try done.
    intros Hd. apply N. by apply D.
Qed.

Lemma main_step5 fuel s cfg producer s1 s2 :
  read_config e = Ok cfg ->
  step2_3 e s = (Ok tt, s1) ->
  step4 e s1 = (Ok producer, s2) ->
  main e fuel s = step5 e cfg producer fuel s2.
Proof.
  intros Hc H23 H4. unfold main.
  assert (H1 : step1 e s = (Ok cfg, s))
    by (unfold step1, try_except, lift; by rewrite Hc).
  rewrite (bind_Ok _ _ _ _ _ H1), (bind_Ok _ _ _ _ _ H23).
  by rewrite (bind_Ok _ _ _ _ _ H4).
Qed.

Lemma step4_demoted s :
  demoted e = true -> step4 e s = (Ok false, s).
Proof.
  unfold demoted, step4, try_except, mbind, M_bind, bind, lift, ret.
  destruct (verify_services e) as [[]|x]; [|by intros ->].
  destruct (KafkaProducer e) as [[]|x]; [|by intros ->].
  destruct (create_kafka_topic e) as [[]|x]; [done|by intros ->].
Qed.

Lemma generate_message_returns s :
  timedelta_hours 8 <= clock e (clock_reads s) ->
  ∃ m s', generate_message e s = (Ok m, s')
          /\ clock_reads s' = S (clock_reads s).
Proof.
  intros Hclock.
  pose proof (generate_message_runs e s) as Hrun. simpl in Hrun.
  pose proof (offsets_in_range e s) as [Hh Hm].
  unfold timedelta_hours, timedelta_minutes, HOUR, MINUTE in *.
  destruct (Z.leb_spec 0 (clock e (clock_reads s)
                          - hours_drawn e s * (60 * (60 * 1000000))));
    [|lia].
  destruct (Z.leb_spec 0 (clock e (clock_reads s)
                          - minutes_drawn e s * (60 * 1000000)));
    [|lia].
  destruct Hrun as (u & st & d & _ & _ & _ & E). by eexists _, _.
Qed.

(** A turn without a producer, when the file and the clock behave. *)
Lemma stream_turn_file_only cfg s :
  file_append e (turn s) = Ok tt ->
  sleep e (turn s) = Ok tt ->
  timedelta_hours 8 <= clock e (clock_reads s) ->
  ∃ m s',
    stream_turn e cfg false s = (Ok tt, s')
    /\ lines_of s' = lines_of s ++ [json_line m]
    /\ published s' = published s.
Proof.
  intros Hf Hs Hclock.
  destruct (generate_message_returns s Hclock) as (m & s1 & G & _).
  exists m. unfold stream_turn. rewrite (bind_Ok _ _ _ _ _ G).
  apply generate_message_frame in G as (Gt & Gl & Gp & Gtr).
  destruct s as [cr dr tn ld pb tr], s1 as [cr1 dr1 tn1 ld1 pb1 tr1].
  simpl in *. subst tn1 ld1 pb1 tr1.
  cbv [mbind M_bind bind append_live_data record get_state lift
       set_live_data time_sleep next_turn ret
       clock_reads draws turn live_data published trace].
  rewrite Hf, Hs. by eexists.
Qed.

Lemma stream_file_only cfg fuel s :
  (∀ k, file_append e k = Ok tt) ->
  (∀ k, sleep e k = Ok tt) ->
  (∀ k, timedelta_hours 8 <= clock e k) ->
  ∃ s',
    stream e cfg false fuel s = (Ok Streaming, s')
    /\ length (lines_of s') = (length (lines_of s) + fuel)%nat
    /\ published s' = published s.
Proof.
  intros Hf Hs Hc. revert s.
  induction fuel as [|fuel IH]; intros s; simpl.
  - exists s. repeat split; try done; lia.
  - destruct (stream_turn_file_only cfg s (Hf _) (Hs _) (Hc _))
      as (m & s1 & T & L & P).
    rewrite (bind_Ok _ _ _ _ _ T).
    destruct (IH s1) as (s' & St & L' & P').
    exists s'. split; [done|]. rewrite L', L, P', P, length_app. simpl.
    split; [lia|done].
Qed.

(** A turn whose [producer.send] raises: the line is in the file, the
    turn is not finished, and the loop is left at once. *)
Lemma stream_send_raises cfg fuel s m s1 x :
  generate_message e s = (Ok m, s1) ->
  file_append e (turn s) = Ok tt ->
  producer_send e (turn s) = Raise x ->
  ∃ s',
    stream e cfg true (S fuel) s = (Raise x, s')
    /\ lines_of s' = lines_of s ++ [json_line m]
    /\ trace s' = trace s ++ [Write (json_line m); Send (topic cfg) m]
    /\ published s' = published s
    /\ turn s' = turn s.
Proof.
  intros G Hf Hsend.
  assert (∃ s',
            stream_turn e cfg true s = (Raise x, s')
            /\ lines_of s' = lines_of s ++ [json_line m]
            /\ trace s' = trace s ++ [Write (json_line m); Send (topic cfg) m]
            /\ published s' = published s
            /\ turn s' = turn s) as (s' & T & H).
  { unfold stream_turn. rewrite (bind_Ok _ _ _ _ _ G).
    apply generate_message_frame in G as (Gt & Gl & Gp & Gtr).
    destruct s as [cr dr tn ld pb tr], s1 as [cr1 dr1 tn1 ld1 pb1 tr1].
    simpl in *. subst tn1 ld1 pb1 tr1.
    cbv [mbind M_bind bind append_live_data record get_state lift
         set_live_data send put_state time_sleep next_turn ret
         clock_reads draws turn live_data published trace].
    rewrite Hf, Hsend. eexists. split; [reflexivity|].
    unfold lines_of. simpl. by rewrite <- app_assoc. }
  exists s'. split; [|done]. cbn [stream].
  by rewrite (bind_Raise _ _ _ _ _ T).
Qed.

(** An error in the loop is caught around it; [main] then returns. *)
Lemma step5_catches cfg producer fuel s x s1 :
  stream e cfg producer fuel s = (Raise x, s1) ->
  is_KeyboardInterrupt x || is_Exception x = true ->
  (producer = true -> producer_close e = Ok tt) ->
  ∃ s',
    step5 e cfg producer fuel s = (Ok Returned, s')
    /\ lines_of s' = lines_of s1
    /\ published s' = published s1
    /\ turn s' = turn s1.
Proof.
  intros St Hx Hclose. unfold step5. rewrite St, Hx.
  unfold finally_close. destruct producer.
  - rewrite (Hclose eq_refl). destruct s1. by eexists.
  - by eexists.
Qed.

End ProducerFacts.

(** C8, as the code has it.  In every run of the producer each publish
    attempt comes right after the write of the same message to the live
    data file, and the line of that message is in the file; when STEP 4
    failed no publish is attempted at all.  A failure of STEP 4 does not
    end the run: with a file and a clock that behave, the loop goes on,
    one more line in the file at each turn and nothing published.  A
    [producer.send] that raises leaves the line of its message in the
    file, but it ends the loop: [main] closes the producer and returns. *)
Theorem producer_writes_before_it_publishes :
  (∀ e fuel s r s',
     main e fuel s = (r, s') ->
     ∃ tr,
       trace s' = trace s ++ tr
       /\ sends_follow_writes None tr = true
       /\ (∀ t m, In (Send t m) tr -> In (json_line m) (lines_of s'))
       /\ (demoted e = true -> no_send tr = true))
  /\ (∀ e fuel s cfg,
        read_config e = Ok cfg ->
        unlink e = Ok tt -> makedirs e = Ok tt ->
        demoted e = true ->
        (∀ k, file_append e k = Ok tt) ->
        (∀ k, sleep e k = Ok tt) ->
        (∀ k, timedelta_hours 8 <= clock e k) ->
        ∃ s',
          main e fuel s = (Ok Streaming, s')
          /\ length (lines_of s') = fuel
          /\ published s' = published s)
  /\ (∀ e cfg fuel s m s1 x,
        generate_message e s = (Ok m, s1) ->
        file_append e (turn s) = Ok tt ->
        producer_send e (turn s) = Raise x ->
        is_Exception x = true ->
        producer_close e = Ok tt ->
        ∃ s',
          step5 e cfg true (S fuel) s = (Ok Returned, s')
          /\ lines_of s' = lines_of s ++ [json_line m]
          /\ published s' = published s
          /\ turn s' = turn s).
Proof.
  split; [|split].
  - intros e fuel s r s' H.
    destruct (main_streamed e fuel s r s' H) as (tr & T & F & N & I).
    by exists tr.
  - intros e fuel s cfg Hc Hu Hm Hd Hf Hs Hclock.
    set (s1 := State (clock_reads s) (draws s) (turn s) None
                     (published s) (trace s)).
    assert (H23 : step2_3 e s = (Ok tt, s1)).
    { destruct s as [cr dr tn [lines|] pb tr];
        cbv [step2_3 try_except mbind M_bind bind lift delete_live_data
             get_state set_live_data ret live_data];
        by rewrite ?Hu, Hm. }
    rewrite (main_step5 e fuel s cfg false s1 s1 Hc H23
               (step4_demoted e s1 Hd)).
    destruct (stream_file_only e cfg fuel s1 Hf Hs Hclock)
      as (s' & St & L & P).
    exists s'. unfold step5. rewrite St. by repeat split.
  - intros e cfg fuel s m s1 x G Hf Hsend Hx Hclose.
    destruct (stream_send_raises e cfg fuel s m s1 x G Hf Hsend)
      as (s2 & St & L & _ & P & T).
    destruct (step5_catches e cfg true (S fuel) s x s2 St)
      as (s' & S5 & L' & P' & T'); [by rewrite Hx, orb_true_r|done|].
    exists s'. split; [done|]. by rewrite L', P', T'.
Qed.

Lemma producer_writes_before_it_publishes_witness :
  ∃ s',
    main no_broker 3 (initial (Some ["stale"])) = (Ok Streaming, s')
    /\ length (lines_of s') = 3%nat
    /\ published s' = published (initial (Some ["stale"])).
Proof.
  destruct producer_writes_before_it_publishes as (_ & Hfile_only & _).
  apply (Hfile_only no_broker 3%nat (initial (Some ["stale"]))
           (Config 2 "buzzline" "localhost:9092" "data/project_live.json")).
  - reflexivity.
  - reflexivity.
  - reflexivity.
  - reflexivity.
  - intros k. reflexivity.
  - intros k. reflexivity.
  - intros k. unfold timedelta_hours, HOUR, MINUTE. simpl. lia.
Defined.

(** C8 as stated fails: a publish that raises stops the loop.  Of three
    turns to run, the first [producer.send] raises; [main] has returned
    with one line written, where the calm run is still streaming with
    three. *)
Lemma publish_failure_stops_the_loop :
  producer_send send_raises 0 = Raise KafkaError
  /\ fst (main send_raises 3 (initial None)) = Ok Returned
  /\ length (lines_of (snd (main send_raises 3 (initial None)))) = 1%nat
  /\ turn (snd (main send_raises 3 (initial None))) = 0%nat
  /\ fst (main calm 3 (initial None)) = Ok Streaming
  /\ length (lines_of (snd (main calm 3 (initial None)))) = 3%nat.
Proof. repeat split; vm_compute; reflexivity. Qed.

(** C9, as the code has it.  A configuration getter that raises ends the
    process with exit code 1; a failure to delete the live data file or to
    make its folders ends it with exit code 2; an error raised in the
    streaming loop is caught there, and the process ends with exit
    code 0. *)
Theorem producer_exit_codes e fuel s :
  (∀ x, read_config e = Raise x -> is_Exception x = true ->
        exit_status_of (fst (main e fuel s)) = Exit 1)
  /\ (∀ cfg x,
        read_config e = Ok cfg ->
        (is_Some (live_data s) /\ unlink e = Raise x)
        \/ ((live_data s = None \/ unlink e = Ok tt)
            /\ makedirs e = Raise x) ->
        is_Exception x = true ->
        exit_status_of (fst (main e fuel s)) = Exit 2)
  /\ (∀ cfg producer s1 s2 s3 x,
        read_config e = Ok cfg ->
        step2_3 e s = (Ok tt, s1) ->
        step4 e s1 = (Ok producer, s2) ->
        stream e cfg producer fuel s2 = (Raise x, s3) ->
        is_Exception x = true ->
        (producer = true -> producer_close e = Ok tt) ->
        exit_status_of (fst (main e fuel s)) = Exit 0).
Proof.
  split; [|split].
  - intros x Hc Hx.
    unfold main, step1, try_except, mbind, M_bind, bind, lift, sys_exit,
      raise.
    by rewrite Hc, Hx.
  - intros cfg x Hc Hprep Hx.
    destruct s as [cr dr tn ld pb tr]. simpl in Hprep.
    cbv [main step1 step2_3 try_except mbind M_bind bind lift sys_exit
         raise ret delete_live_data get_state set_live_data live_data].
    rewrite Hc.
    destruct Hprep as [[[lines ->] Hu]|[Hu Hm]].
    + by rewrite Hu, Hx.
    + destruct ld as [lines|].
      * destruct Hu as [|Hu]; [done|]. by rewrite Hu, Hm, Hx.
      * by rewrite Hm, Hx.
  - intros cfg producer s1 s2 s3 x Hc H23 H4 St Hx Hclose.
    rewrite (main_step5 e fuel s cfg producer s1 s2 Hc H23 H4).
    destruct (step5_catches e cfg producer fuel s2 x s3 St)
      as (s' & S5 & _); [by rewrite Hx, orb_true_r|done|].
    by rewrite S5.
Qed.

Lemma producer_exit_codes_witness :
  exit_status_of (fst (main no_config 3 (initial None))) = Exit 1
  /\ exit_status_of (fst (main no_folder 3 (initial None))) = Exit 2.
Proof.
  split.
  - destruct (producer_exit_codes no_config 3 (initial None)) as (H & _).
    apply (H (KeyError "KAFKA_TOPIC")); reflexivity.
  - destruct (producer_exit_codes no_folder 3 (initial None))
      as (_ & H & _).
    apply (H (Config 2 "buzzline" "localhost:9092" "data/project_live.json")
             OSError).
    + reflexivity.
    + right. split; [by left|reflexivity].
    + reflexivity.
Defined.

(** C9 as stated fails: an error in the streaming loop ends the process
    with exit code 0.  The second write to the file raises [OSError];
    [main] returns, one line written. *)
Lemma streaming_error_exits_with_code_0 :
  file_append write_raises 1 = Raise OSError
  /\ is_Exception OSError = true
  /\ fst (main write_raises 3 (initial None)) = Ok Returned
  /\ exit_status_of (fst (main write_raises 3 (initial None))) = Exit 0
  /\ length (lines_of (snd (main write_raises 3 (initial None)))) = 1%nat.
Proof. repeat split; vm_compute; reflexivity. Qed.

(** * Further properties *)

Import StoreMain.

Section StoreMore.

Implicit Types (s : store) (t : table) (message : dict) (db_path : string).

Lemma bind_text_raises v x : bind_text v = Raise x -> is_Exception x = true.
Proof.
  destruct v as [ |x0|z|l]; simpl; try done.
  - destruct (in_int64 z); [done|]. by intros [= <-].
  - by intros [= <-].
Qed.

(** [insert_message], case by case. *)
Lemma insert_message_cases message db_path s :
  insert_message message db_path s
  = (Ok tt,
     match s, cells_of message with
     | Database (Some t), Some (cu, cst, cli, clr, cde) =>
         let last := Z.max (seq t) (max_rowid (rows t)) in
         if MAX_ROWID <=? last then s
         else Database (Some (Table (rows t ++ [Row (last + 1) cu cst cli clr cde])
                                    (last + 1)))
     | _, _ => s
     end).
Proof.
  unfold insert_message, cells_of.
  destruct s as [| |[t|]]; try reflexivity.
  - unfold try_except, mbind, M_bind, bind, connect, lift, getitem.
    destruct (message !! "User ID") as [u|]; [|done].
    destruct (message !! "Status") as [st|]; [|done].
    destruct (message !! "Log in") as [li|]; [|done].
    destruct (message !! "Last Request") as [lr|]; [|done].
    destruct (message !! "Description") as [de|]; [|done].
    unfold exec_insert, mbind, M_bind, bind, prepare, lift.
    destruct (bind_text u) as [cu|x] eqn:Bu;
      [|by rewrite (bind_text_raises _ _ Bu)].
    destruct (bind_text st) as [cst|x] eqn:Bst;
      [|by rewrite (bind_text_raises _ _ Bst)].
    destruct (bind_text li) as [cli|x] eqn:Bli;
      [|by rewrite (bind_text_raises _ _ Bli)].
    destruct (bind_text lr) as [clr|x] eqn:Blr;
      [|by rewrite (bind_text_raises _ _ Blr)].
    destruct (bind_text de) as [cde|x] eqn:Bde;
      [|by rewrite (bind_text_raises _ _ Bde)].
    unfold append_row. by destruct (MAX_ROWID <=? _).
  - unfold try_except, mbind, M_bind, bind, connect, lift, getitem.
    destruct (message !! "User ID") as [u|]; [|done].
    destruct (message !! "Status") as [st|]; [|done].
    destruct (message !! "Log in") as [li|]; [|done].
    destruct (message !! "Last Request") as [lr|]; [|done].
    destruct (message !! "Description") as [de|]; [|done].
    done.
Qed.

Lemma init_db_cases db_path s :
  init_db db_path s
  = (Ok tt,
     if String.eqb (dirname db_path) EmptyString then s
     else match s with
          | Unopenable => s
          | _ => Database (Some empty_table)
          end).
Proof.
  unfold init_db, try_except, Store.makedirs, mbind, M_bind, bind.
  destruct (String.eqb _ _); [done|]. by destruct s as [| |[t|]].
Qed.

Lemma delete_message_cases message_id db_path s :
  delete_message message_id db_path s
  = (Ok tt,
     match s with
     | Database (Some t) =>
         if in_int64 message_id
         then Database (Some (Table (filter (fun r => row_id r ≠ message_id)
                                            (rows t)) (seq t)))
         else s
     | _ => s
     end).
Proof.
  destruct (in_int64 message_id) eqn:Hin.
  - destruct s as [| |[t|]];
      [apply delete_message_noop; right; intros ?; discriminate ..
      | | apply delete_message_noop; right; intros ?; discriminate].
    by apply delete_message_table.
  - rewrite delete_message_noop by by left. by destruct s as [| |[t|]].
Qed.

Lemma get_all_messages_cases db_path s :
  get_all_messages db_path s = (Ok (map dict_of_row (stored_rows s)), s).
Proof. by destruct s as [| |[t|]]. Qed.

Lemma insert_message_ok message db_path s :
  store_ok s = true -> store_ok (snd (insert_message message db_path s)) = true.
Proof.
  intros Hok. rewrite insert_message_cases. simpl.
  destruct s as [| |[t|]]; try done.
  destruct (cells_of message) as [[[[[cu cst] cli] clr] cde]|]; [|done].
  simpl in Hok. rewrite (table_ok_last t Hok).
  destruct (Z.leb_spec MAX_ROWID (seq t)); [done|].
  simpl. by apply append_row_ok.
Qed.

Lemma run_call_ok c s : store_ok s = true -> store_ok (run_call c s) = true.
Proof.
  intros Hok. destruct c as [p|m p|id p|p]; simpl.
  - rewrite init_db_cases. simpl.
    destruct (String.eqb _ _); [done|]. by destruct s as [| |[t|]].
  - by apply insert_message_ok.
  - rewrite delete_message_cases. simpl.
    destruct s as [| |[t|]]; try done.
    destruct (in_int64 id); [|done]. simpl. by apply delete_rows_ok.
  - by rewrite get_all_messages_cases.
Qed.

(** X1.  Whatever calls of [init_db], [insert_message], [delete_message]
    and [get_all_messages] are made, in whatever order and with whatever
    arguments, on a store whose rowids are unique, increasing and not
    above the counter (a store with no table yet is one), the store stays
    so. *)
Theorem rowids_stay_in_order (cs : list call) s :
  store_ok s = true -> store_ok (run_calls cs s) = true.
Proof.
  revert s. unfold run_calls.
  induction cs as [|c cs IH]; intros s Hok; simpl; [done|].
  apply IH. by apply run_call_ok.
Qed.

Lemma rowids_stay_in_order_witness :
  store_ok (run_calls [Insert test_message TEST_DB_PATH;
                       Insert test_message TEST_DB_PATH;
                       Delete 1 TEST_DB_PATH;
                       Insert test_message TEST_DB_PATH;
                       GetAll TEST_DB_PATH]
                      (Database (Some empty_table))) = true.
Proof.
  apply (rowids_stay_in_order _ (Database (Some empty_table))). reflexivity.
Defined.

(** X2.  [insert_message] adds exactly one row, at the end, holding the
    five cells of the event, when the table is there, the event has the
    five keys with values that can be bound, and a rowid is left; in every
    other case it leaves the store exactly as it was. *)
Theorem insert_message_adds_one_row_or_nothing message db_path s :
  let s' := snd (insert_message message db_path s) in
  row_count s' = (row_count s + (if accepts message s then 1 else 0))%nat
  /\ (accepts message s = false -> s' = s)
  /\ (accepts message s = true ->
      ∃ id cu cst cli clr cde,
        cells_of message = Some (cu, cst, cli, clr, cde)
        /\ stored_rows s' = stored_rows s ++ [Row id cu cst cli clr cde]).
Proof.
  intros s'. subst s'. rewrite insert_message_cases.
  unfold accepts, has_room, row_count. cbn [snd].
  destruct s as [| |[t|]];
    [ destruct (cells_of message); (split; [simpl; lia|by split]) ..
    | | destruct (cells_of message); (split; [simpl; lia|by split]) ].
  destruct (cells_of message) as [[[[[cu cst] cli] clr] cde]|];
    [|split; [simpl; lia|by split]].
  destruct (Z.ltb_spec (Z.max (seq t) (max_rowid (rows t))) MAX_ROWID)
    as [Hlt|Hge];
    destruct (Z.leb_spec MAX_ROWID (Z.max (seq t) (max_rowid (rows t))));
    try lia.
  - cbn [stored_rows rows]. rewrite length_app. split; [done|].
    split; [done|]. intros _. by eexists _, _, _, _, _, _.
  - split; [simpl; lia|by split].
Qed.

Lemma insert_message_adds_one_row_or_nothing_witness :
  ∃ id cu cst cli clr cde,
    cells_of test_message = Some (cu, cst, cli, clr, cde)
    /\ stored_rows (snd (insert_message test_message TEST_DB_PATH
                           (Database (Some empty_table))))
       = stored_rows (Database (Some empty_table))
         ++ [Row id cu cst cli clr cde].
Proof.
  destruct (insert_message_adds_one_row_or_nothing test_message TEST_DB_PATH
              (Database (Some empty_table))) as (_ & _ & H).
  apply H. reflexivity.
Defined.

Lemma filter_out_of_range t id :
  table_ok t = true -> in_int64 id = false ->
  filter (fun r => row_id r ≠ id) (rows t) = rows t.
Proof.
  intros Hok Hout. apply filter_absent. apply not_true_is_false.
  intros Hex. apply existsb_exists in Hex as (r & Hr & Hid).
  apply Z.eqb_eq in Hid. apply list_elem_of_In in Hr.
  pose proof (table_ok_int64 t r Hok Hr). congruence.
Qed.

Lemma insert_message_on_table message db_path t cu cst cli clr cde :
  table_ok t = true -> seq t < MAX_ROWID ->
  cells_of message = Some (cu, cst, cli, clr, cde) ->
  insert_message message db_path (Database (Some t))
  = (Ok tt,
     Database (Some (Table (rows t ++ [Row (seq t + 1) cu cst cli clr cde])
                           (seq t + 1)))).
Proof.
  intros Hok Hroom Hcells. rewrite insert_message_cases, Hcells.
  cbv zeta. rewrite (table_ok_last t Hok).
  destruct (Z.leb_spec MAX_ROWID (seq t)); [lia|done].
Qed.

(** X3.  Deleting a record does not free its id.  On a table with rowids
    in order and one still to hand out, [delete_message] of any id followed
    by [insert_message] of an event that can be stored leaves the rows that
    were not deleted, followed by the new row, whose id is one more than
    the counter before: above the id of every row the table held, the
    deleted one included. *)
Theorem deleted_ids_are_not_reused message message_id db_path t
    cu cst cli clr cde :
  table_ok t = true -> seq t < MAX_ROWID ->
  cells_of message = Some (cu, cst, cli, clr, cde) ->
  stored_rows (snd ((delete_message message_id db_path;;
                     insert_message message db_path) (Database (Some t))))
  = filter (fun r => row_id r ≠ message_id) (rows t)
    ++ [Row (seq t + 1) cu cst cli clr cde]
  /\ (∀ r, r ∈ rows t -> row_id r < seq t + 1).
Proof.
  intros Hok Hroom Hcells. split.
  - erewrite bind_Ok by apply delete_message_cases.
    destruct (in_int64 message_id) eqn:Hin.
    + erewrite insert_message_on_table; [done| |done|done].
      by apply delete_rows_ok.
    + erewrite insert_message_on_table by done. simpl.
      by rewrite filter_out_of_range.
  - intros r Hr. pose proof (table_ok_below t r Hok Hr). lia.
Qed.

Lemma deleted_ids_are_not_reused_witness :
  let t := Table [Row 1 (Some "ajurek") (Some "red") None None None;
                  Row 2 (Some "bwendt") (Some "green") None None None] 2 in
  stored_rows (snd ((delete_message 2 TEST_DB_PATH;;
                     insert_message test_message TEST_DB_PATH)
                      (Database (Some t))))
  = filter (fun r => row_id r ≠ 2) (rows t)
    ++ [Row (seq t + 1) (Some "cclemens") (Some "green")
            (Some "02/18/25 8:45:14 AM") (Some "02/18/25 11:22:37 AM")
            (Some "Job Summary Inquiry")]
  /\ (∀ r, r ∈ rows t -> row_id r < seq t + 1).
Proof.
  intros t.
  apply (deleted_ids_are_not_reused test_message 2 TEST_DB_PATH t);
    reflexivity.
Defined.

(** X4.  What [get_all_messages] reads back is text.  After
    [insert_message] of an event that can be stored, the new record holds,
    under each of the five columns, the event's value as a [TEXT] column
    keeps it: [None] and strings as they are, an integer as the string of
    its decimal digits (so not equal to the integer put in). *)
Theorem integers_read_back_as_text message db_path t cu cst cli clr cde :
  table_ok t = true -> seq t < MAX_ROWID ->
  cells_of message = Some (cu, cst, cli, clr, cde) ->
  ∃ record,
    fst ((insert_message message db_path;; get_all_messages db_path)
           (Database (Some t)))
    = Ok (map dict_of_row (rows t) ++ [record])
    /\ (∀ k, k ∈ columns -> record !! k = (message !! k) ≫= as_text)
    /\ (∀ k z, k ∈ columns -> message !! k = Some (PInt z) ->
               record !! k = Some (PStr (pretty z))
               /\ record !! k ≠ message !! k).
Proof.
  intros Hok Hroom Hcells.
  exists (dict_of_row (Row (seq t + 1) cu cst cli clr cde)).
  assert (Hcols : ∀ k, k ∈ columns ->
            dict_of_row (Row (seq t + 1) cu cst cli clr cde) !! k
            = (message !! k) ≫= as_text).
  { intros k Hk. unfold cells_of in Hcells.
    destruct (message !! "User ID") as [u|] eqn:Hu; [|done].
    destruct (message !! "Status") as [st|] eqn:Hst; [|done].
    destruct (message !! "Log in") as [li|] eqn:Hli; [|done].
    destruct (message !! "Last Request") as [lr|] eqn:Hlr; [|done].
    destruct (message !! "Description") as [de|] eqn:Hde; [|done].
    destruct (bind_text u) as [cu'|] eqn:Bu; [|done].
    destruct (bind_text st) as [cst'|] eqn:Bst; [|done].
    destruct (bind_text li) as [cli'|] eqn:Bli; [|done].
    destruct (bind_text lr) as [clr'|] eqn:Blr; [|done].
    destruct (bind_text de) as [cde'|] eqn:Bde; [|done].
    injection Hcells as -> -> -> -> ->.
    destruct (dict_of_row_columns (Row (seq t + 1) cu cst cli clr cde))
      as (D1 & D2 & D3 & D4 & D5 & _).
    simpl in D1, D2, D3, D4, D5. unfold columns in Hk.
    repeat (apply elem_of_cons in Hk as [-> | Hk];
            [ rewrite ?Hu, ?Hst, ?Hli, ?Hlr, ?Hde; simpl; unfold as_text;
              rewrite ?Bu, ?Bst, ?Bli, ?Blr, ?Bde; done | ]).
    by apply elem_of_nil in Hk. }
  split; [|split].
  - erewrite bind_Ok by (by apply insert_message_on_table).
    rewrite get_all_messages_rows. simpl. by rewrite map_app.
  - done.
  - intros k z Hk Hz. rewrite (Hcols k Hk), Hz. simpl.
    assert (Hb : is_Some (as_text (PInt z))).
    { specialize (Hcols k Hk). rewrite Hz in Hcols. simpl in Hcols.
      unfold as_text, bind_text in *.
      destruct (in_int64 z); [by eexists|].
      exfalso. revert Hcols. unfold columns in Hk.
      destruct (dict_of_row_columns (Row (seq t + 1) cu cst cli clr cde))
        as (D1 & D2 & D3 & D4 & D5 & _).
      repeat (apply elem_of_cons in Hk as [-> | Hk]; [congruence|]).
      by apply elem_of_nil in Hk. }
    unfold as_text, bind_text in *. destruct (in_int64 z).
    + split; [done|]. simpl. discriminate.
    + by destruct Hb.
Qed.

Lemma integers_read_back_as_text_witness :
  ∃ record,
    fst ((insert_message numbered_message TEST_DB_PATH;;
          get_all_messages TEST_DB_PATH) (Database (Some empty_table)))
    = Ok (map dict_of_row (rows empty_table) ++ [record])
    /\ (∀ k, k ∈ columns -> record !! k = (numbered_message !! k) ≫= as_text)
    /\ (∀ k z, k ∈ columns -> numbered_message !! k = Some (PInt z) ->
               record !! k = Some (PStr (pretty z))
               /\ record !! k ≠ numbered_message !! k).
Proof.
  apply (integers_read_back_as_text numbered_message TEST_DB_PATH empty_table
           (Some "42") (Some "green") (Some "02/18/25 8:45:14 AM")
           (Some "02/18/25 11:22:37 AM") (Some "Job Summary Inquiry"));
    reflexivity.
Defined.

(** X5.  [delete_message] is idempotent and two deletions commute, on
    every store and for all ids: deleting an id twice leaves what deleting
    it once leaves, and the order of two deletions does not matter. *)
Theorem delete_message_idempotent_and_commutes a b db_path s :
  (delete_message a db_path;; delete_message a db_path) s
  = delete_message a db_path s
  /\ (delete_message a db_path;; delete_message b db_path) s
     = (delete_message b db_path;; delete_message a db_path) s.
Proof.
  split.
  - erewrite bind_Ok by apply delete_message_cases.
    rewrite !delete_message_cases.
    destruct s as [| |[t|]]; try done.
    destruct (in_int64 a) eqn:Ha; simpl; rewrite ?Ha; [|done].
    rewrite list_filter_filter.
    do 3 f_equal. f_equal. apply list_filter_iff. tauto.
  - erewrite !bind_Ok by apply delete_message_cases.
    rewrite !delete_message_cases.
    destruct s as [| |[t|]]; try done.
    destruct (in_int64 a) eqn:Ha, (in_int64 b) eqn:Hb;
      simpl; rewrite ?Ha, ?Hb; try done.
    rewrite !list_filter_filter.
    do 3 f_equal. f_equal. apply list_filter_iff. tauto.
Qed.

(** X6.  Deleting the record just inserted gives back the earlier listing
    but not its id.  On a table with rowids in order and one still to hand
    out, [insert_message] of an event that can be stored, then
    [delete_message] of the id it got, then [get_all_messages] returns the
    records listed before; the counter stays one higher. *)
Theorem delete_of_the_inserted_record message db_path t cu cst cli clr cde :
  table_ok t = true -> seq t < MAX_ROWID ->
  cells_of message = Some (cu, cst, cli, clr, cde) ->
  (insert_message message db_path;;
   delete_message (seq t + 1) db_path;;
   get_all_messages db_path) (Database (Some t))
  = (Ok (map dict_of_row (rows t)),
     Database (Some (Table (rows t) (seq t + 1)))).
Proof.
  intros Hok Hroom Hcells.
  erewrite bind_Ok by (by apply insert_message_on_table).
  erewrite bind_Ok by apply delete_message_cases.
  assert (Hin : in_int64 (seq t + 1) = true).
  { unfold table_ok in Hok. rewrite !andb_true_iff in Hok.
    destruct Hok as [[[_ _] H0] _]. apply Z.leb_le in H0.
    unfold in_int64, MIN_INT64. apply andb_true_iff.
    split; apply Z.leb_le; unfold MAX_ROWID in *; lia. }
  rewrite Hin. cbn [rows seq]. rewrite filter_app.
  rewrite filter_absent.
  - rewrite filter_cons_False by (simpl; intros H; by apply H).
    rewrite filter_nil, app_nil_r.
    exact (get_all_messages_rows db_path (Table (rows t) (seq t + 1))).
  - apply not_true_is_false. intros Hex.
    apply existsb_exists in Hex as (r & Hr & Hid). apply Z.eqb_eq in Hid.
    apply list_elem_of_In in Hr.
    pose proof (table_ok_below t r Hok Hr). lia.
Qed.

Lemma delete_of_the_inserted_record_witness :
  (insert_message test_message TEST_DB_PATH;;
   delete_message (seq empty_table + 1) TEST_DB_PATH;;
   get_all_messages TEST_DB_PATH) (Database (Some empty_table))
  = (Ok (map dict_of_row (rows empty_table)),
     Database (Some (Table (rows empty_table) (seq empty_table + 1)))).
Proof.
  apply (delete_of_the_inserted_record test_message TEST_DB_PATH empty_table
           (Some "cclemens") (Some "green") (Some "02/18/25 8:45:14 AM")
           (Some "02/18/25 11:22:37 AM") (Some "Job Summary Inquiry"));
    reflexivity.
Defined.

Lemma upto_last_sep_nil l : existsb is_sep l = false -> upto_last_sep l = [].
Proof. destruct l as [|c l]; [done|]. simpl. by intros ->. Qed.

Lemma upto_last_sep_cons l :
  existsb is_sep l = true -> ∃ c l', upto_last_sep l = c :: l'.
Proof. destruct l as [|c l]; [done|]. simpl. intros ->. by eexists _, _. Qed.

Lemma lstrip_sep_keeps l :
  forallb is_sep l = false -> lstrip_sep l ≠ [].
Proof.
  induction l as [|c l IH]; simpl; [done|].
  destruct (is_sep c); simpl; [done|]. by intros _.
Qed.

Lemma forallb_rev_sep l : forallb is_sep (rev l) = forallb is_sep l.
Proof.
  induction l as [|c l IH]; simpl; [done|].
  by rewrite forallb_app, IH, andb_comm; simpl; rewrite andb_true_r.
Qed.

Lemma dirname_empty_iff p :
  dirname p = EmptyString <-> has_sep p = false.
Proof.
  unfold dirname, has_sep. split.
  - intros Hd. apply not_true_is_false. intros Hsep.
    destruct (upto_last_sep_cons _ Hsep) as (c & l' & E).
    rewrite E in Hd.
    destruct (forallb is_sep (c :: l')) eqn:Hall; [done|].
    unfold rstrip_sep in Hd.
    pose proof (lstrip_sep_keeps (rev (c :: l'))) as Hk.
    rewrite forallb_rev_sep in Hk. specialize (Hk Hall).
    destruct (lstrip_sep (rev (c :: l'))) as [|c0 l0] eqn:El; [done|].
    simpl in Hd. destruct (rev l0); simpl in Hd; discriminate.
  - intros Hsep. by rewrite (upto_last_sep_nil _ Hsep).
Qed.

Lemma init_db_without_directory db_path s :
  has_sep db_path = false -> init_db db_path s = (Ok tt, s).
Proof. intros Hsep. apply init_db_fails. left. by apply dirname_empty_iff. Qed.

Lemma init_db_with_directory db_path s :
  has_sep db_path = true -> s ≠ Unopenable ->
  init_db db_path s = (Ok tt, Database (Some empty_table)).
Proof.
  intros Hsep Hs. apply init_db_opens; [|done].
  intros Hd. apply dirname_empty_iff in Hd. congruence.
Qed.

(** X7.  [init_db] needs a path with a directory part.  With a path that
    holds no "/", [os.path.dirname] gives the empty string, [os.makedirs]
    raises, and [init_db] returns having done nothing, whatever the store
    holds: no table is dropped and none is made.  With a "/" in the path
    and a store that can be opened, it leaves the empty table. *)
Theorem init_db_needs_a_directory_part db_path s :
  (has_sep db_path = false -> init_db db_path s = (Ok tt, s))
  /\ (has_sep db_path = true -> s ≠ Unopenable ->
      init_db db_path s = (Ok tt, Database (Some empty_table))).
Proof.
  split; [apply init_db_without_directory|apply init_db_with_directory].
Qed.

Lemma init_db_needs_a_directory_part_witness :
  init_db "buzz.sqlite" (Database None) = (Ok tt, Database None)
  /\ init_db "data/buzz.sqlite" NoDirectory
     = (Ok tt, Database (Some empty_table)).
Proof.
  split.
  - destruct (init_db_needs_a_directory_part "buzz.sqlite" (Database None))
      as [H _]. apply H. reflexivity.
  - destruct (init_db_needs_a_directory_part "data/buzz.sqlite" NoDirectory)
      as [_ H]. apply H; [reflexivity|discriminate].
Defined.

Lemma ids_increasing_lookup lo (rs : list row) i j ri rj :
  ids_increasing lo rs = true -> (i < j)%nat ->
  rs !! i = Some ri -> rs !! j = Some rj -> row_id ri < row_id rj.
Proof.
  revert lo i j. induction rs as [|r rs IH]; intros lo i j Hinc Hij Hi Hj;
    [done|].
  simpl in Hinc. apply andb_true_iff in Hinc as [_ Hinc].
  destruct j as [|j]; [lia|]. simpl in Hj.
  destruct i as [|i].
  - injection Hi as ->.
    eapply ids_increasing_above; [done|]. by eapply list_elem_of_lookup_2.
  - simpl in Hi. eapply (IH _ i j); [done|lia|done|done].
Qed.

(** X8.  The listing is in id order and each id occurs once.  On a store
    with rowids in order, the records [get_all_messages] returns have
    exactly the six keys "id", "User ID", "Status", "Log in",
    "Last Request" and "Description", their ids are integers, and a record
    that comes later in the list has a larger id. *)
Theorem get_all_messages_in_id_order db_path s records :
  store_ok s = true ->
  fst (get_all_messages db_path s) = Ok records ->
  (∀ d, d ∈ records -> dom d = {["id"]} ∪ list_to_set columns)
  /\ (∀ i j di dj,
        (i < j)%nat -> records !! i = Some di -> records !! j = Some dj ->
        ∃ a b, di !! "id" = Some (PInt a) /\ dj !! "id" = Some (PInt b)
               /\ a < b).
Proof.
  intros Hok. rewrite get_all_messages_cases. simpl. intros [= <-]. split.
  - intros d Hd. apply list_elem_of_fmap in Hd as (r & -> & _).
    unfold dict_of_row, columns. rewrite !dom_insert_L, dom_empty_L. simpl.
    set_solver.
  - intros i j di dj Hij Hi Hj.
    rewrite list_lookup_fmap in Hi, Hj.
    destruct (stored_rows s !! i) as [ri|] eqn:Ei; [|done].
    destruct (stored_rows s !! j) as [rj|] eqn:Ej; [|done].
    injection Hi as <-. injection Hj as <-.
    exists (row_id ri), (row_id rj). repeat split.
    destruct s as [| |[t|]]; simpl in Ei; try done.
    simpl in Hok. unfold table_ok in Hok. rewrite !andb_true_iff in Hok.
    destruct Hok as [[[Hinc _] _] _].
    by eapply ids_increasing_lookup.
Qed.

Lemma get_all_messages_in_id_order_witness :
  let s := Database (Some (Table [Row 1 (Some "ajurek") (Some "red")
                                      None None None;
                                  Row 3 (Some "bwendt") (Some "green")
                                      None None None] 3)) in
  (∀ d, d ∈ map dict_of_row (stored_rows s) ->
        dom d = {["id"]} ∪ list_to_set columns)
  /\ (∀ i j di dj,
        (i < j)%nat ->
        map dict_of_row (stored_rows s) !! i = Some di ->
        map dict_of_row (stored_rows s) !! j = Some dj ->
        ∃ a b, di !! "id" = Some (PInt a) /\ dj !! "id" = Some (PInt b)
               /\ a < b).
Proof.
  intros s.
  apply (get_all_messages_in_id_order TEST_DB_PATH s
           (map dict_of_row (stored_rows s))); reflexivity.
Defined.

Lemma test_message_cells :
  cells_of test_message
  = Some (Some "cclemens", Some "green", Some "02/18/25 8:45:14 AM",
          Some "02/18/25 11:22:37 AM", Some "Job Summary Inquiry").
Proof. reflexivity. Qed.

(** The tail of [main]: list, then delete the first record. *)
Lemma main_tail db_path s :
  (all_messages ← get_all_messages db_path;
   match all_messages with
   | first :: _ =>
       id ← lift (getitem first "id");
       match id with
       | PInt message_id => delete_message message_id db_path
       | _ => ret tt
       end
   | [] => ret tt
   end) s
  = match stored_rows s with
    | r :: _ => delete_message (row_id r) db_path s
    | [] => (Ok tt, s)
    end.
Proof.
  erewrite bind_Ok by apply get_all_messages_cases.
  destruct (stored_rows s) as [|r rs]; [done|].
  cbn [map]. unfold mbind, M_bind, bind, lift, getitem.
  by destruct (dict_of_row_columns r) as (_ & _ & _ & _ & _ & ->).
Qed.

(** X9.  The test run [main] of the store module, once [TEST_DB_PATH] is
    bound.  From the call of [init_db] on it never raises.  With a path
    that has a directory part and a store that can be opened it ends on
    the empty table with the counter at 1, whatever the store held before:
    the test row went in with id 1 and was deleted.  With a path that has
    none, [init_db] does nothing, and on a table that already holds rows
    [main] then adds the test row at the end and deletes the first row of
    the table, which is not the test row. *)
Theorem store_main_inserts_and_deletes db_path s :
  (∃ s', StoreMain.main db_path s = (Ok tt, s'))
  /\ (has_sep db_path = true -> s ≠ Unopenable ->
      StoreMain.main db_path s = (Ok tt, Database (Some (Table [] 1))))
  /\ (has_sep db_path = false ->
      ∀ t r0 rest,
        s = Database (Some t) -> table_ok t = true -> seq t < MAX_ROWID ->
        rows t = r0 :: rest ->
        StoreMain.main db_path s
        = (Ok tt,
           Database (Some (Table
             (rest ++ [Row (seq t + 1) (Some "cclemens") (Some "green")
                           (Some "02/18/25 8:45:14 AM")
                           (Some "02/18/25 11:22:37 AM")
                           (Some "Job Summary Inquiry")])
             (seq t + 1))))).
Proof.
  unfold StoreMain.main. split; [|split].
  - erewrite bind_Ok by apply init_db_cases.
    erewrite bind_Ok by apply insert_message_cases.
    rewrite main_tail.
    match goal with |- ∃ s', match stored_rows ?s1 with _ => _ end = _ =>
      destruct (stored_rows s1) as [|r rs]; [by eexists|];
      apply delete_message_returns
    end.
  - intros Hsep Hs.
    rewrite (bind_Ok _ _ _ _ _ (init_db_with_directory _ _ Hsep Hs)).
    erewrite bind_Ok
      by (by apply (insert_message_on_table _ _ empty_table
                      _ _ _ _ _ eq_refl eq_refl test_message_cells)).
    rewrite main_tail. cbn [stored_rows rows empty_table seq app row_id].
    by rewrite delete_message_table.
  - intros Hsep t r0 rest -> Hok Hroom Hrows.
    rewrite (bind_Ok _ _ _ _ _ (init_db_without_directory _ _ Hsep)).
    erewrite bind_Ok
      by (by apply (insert_message_on_table _ _ t
                      _ _ _ _ _ Hok Hroom test_message_cells)).
    rewrite main_tail. cbn [stored_rows rows]. rewrite Hrows.
    cbn [app]. rewrite delete_message_table.
    2:{ apply (table_ok_int64 t); [done|]. rewrite Hrows. by left. }
    cbn [rows seq]. rewrite filter_cons_False by (intros H; by apply H).
    rewrite filter_absent; [done|].
    apply not_true_is_false. intros Hex.
    apply existsb_exists in Hex as (r & Hr & Hid). apply Z.eqb_eq in Hid.
    unfold table_ok in Hok. rewrite !andb_true_iff in Hok.
    destruct Hok as [[[Hinc Hall] _] _]. rewrite Hrows in Hinc, Hall.
    simpl in Hinc, Hall.
    apply andb_true_iff in Hinc as [_ Hinc].
    apply andb_true_iff in Hall as [H0 _]. apply Z.leb_le in H0.
    apply in_app_iff in Hr as [Hr|[<-|[]]].
    + apply list_elem_of_In in Hr.
      pose proof (ids_increasing_above _ _ _ Hinc Hr). lia.
    + simpl in Hid. lia.
Qed.

Lemma store_main_inserts_and_deletes_witness :
  StoreMain.main TEST_DB_PATH
    (Database (Some (Table [Row 4 (Some "ajurek") None None None None] 9)))
  = (Ok tt, Database (Some (Table [] 1))).
Proof.
  destruct (store_main_inserts_and_deletes TEST_DB_PATH
    (Database (Some (Table [Row 4 (Some "ajurek") None None None None] 9))))
    as (_ & H & _).
  apply H; [reflexivity|discriminate].
Defined.

End StoreMore.

Import Aggregate.

Section ConsumerMore.

Implicit Types (w : world) (message : dict) (values : list dict).

Lemma get_processed message f :
  f ∈ event_keys -> get (processed message) f = get message f.
Proof.
  intros Hf. unfold event_keys, fields in Hf. simpl in Hf.
  destruct (processed_fields message) as (P1 & P2 & P3 & P4 & P5 & P6).
  unfold get at 1.
  repeat (apply elem_of_cons in Hf as [-> | Hf];
          [ by rewrite ?P1, ?P2, ?P3, ?P4, ?P5, ?P6 | ]).
  by apply elem_of_nil in Hf.
Qed.

Lemma processed_idempotent message :
  processed (processed message) = processed message.
Proof.
  unfold processed at 1.
  rewrite !get_processed
    by (unfold event_keys, fields; simpl; set_solver).
  reflexivity.
Qed.

(** X10.  A processed event is in normal form.  Whatever keys the payload
    holds, the event [process_message] returns has exactly the six keys
    "User_ID", "Status", "Log_in", "Last_Request", "Description" and
    "timestamp" (other keys of the payload are dropped), and processing
    that event again returns the same event and leaves the dictionary as
    it is. *)
Theorem processed_event_is_in_normal_form message w k :
  hash_key (get message "User_ID") = Ok k ->
  ∃ event w',
    process_message message w = (Ok (Some event), w')
    /\ dom event = list_to_set event_keys
    /\ (∀ f, f ∉ event_keys -> event !! f = None)
    /\ process_message event w' = (Ok (Some event), w').
Proof.
  intros Hk. exists (processed message). eexists.
  split; [by apply process_message_hashable|].
  assert (Hdom : dom (processed message) = list_to_set event_keys).
  { unfold processed, event_keys, fields.
    rewrite !dom_insert_L, dom_empty_L. simpl. set_solver. }
  split; [done|]. split.
  - intros f Hf. apply not_elem_of_dom. rewrite Hdom.
    by rewrite elem_of_list_to_set.
  - rewrite (process_message_hashable (processed message) _ k).
    + rewrite processed_idempotent. simpl. by rewrite insert_insert_eq.
    + rewrite get_processed; [done|].
      unfold event_keys, fields. simpl. set_solver.
Qed.

Lemma processed_event_is_in_normal_form_witness :
  ∃ event w',
    process_message only_user_id fresh_world = (Ok (Some event), w')
    /\ dom event = list_to_set event_keys
    /\ (∀ f, f ∉ event_keys -> event !! f = None)
    /\ process_message event w' = (Ok (Some event), w').
Proof.
  apply (processed_event_is_in_normal_form only_user_id fresh_world
           (HStr "x")). reflexivity.
Defined.

Lemma process_message_lookup message w k :
  user_status_data (snd (process_message message w)) !! k
  = match hash_key (get message "User_ID") with
    | Ok k' => if decide (k' = k) then Some (processed message)
               else user_status_data w !! k
    | Raise _ => user_status_data w !! k
    end.
Proof.
  destruct (hash_key_cases (get message "User_ID")) as [[k' Hk]|[l Hl]].
  - rewrite (process_message_hashable _ _ _ Hk), Hk. simpl.
    rewrite lookup_insert. by repeat case_decide.
  - rewrite (process_message_unhashable _ _ _ Hl), Hl. done.
Qed.

Lemma process_message_returns message w :
  ∃ r, fst (process_message message w) = Ok r.
Proof.
  destruct (hash_key_cases (get message "User_ID")) as [[k' Hk]|[l Hl]].
  - rewrite (process_message_hashable _ _ _ Hk). by eexists.
  - rewrite (process_message_unhashable _ _ _ Hl). by eexists.
Qed.

Lemma process_messages_lookup values w k :
  user_status_data (snd (process_messages values w)) !! k
  = match last_event_of k values with
    | Some event => Some event
    | None => user_status_data w !! k
    end.
Proof.
  revert w. induction values as [|v values IH]; intros w; simpl; [done|].
  unfold mbind, M_bind, bind.
  pose proof (process_message_lookup v w k) as Hv.
  destruct (process_message_returns v w) as [r Hr].
  destruct (process_message v w) as [r0 w1]. simpl in Hr, Hv. subst r0.
  rewrite IH. destruct (last_event_of k values); [done|].
  rewrite Hv. destruct (hash_key _); [|done]. by case_decide.
Qed.

(** X11.  Last write wins, for every run of the consumer loop.  After the
    loop has consumed any payloads, the entry of [user_status_data] for a
    user is the processed event of the last payload that carried that
    user id; a user no payload carried keeps the entry it had. *)
Theorem last_write_wins sql_path values w k :
  user_status_data (snd (consume_messages sql_path values w)) !! k
  = match last_event_of k values with
    | Some event => Some event
    | None => user_status_data w !! k
    end.
Proof.
  rewrite consume_messages_is_process_messages.
  apply process_messages_lookup.
Qed.

Lemma process_messages_db values w :
  fst (process_messages values w) = Ok tt
  /\ db (snd (process_messages values w)) = db w.
Proof.
  revert w. induction values as [|v values IH]; intros w; simpl; [done|].
  unfold mbind, M_bind, bind.
  pose proof (process_message_db v w) as Hdb.
  destruct (process_message_returns v w) as [r Hr].
  destruct (process_message v w) as [r0 w1]. simpl in Hr, Hdb. subst r0.
  destruct (IH w1) as [H1 H2]. by rewrite H1, H2.
Qed.

(** X12.  The consumer loop never writes the database.  Whatever payloads
    it consumes and whatever the store holds, the loop returns normally
    and leaves the store exactly as it was: every event it hands to
    [insert_message] lacks the key "User ID" and is refused there, so
    [get_all_messages] returns afterwards what it returned before. *)
Theorem consume_messages_never_writes_the_store sql_path values w :
  fst (consume_messages sql_path values w) = Ok tt
  /\ db (snd (consume_messages sql_path values w)) = db w
  /\ get_all_messages sql_path
       (db (snd (consume_messages sql_path values w)))
     = get_all_messages sql_path (db w).
Proof.
  rewrite consume_messages_is_process_messages.
  destruct (process_messages_db values w) as [H1 H2].
  by rewrite H2.
Qed.

End ConsumerMore.

Import Producer ProducerViews.

Section ProducerMore.

Implicit Types (e : env) (s : state) (m : message) (cfg : config)
  (tr : list event).

(** X13.  The login time is never after the last request time.  For every
    message the generator yields, [Log_in] and [Last_Request] are the
    formats of two instants, the first at or before the second and less
    than 8 hours before it; the two are the same instant exactly when the
    draws are 1 hour and 60 minutes. *)
Theorem login_is_never_after_last_request e s m s' :
  generate_message e s = (Ok m, s') ->
  let now := clock e (clock_reads s) in
  let login_time := now - timedelta_hours (hours_drawn e s) in
  let last_request_time := now - timedelta_minutes (minutes_drawn e s) in
  Log_in m = strftime login_time
  /\ Last_Request m = strftime last_request_time
  /\ login_time <= last_request_time < login_time + timedelta_hours 8
  /\ (login_time = last_request_time
      <-> hours_drawn e s = 1 /\ minutes_drawn e s = 60).
Proof.
  intros H now login_time last_request_time.
  pose proof (generate_message_runs e s) as Hrun. simpl in Hrun.
  pose proof (offsets_in_range e s) as [Hh Hm].
  destruct (_ && _).
  - destruct Hrun as (u & st & d & _ & _ & _ & E).
    rewrite E in H. injection H as <- <-. simpl.
    split; [done|]. split; [done|].
    subst login_time last_request_time.
    unfold timedelta_hours, timedelta_minutes, HOUR, MINUTE. lia.
  - destruct Hrun as (s1 & E & _). rewrite E in H. discriminate.
Qed.

Lemma login_is_never_after_last_request_witness :
  ∃ m s',
    generate_message calm (initial None) = (Ok m, s')
    /\ Log_in m = "02/18/2025 04:49" /\ Last_Request m = "02/18/2025 08:38".
Proof.
  destruct (generate_message calm (initial None)) as [r s'] eqn:G.
  assert (∃ m, r = Ok m) as [m ->] by (vm_compute in G; injection G as <- _; by eexists).
  exists m, s'. split; [done|].
  destruct (login_is_never_after_last_request calm (initial None) m s' G)
    as (H1 & H2 & _).
  split; [exact H1|exact H2].
Defined.

Lemma generate_message_drawn e s m s' :
  generate_message e s = (Ok m, s') ->
  s' = State (1 + clock_reads s) (5 + draws s) (turn s) (live_data s)
             (published s) (trace s).
Proof.
  intros H. pose proof (generate_message_runs e s) as Hrun. simpl in Hrun.
  destruct (_ && _).
  - destruct Hrun as (u & st & d & _ & _ & _ & E).
    rewrite E in H. by injection H as _ <-.
  - destruct Hrun as (s1 & E & _). rewrite E in H. discriminate.
Qed.

(** X14.  What a list of generated messages costs, and what generating
    never touches.  The first [n] messages of the generator take exactly
    [n] readings of the clock and [5 * n] draws of the random source, and
    leave the live data file, the published messages and the trace of
    calls as they were. *)
Theorem generate_messages_cost e n s ms s' :
  generate_messages e n s = (Ok ms, s') ->
  clock_reads s' = (n + clock_reads s)%nat
  /\ draws s' = (5 * n + draws s)%nat
  /\ turn s' = turn s /\ live_data s' = live_data s
  /\ published s' = published s /\ trace s' = trace s.
Proof.
  revert s ms s'. induction n as [|n IH]; intros s ms s'; simpl.
  - intros [= <- <-]. repeat split; lia.
  - unfold mbind, M_bind, bind.
    destruct (generate_message e s) as [[m0|x] s1] eqn:G; [|done].
    apply generate_message_drawn in G as ->.
    destruct (generate_messages e n _) as [[ms1|x] s2] eqn:Gs; [|done].
    intros [= <- <-]. destruct (IH _ _ _ Gs) as (C & D & T & L & P & Tr).
    simpl in *. repeat split; try done; lia.
Qed.

Lemma generate_messages_cost_witness :
  ∃ ms s',
    generate_messages calm 3 (initial None) = (Ok ms, s')
    /\ clock_reads s' = 3%nat /\ draws s' = 15%nat.
Proof.
  destruct (generate_messages calm 3 (initial None)) as [r s'] eqn:G.
  assert (∃ ms, r = Ok ms) as [ms ->]
    by (vm_compute in G; injection G as <- _; by eexists).
  exists ms, s'. split; [done|].
  destruct (generate_messages_cost calm 3 (initial None) ms s' G)
    as (C & D & _).
  split; [exact C|exact D].
Defined.

(** What one turn adds to the file and to the trace. *)
Lemma stream_turn_adds e cfg producer s r s' :
  stream_turn e cfg producer s = (r, s') ->
  ∃ new tr,
    lines_of s' = lines_of s ++ new
    /\ (length new <= 1)%nat
    /\ Forall generated_line new
    /\ trace s' = trace s ++ tr
    /\ forallb (fun ev => negb (is_close ev)) tr = true.
Proof.
  unfold stream_turn. unfold mbind at 1, M_bind, bind at 1.
  destruct (generate_message e s) as [[m|x] s1] eqn:G.
  2:{ apply generate_message_frame in G as (Gt & Gl & Gp & Gtr).
      intros [= <- <-]. exists [], []. unfold lines_of.
      rewrite Gl, Gtr, !app_nil_r. repeat split; try done. simpl; lia. }
  pose proof (generate_message_rosters e s m s1 G) as Hm.
  apply generate_message_frame in G as (Gt & Gl & Gp & Gtr).
  assert (Hline : generated_line (json_line m)) by (by exists m).
  destruct s as [cr dr tn ld pb tr], s1 as [cr1 dr1 tn1 ld1 pb1 tr1].
  simpl in Gt, Gl, Gp, Gtr. subst tn1 ld1 pb1 tr1.
  cbv [mbind M_bind bind append_live_data record get_state lift
       set_live_data send put_state time_sleep next_turn ret
       clock_reads draws turn live_data published trace].
  unfold lines_of; cbn [live_data trace].
  destruct (file_append e tn) as [[]|x].
  2:{ intros [= <- <-]. exists [], [Write (json_line m)].
      rewrite app_nil_r. repeat split; try done. simpl; lia. }
  destruct producer.
  - destruct (producer_send e tn) as [[]|x].
    2:{ intros [= <- <-].
        exists [json_line m], [Write (json_line m); Send (topic cfg) m].
        rewrite <- app_assoc. cbn [default].
        repeat split; try done. by apply Forall_singleton. }
    destruct (sleep e tn) as [[]|x]; intros [= <- <-];
      exists [json_line m],
             [Write (json_line m); Send (topic cfg) m;
              Sleep (interval_secs cfg)];
      rewrite <- !app_assoc; cbn [default];
      (repeat split; try done); by apply Forall_singleton.
  - destruct (sleep e tn) as [[]|x]; intros [= <- <-];
      exists [json_line m],
             [Write (json_line m); Sleep (interval_secs cfg)];
      rewrite <- !app_assoc; cbn [default];
      (repeat split; try done); by apply Forall_singleton.
Qed.

Lemma stream_adds e cfg producer fuel s r s' :
  stream e cfg producer fuel s = (r, s') ->
  ∃ new tr,
    lines_of s' = lines_of s ++ new
    /\ (length new <= fuel)%nat
    /\ Forall generated_line new
    /\ trace s' = trace s ++ tr
    /\ forallb (fun ev => negb (is_close ev)) tr = true.
Proof.
  revert s. induction fuel as [|fuel IH]; intros s; simpl.
  - intros [= <- <-]. exists [], []. rewrite !app_nil_r.
    repeat split; try done.
  - unfold mbind, M_bind, bind.
    destruct (stream_turn e cfg producer s) as [[[]|x] s1] eqn:T;
      apply stream_turn_adds in T as (new1 & tr1 & L1 & N1 & F1 & T1 & C1).
    + intros H. apply IH in H as (new2 & tr2 & L2 & N2 & F2 & T2 & C2).
      exists (new1 ++ new2), (tr1 ++ tr2).
      rewrite L2, L1, T2, T1, !app_assoc, length_app, forallb_app, C1, C2.
      repeat split; try done; [lia|by apply Forall_app].
    + intros [= <- <-]. exists new1, tr1. repeat split; try done. lia.
Qed.

(** [main] stops before STEP 5, or goes on to it with the live data file
    deleted and with a producer exactly when STEP 4 went through. *)
Lemma main_reaches_step5 e fuel s :
  (∃ x s1, main e fuel s = (Raise x, s1)
           /\ trace s1 = trace s /\ published s1 = published s)
  \/ (∃ cfg,
        read_config e = Ok cfg
        /\ main e fuel s
           = step5 e cfg (connected e) fuel
               (State (clock_reads s) (draws s) (turn s) None
                      (published s) (trace s))).
Proof.
  destruct s as [cr dr tn ld pb tr].
  unfold main, connected.
  cbv [step1 step2_3 step4 try_except mbind M_bind bind lift sys_exit raise
       ret delete_live_data get_state set_live_data
       clock_reads draws turn live_data published trace].
  destruct (read_config e) as [cfg|x].
  2:{ left. destruct (is_Exception x); by eexists _, _. }
  destruct ld as [lines|].
  - destruct (unlink e) as [[]|x].
    2:{ left. destruct (is_Exception x); by eexists _, _. }
    destruct (Producer.makedirs e) as [[]|x].
    2:{ left. destruct (is_Exception x); by eexists _, _. }
    destruct (verify_services e) as [[]|x].
    2:{ destruct (is_Exception x); [right|left]; [|by eexists _, _].
        by exists cfg. }
    destruct (KafkaProducer e) as [[]|x].
    2:{ destruct (is_Exception x); [right|left]; [|by eexists _, _].
        by exists cfg. }
    destruct (create_kafka_topic e) as [[]|x].
    2:{ destruct (is_Exception x); [right|left]; [|by eexists _, _].
        by exists cfg. }
    right. by exists cfg.
  - destruct (Producer.makedirs e) as [[]|x].
    2:{ left. destruct (is_Exception x); by eexists _, _. }
    destruct (verify_services e) as [[]|x].
    2:{ destruct (is_Exception x); [right|left]; [|by eexists _, _].
        by exists cfg. }
    destruct (KafkaProducer e) as [[]|x].
    2:{ destruct (is_Exception x); [right|left]; [|by eexists _, _].
        by exists cfg. }
    destruct (create_kafka_topic e) as [[]|x].
    2:{ destruct (is_Exception x); [right|left]; [|by eexists _, _].
        by exists cfg. }
    right. by exists cfg.
Qed.

(** STEP 5 as a whole: the loop, then the [finally]. *)
Lemma step5_adds e cfg producer fuel s r s' :
  step5 e cfg producer fuel s = (r, s') ->
  ∃ new tr,
    lines_of s' = lines_of s ++ new
    /\ (length new <= fuel)%nat
    /\ Forall generated_line new
    /\ forallb (fun ev => negb (is_close ev)) tr = true
    /\ (trace s' = trace s ++ tr
        /\ (r = Ok Streaming \/ producer = false)
        \/ trace s' = trace s ++ tr ++ [Close]
           /\ r ≠ Ok Streaming /\ producer = true).
Proof.
  unfold step5.
  destruct (stream e cfg producer fuel s) as [r1 s1] eqn:St.
  apply stream_adds in St as (new & tr & L & N & F & T & C).
  assert (Hfin : ∀ (r0 : result status) s2,
            r0 ≠ Ok Streaming ->
            (∃ u, finally_close e producer s1 = (u, s2)) ->
            ∃ new tr,
              lines_of s2 = lines_of s ++ new
              /\ (length new <= fuel)%nat
              /\ Forall generated_line new
              /\ forallb (fun ev => negb (is_close ev)) tr = true
              /\ (trace s2 = trace s ++ tr
                  /\ (r0 = Ok Streaming \/ producer = false)
                  \/ trace s2 = trace s ++ tr ++ [Close]
                     /\ r0 ≠ Ok Streaming /\ producer = true)).
  { intros r0 s2 Hr0 [u Hu]. exists new, tr.
    destruct s1 as [cr dr tn ld pb tr1]. unfold finally_close in Hu.
    destruct producer.
    - cbv [mbind M_bind bind record lift clock_reads draws turn live_data
           published trace] in Hu.
      assert (s2 = State cr dr tn ld pb (tr1 ++ [Close])) as ->
        by (destruct (producer_close e); by injection Hu as _ <-).
      unfold lines_of in *. simpl in *. subst tr1.
      repeat split; try done. right. by rewrite app_assoc.
    - injection Hu as _ <-. repeat split; try done. left. split; [done|by right]. }
  destruct r1 as [[]|x].
  - intros [= <- <-]. exists new, tr. repeat split; try done.
    left. split; [done|by left].
  - unfold mbind, M_bind, bind.
    destruct (finally_close e producer s1) as [[[]|y] s2] eqn:Fc;
      intros [= <- <-]; (eapply Hfin; [done|by eexists]).
  - destruct (_ || _); unfold mbind, M_bind, bind;
      destruct (finally_close e producer s1) as [[[]|y] s2] eqn:Fc;
      intros [= <- <-]; (eapply Hfin; [done|by eexists]).
Qed.

(** X15.  A run that reaches the loop rewrites the live data file.
    Whatever the file held before, when [main] has not ended on an
    exception the file holds at most one line for each turn run, and every
    line in it is the JSON line of a message made of roster entries: no
    line from an earlier run is left. *)
Theorem live_data_file_is_rewritten e fuel s st s' :
  main e fuel s = (Ok st, s') ->
  (length (lines_of s') <= fuel)%nat
  /\ Forall generated_line (lines_of s').
Proof.
  intros H.
  destruct (main_reaches_step5 e fuel s) as [(x & s1 & E & _)|(cfg & _ & E)].
  - rewrite E in H. discriminate.
  - rewrite E in H. apply step5_adds in H as (new & tr & L & N & F & _).
    unfold lines_of in L at 2. simpl in L. by rewrite L.
Qed.

Lemma live_data_file_is_rewritten_witness :
  ∃ st s',
    main no_broker 3 (initial (Some ["stale"])) = (Ok st, s')
    /\ (length (lines_of s') <= 3)%nat
    /\ Forall generated_line (lines_of s').
Proof.
  destruct (main no_broker 3 (initial (Some ["stale"]))) as [r s'] eqn:E.
  assert (∃ st, r = Ok st) as [st ->]
    by (vm_compute in E; injection E as <- _; by eexists).
  exists st, s'. split; [done|].
  exact (live_data_file_is_rewritten no_broker 3 _ st s' E).
Defined.

(** X16.  The producer is closed once, last, and only if there is one.
    In every run of [main] the calls before the last are never
    [producer.close()]; the run ends with that call exactly when it has
    left the loop with a producer, and makes no such call while it is
    still streaming or when STEP 4 gave no producer. *)
Theorem producer_is_closed_once_at_the_end e fuel s r s' :
  main e fuel s = (r, s') ->
  ∃ tr,
    forallb (fun ev => negb (is_close ev)) tr = true
    /\ (trace s' = trace s ++ tr \/ trace s' = trace s ++ tr ++ [Close])
    /\ (connected e = false -> trace s' = trace s ++ tr)
    /\ (r = Ok Streaming -> trace s' = trace s ++ tr)
    /\ (r = Ok Returned -> connected e = true ->
        trace s' = trace s ++ tr ++ [Close]).
Proof.
  intros H.
  destruct (main_reaches_step5 e fuel s) as [(x & s1 & E & T & _)|(cfg & _ & E)].
  - rewrite E in H. injection H as <- <-. exists [].
    rewrite app_nil_r. split; [done|]. split; [by left|].
    by repeat split.
  - rewrite E in H.
    apply step5_adds in H as (new & tr & _ & _ & _ & C & Hcases).
    exists tr. simpl in Hcases. split; [done|].
    destruct Hcases as [[T Hwhy]|[T [Hr Hp]]].
    + split; [by left|]. split; [done|]. split; [done|].
      intros -> Hc. destruct Hwhy; congruence.
    + split; [by right|]. split; [congruence|]. split; [congruence|done].
Qed.

Lemma producer_is_closed_once_at_the_end_witness :
  ∃ tr,
    forallb (fun ev => negb (is_close ev)) tr = true
    /\ trace (snd (main send_raises 3 (initial None)))
       = trace (initial None) ++ tr ++ [Close].
Proof.
  destruct (main send_raises 3 (initial None)) as [r s'] eqn:E.
  destruct (producer_is_closed_once_at_the_end send_raises 3 _ r s' E)
    as (tr & C & _ & _ & _ & H).
  exists tr. split; [exact C|]. apply H; [|reflexivity].
  vm_compute in E. by injection E as <- _.
Defined.

(** X17.  Ctrl-C is caught in the loop only.  A [KeyboardInterrupt] while
    the configuration is read, or in [verify_services] of STEP 4, is not
    caught by the [except Exception] there: it leaves [main] as it is,
    with no exit code of the program's own and no demotion to file-only
    mode.  A [KeyboardInterrupt] in the streaming loop is caught: the
    producer is closed, [main] returns and the process ends with code 0,
    the lines written so far still in the file. *)
Theorem keyboard_interrupt_is_caught_in_the_loop_only e fuel s :
  (read_config e = Raise KeyboardInterrupt ->
   main e fuel s = (Raise KeyboardInterrupt, s))
  /\ (∀ cfg s1,
        read_config e = Ok cfg -> step2_3 e s = (Ok tt, s1) ->
        verify_services e = Raise KeyboardInterrupt ->
        main e fuel s = (Raise KeyboardInterrupt, s1))
  /\ (∀ cfg s1 s2 s3 producer,
        read_config e = Ok cfg -> step2_3 e s = (Ok tt, s1) ->
        step4 e s1 = (Ok producer, s2) ->
        stream e cfg producer fuel s2 = (Raise KeyboardInterrupt, s3) ->
        (producer = true -> producer_close e = Ok tt) ->
        ∃ s',
          main e fuel s = (Ok Returned, s')
          /\ exit_status_of (fst (main e fuel s)) = Exit 0
          /\ lines_of s' = lines_of s3
          /\ published s' = published s3).
Proof.
  split; [|split].
  - intros Hc.
    unfold main, step1, try_except, mbind, M_bind, bind, lift.
    by rewrite Hc.
  - intros cfg s1 Hc H23 Hv. unfold main.
    assert (H1 : step1 e s = (Ok cfg, s))
      by (unfold step1, try_except, lift; by rewrite Hc).
    rewrite (bind_Ok _ _ _ _ _ H1), (bind_Ok _ _ _ _ _ H23).
    unfold step4, try_except, mbind, M_bind, bind, lift.
    by rewrite Hv.
  - intros cfg s1 s2 s3 producer Hc H23 H4 St Hclose.
    rewrite (main_step5 e fuel s cfg producer s1 s2 Hc H23 H4).
    destruct (step5_catches e cfg producer fuel s2 KeyboardInterrupt s3 St)
      as (s' & S5 & L & P & _); [done|done|].
    exists s'. by rewrite S5.
Qed.

Lemma keyboard_interrupt_is_caught_in_the_loop_only_witness :
  ∃ s',
    main interrupted 3 (initial None) = (Ok Returned, s')
    /\ exit_status_of (fst (main interrupted 3 (initial None))) = Exit 0
    /\ length (lines_of s') = 2%nat.
Proof.
  destruct (keyboard_interrupt_is_caught_in_the_loop_only interrupted 3
              (initial None)) as (_ & _ & H).
  destruct (stream interrupted
              (Config 2 "buzzline" "localhost:9092" "data/project_live.json")
              true 3 (initial None)) as [r s3] eqn:St.
  assert (r = Raise KeyboardInterrupt) as ->
    by (vm_compute in St; by injection St as <- _).
  destruct (H _ (initial None) (initial None) s3 true eq_refl eq_refl eq_refl
              St (fun _ => eq_refl)) as (s' & M & X & L & _).
  exists s'. split; [exact M|]. split; [exact X|]. rewrite L.
  vm_compute in St. by injection St as <-.
Defined.

End ProducerMore.

Import ConsumerRun.

Section RunFacts.

Implicit Types (e : env) (s : state) (w : Consumer.world).

Lemma keeps_refl s : keeps s s.
Proof.
  unfold keeps. split; [done|]. split; [done|]. split; [lia|].
  exists []. rewrite app_nil_r. split; [done|intros []].
Qed.

Lemma keeps_trans s1 s2 s3 : keeps s1 s2 -> keeps s2 s3 -> keeps s1 s3.
Proof.
  intros (D1 & C1 & R1 & tr1 & T1 & N1) (D2 & C2 & R2 & tr2 & T2 & N2).
  split; [congruence|]. split; [congruence|]. split; [lia|].
  exists (tr1 ++ tr2). split; [by rewrite T2, T1, app_assoc|].
  rewrite in_app_iff. tauto.
Qed.

(** Code that keeps, bound to code that keeps, keeps. *)
Lemma bind_keeps {A B} (c : M state A) (k : A -> M state B) :
  (∀ s r s', c s = (r, s') -> keeps s s') ->
  (∀ a s r s', k a s = (r, s') -> keeps s s') ->
  ∀ s r s', (c ≫= k) s = (r, s') -> keeps s s'.
Proof.
  intros Hc Hk s r s'. unfold mbind, M_bind, bind.
  destruct (c s) as [[a|x] s1] eqn:E; apply Hc in E.
  - intros H. apply Hk in H. by eapply keeps_trans.
  - by intros [= <- <-].
Qed.

Lemma consume_one_result sql_path d w :
  consume_one sql_path d w = (Ok tt, snd (process_message d w)).
Proof.
  rewrite consume_one_is_process_message. unfold mbind, M_bind, bind.
  destruct (process_message_returns d w) as [r Hr].
  destruct (process_message d w) as [r0 w1]. simpl in Hr. by subst r0.
Qed.

Lemma consume_value_result sql_path value s :
  consume_value sql_path value s
  = (Ok tt, State (after_value value (world s)) (received s) (consumer s)
                  (calls s)).
Proof.
  destruct s as [w n c tr]. destruct value as [d|]; simpl; [|done].
  unfold on_world. simpl. by rewrite consume_one_result.
Qed.

Lemma after_value_db value w : db (after_value value w) = db w.
Proof. destruct value; [apply process_message_db|done]. Qed.

(** [update_chart], case by case. *)
Lemma update_chart_cases e frame s :
  update_chart e frame s
  = let data := user_status_data (world s) in
    let cleared := State (world s) (received s) (consumer s)
                         (calls s ++ [Clear]) in
    match statuses_of data with
    | Raise x => (Raise x, cleared)
    | Ok statuses =>
        match colors_of statuses with
        | Raise x => (Raise x, cleared)
        | Ok colors =>
            let c := if Nat.eqb (size data) 0 then NoData
                     else Bars (map_zip statuses colors) in
            (plot e c,
             State (world s) (received s) (consumer s)
                   (calls s ++ [Clear; Plot c]))
        end
    end.
Proof.
  destruct s as [w n c tr].
  cbv [update_chart mbind M_bind bind record get_state lift
       world received consumer calls].
  destruct (statuses_of (user_status_data w)) as [statuses|x]; [|done].
  destruct (colors_of statuses) as [colors|x]; [|done].
  cbv zeta. rewrite <- app_assoc. by destruct (plot e _).
Qed.

Lemma update_chart_keeps e frame s r s' :
  update_chart e frame s = (r, s') -> keeps s s'.
Proof.
  rewrite update_chart_cases. cbv zeta.
  destruct (statuses_of _) as [statuses|x].
  - destruct (colors_of statuses) as [colors|x]; intros [= <- <-];
      (repeat split; try done); eexists; (split; [done|]);
      simpl; intros H; repeat destruct H as [H|H]; done.
  - intros [= <- <-]. repeat split; try done. eexists. split; [done|].
    simpl. intros [H|[]]. done.
Qed.

Lemma redraw_keeps e k s r s' : redraw e k s = (r, s') -> keeps s s'.
Proof.
  unfold redraw. destruct (redraw_due e k).
  - revert s r s'. apply bind_keeps; [apply update_chart_keeps|intros _].
    apply bind_keeps.
    + intros s r s' [= <- <-]. destruct s. repeat split; try done.
      exists [Show]. split; [done|]. simpl. intros [H|[]]. done.
    + intros _ s r s' [= <- <-]. apply keeps_refl.
  - intros [= <- <-]. apply keeps_refl.
Qed.

Lemma consume_keeps e sql_path fuel s r s' :
  consume e sql_path fuel s = (r, s') -> keeps s s'.
Proof.
  revert s r s'. induction fuel as [|fuel IH]; intros s r s'; simpl.
  - intros [= <- <-]. apply keeps_refl.
  - unfold mbind at 1, M_bind, bind at 1, get_state.
    destruct (next_message e (received s)) as [value| |x].
    + generalize (received s). intros k.
      revert s r s'. apply bind_keeps.
      { intros s r s' [= <- <-]. destruct s. repeat split; simpl; try done;
          [lia|]. exists []. rewrite app_nil_r. split; [done|intros []]. }
      intros _. apply bind_keeps.
      { intros s r s'. rewrite consume_value_result. intros [= <- <-].
        repeat split; simpl; try done; [apply after_value_db|].
        exists []. rewrite app_nil_r. split; [done|intros []]. }
      intros _. apply bind_keeps; [apply redraw_keeps|].
      intros _. apply IH.
    + intros [= <- <-]. apply keeps_refl.
    + intros [= <- <-]. apply keeps_refl.
Qed.

(** The body of the [try], when the loop is reached. *)
Lemma run_ready e topic kafka_url group sql_path interval_secs fuel s :
  ready e = true ->
  consume_messages_from_kafka e topic kafka_url group sql_path interval_secs
    fuel s
  = match try_except (consume e sql_path fuel) (fun _ => ret Returned)
            (State (world s) (received s) true (calls s)) with
    | (Ok Consuming, s1) => (Ok Consuming, s1)
    | (Ok Returned, s1) => (finally_close e;; ret Returned) s1
    | (Raise x, s1) => (finally_close e;; raise x) s1
    end.
Proof.
  unfold ready, consume_messages_from_kafka. intros Hready.
  destruct (verify_services e) as [[]|]; [|done].
  destruct (create_kafka_consumer e) as [[]|]; [|done].
  destruct (is_topic_available e) as [[]|]; [|done|done].
  destruct s as [w n c tr].
  by cbv [mbind M_bind bind set_consumer try_except lift
          world received consumer calls].
Qed.

(** The body of the [try], when the loop is not reached. *)
Lemma run_setup_fails e topic kafka_url group sql_path interval_secs fuel s :
  setup_fails e = true ->
  consume_messages_from_kafka e topic kafka_url group sql_path interval_secs
    fuel s
  = (finally_close e;; ret Returned)
      (State (world s) (received s) (created e) (calls s)).
Proof.
  unfold setup_fails, created, consume_messages_from_kafka. intros Hfails.
  destruct s as [w n c tr].
  cbv [mbind M_bind bind set_consumer try_except lift ret
       world received consumer calls].
  destruct (verify_services e) as [[]|x]; [|by rewrite Hfails].
  destruct (create_kafka_consumer e) as [[]|x]; [|by rewrite Hfails].
  destruct (is_topic_available e) as [[]|x]; [done|done|by rewrite Hfails].
Qed.

Lemma finally_close_cases e s :
  finally_close e s
  = if consumer s
    then (consumer_close e,
          State (world s) (received s) (consumer s)
                (calls s ++ [CloseConsumer]))
    else (Ok tt, s).
Proof.
  destruct s as [w n c tr].
  cbv [finally_close mbind M_bind bind get_state record lift ret
       world received consumer calls].
  destruct c; [|done]. by destruct (consumer_close e).
Qed.

(** X18.  When the setup of the consumer fails, nothing is consumed.  If
    [verify_services], [create_kafka_consumer] or [is_topic_available]
    raises an exception, or the topic is not there, no message is asked
    of the broker, [user_status_data] and the database stay as they were
    and nothing is drawn; the consumer is closed exactly when it had been
    created, and the function returns normally unless that close
    raises. *)
Theorem failed_setup_consumes_nothing e topic kafka_url group sql_path
    interval_secs fuel s :
  setup_fails e = true ->
  ∃ r s',
    consume_messages_from_kafka e topic kafka_url group sql_path
      interval_secs fuel s = (r, s')
    /\ world s' = world s
    /\ received s' = received s
    /\ calls s' = calls s ++ (if created e then [CloseConsumer] else [])
    /\ (created e = false \/ consumer_close e = Ok tt -> r = Ok Returned).
Proof.
  intros Hfails. rewrite run_setup_fails by done.
  unfold mbind, M_bind, bind. rewrite finally_close_cases. simpl.
  destruct (created e).
  - destruct (consumer_close e) as [[]|x] eqn:Hclose; eexists _, _;
      (split; [done|]); (repeat split; try done); by intros [|].
  - eexists _, _. split; [done|]. rewrite app_nil_r. by repeat split.
Qed.

Lemma failed_setup_consumes_nothing_witness :
  let e := Env (Ok tt) (Ok tt) (Ok false)
               (fun _ => Message (JObject Samples.only_user_id))
               (fun _ => true) (fun _ => Ok tt) (fun _ => Ok tt) (Ok tt) in
  ∃ r s',
    consume_messages_from_kafka e "buzzline" "localhost:9092" "group"
      "data/buzz.sqlite" 2 3 (initial Samples.fresh_world) = (r, s')
    /\ world s' = Samples.fresh_world
    /\ received s' = 0%nat
    /\ calls s' = [CloseConsumer]
    /\ r = Ok Returned.
Proof.
  intros e.
  destruct (failed_setup_consumes_nothing e "buzzline" "localhost:9092"
              "group" "data/buzz.sqlite" 2 3 (initial Samples.fresh_world)
              eq_refl) as (r & s' & E & W & R & C & H).
  exists r, s'. repeat split; try done. apply H. by right.
Defined.

Lemma try_except_escapes {S A} (body : M S A) (v : A) (st st' : S) x :
  try_except body (fun _ => ret v) st = (Raise x, st') ->
  is_Exception x = false.
Proof.
  unfold try_except. destruct (body st) as [[a|y] s1]; [done|].
  destruct (is_Exception y) eqn:Hy; [done|]. by intros [= <- _].
Qed.

Lemma body_db e sql_path fuel s r s' :
  (set_consumer false;;
   try_except
     (lift (verify_services e);;
      lift (create_kafka_consumer e);;
      set_consumer true;;
      available ← lift (is_topic_available e);
      if (available : bool) then consume e sql_path fuel else ret Returned)
     (fun _ => ret Returned)) s = (r, s') ->
  db (world s') = db (world s)
  /\ (∀ x, r = Raise x -> is_Exception x = false).
Proof.
  destruct s as [w n c tr].
  cbv [mbind M_bind bind set_consumer lift world received consumer calls].
  intros H. split.
  - revert H. unfold try_except.
    destruct (verify_services e) as [[]|x1];
      [|destruct (is_Exception x1); by intros [= _ <-]].
    destruct (create_kafka_consumer e) as [[]|x2];
      [|destruct (is_Exception x2); by intros [= _ <-]].
    destruct (is_topic_available e) as [[]|x3];
      [| by intros [= _ <-] | destruct (is_Exception x3); by intros [= _ <-]].
    destruct (consume e sql_path fuel _) as [[p|x4] s1] eqn:Hc;
      apply consume_keeps in Hc as (Hdb & _).
    + by intros [= _ <-].
    + destruct (is_Exception x4); by intros [= _ <-].
  - intros x ->. by eapply try_except_escapes.
Qed.

(** X19.  The run of the consumer never writes the database, and lets no
    error of its own out.  Whatever the broker delivers and whatever is
    drawn, [consume_messages_from_kafka] leaves the database exactly as it
    was; an exception that derives from [Exception] leaves the function
    only when it was raised by [consumer.close()] in the [finally]. *)
Theorem consumer_run_never_writes_the_store e topic kafka_url group sql_path
    interval_secs fuel s r s' :
  consume_messages_from_kafka e topic kafka_url group sql_path interval_secs
    fuel s = (r, s') ->
  db (world s') = db (world s)
  /\ get_all_messages sql_path (db (world s'))
     = get_all_messages sql_path (db (world s))
  /\ (∀ x, r = Raise x -> is_Exception x = true ->
           consumer_close e = Raise x).
Proof.
  unfold consume_messages_from_kafka.
  match goal with |- context [match ?b s with _ => _ end] =>
    destruct (b s) as [rb sb] eqn:B end.
  apply body_db in B as [Hdb Hesc].
  assert (Hfin : ∀ (u : result unit) s2,
            finally_close e sb = (u, s2) ->
            db (world s2) = db (world s)
            /\ (∀ x, u = Raise x -> consumer_close e = Raise x)).
  { intros u s2. rewrite finally_close_cases.
    destruct (consumer sb); intros [= <- <-]; split; try done. }
  intros H.
  assert (Hgoal : db (world s') = db (world s)
                  /\ (∀ x, r = Raise x -> is_Exception x = true ->
                           consumer_close e = Raise x));
    [|destruct Hgoal as [-> ?]; by repeat split].
  revert H.
  destruct rb as [[]|x].
  - by intros [= <- <-].
  - unfold mbind, M_bind, bind.
    destruct (finally_close e sb) as [u s2].
    destruct (Hfin u s2 eq_refl) as [F1 F2].
    destruct u as [[]|y]; intros [= <- <-]; split; try done.
    intros x [= <-] _. by apply F2.
  - unfold mbind, M_bind, bind.
    destruct (finally_close e sb) as [u s2].
    destruct (Hfin u s2 eq_refl) as [F1 F2].
    destruct u as [[]|y]; intros [= <- <-]; split; try done.
    + intros x0 [= <-] Hx. rewrite (Hesc x eq_refl) in Hx. done.
    + intros x0 [= <-] _. by apply F2.
Qed.

Lemma consumer_run_never_writes_the_store_witness :
  let run := consume_messages_from_kafka
               (redrawing (map JObject Samples.three_events) Exhausted)
               "buzzline" "localhost:9092" "group" Samples.TEST_DB_PATH 2 5
               (initial Samples.fresh_world) in
  db (world (snd run)) = db Samples.fresh_world
  /\ get_all_messages Samples.TEST_DB_PATH (db (world (snd run)))
     = get_all_messages Samples.TEST_DB_PATH (db Samples.fresh_world).
Proof.
  intros run.
  destruct (consumer_run_never_writes_the_store
              (redrawing (map JObject Samples.three_events) Exhausted)
              "buzzline" "localhost:9092" "group" Samples.TEST_DB_PATH 2 5
              (initial Samples.fresh_world) (fst run) (snd run))
    as (H1 & H2 & _); [apply surjective_pairing|].
  split; [exact H1|exact H2].
Defined.

Lemma color_of_cases status :
  color_of status ∈ ["green"; "yellow"; "red"; "gray"]
  /\ (color_of status ≠ "gray" -> status = PStr (color_of status)).
Proof.
  destruct status as [ |st| |]; simpl; try (split; [set_solver|done]).
  destruct (String.eqb_spec st "green") as [->|_]; [split; [set_solver|done]|].
  destruct (String.eqb_spec st "yellow") as [->|_]; [split; [set_solver|done]|].
  destruct (String.eqb_spec st "red") as [->|_]; [split; [set_solver|done]|].
  split; [set_solver|done].
Qed.

(** X20.  One bar for each user, coloured by the latest status.  When
    every entry of [user_status_data] holds a status that is not a list
    (as every event of [process_message] with such a status does),
    [update_chart] clears the axes and asks for one drawing: the text "No
    data to display" when the dictionary is empty, and otherwise one bar
    for each user and no other, labelled with the status of the user's
    entry and coloured green, yellow or red when the status is that very
    word and gray for any other status.  It changes neither the dictionary
    nor the database. *)
Theorem update_chart_draws_one_bar_per_user e frame s :
  (∀ k d, user_status_data (world s) !! k = Some d ->
          ∃ status, d !! "Status" = Some status /\ hashable status = true) ->
  ∃ c,
    update_chart e frame s
    = (plot e c,
       State (world s) (received s) (consumer s)
             (calls s ++ [Clear; Plot c]))
    /\ (user_status_data (world s) = ∅ -> c = NoData)
    /\ (user_status_data (world s) ≠ ∅ ->
        ∃ bars,
          c = Bars bars
          /\ ∀ k, bars !! k
                  = (fun d => (get d "Status", color_of (get d "Status")))
                      <$> user_status_data (world s) !! k)
    /\ (∀ status,
          color_of status ∈ ["green"; "yellow"; "red"; "gray"]
          /\ (color_of status ≠ "gray" -> status = PStr (color_of status))).
Proof.
  intros Hdata. rewrite update_chart_cases. cbv zeta.
  unfold statuses_of. rewrite bool_decide_eq_true_2.
  2:{ intros k d Hd. destruct (Hdata k d Hd) as (st & -> & _). by eexists. }
  unfold colors_of. rewrite bool_decide_eq_true_2.
  2:{ apply map_Forall_fmap. intros k d Hd. simpl.
      destruct (Hdata k d Hd) as (st & Hst & Hh). unfold get. by rewrite Hst. }
  eexists. split; [reflexivity|]. split; [|split].
  - intros ->. by rewrite map_size_empty.
  - intros Hne.
    destruct (Nat.eqb_spec (size (user_status_data (world s))) 0) as [H0|_].
    { by apply map_size_empty_iff in H0. }
    eexists. split; [reflexivity|]. intros k.
    rewrite map_lookup_zip_with, !lookup_fmap.
    by destruct (user_status_data (world s) !! k).
  - apply color_of_cases.
Qed.

Lemma update_chart_draws_one_bar_per_user_witness :
  let s := State (snd (process_message (Samples.payload "bwendt" "red"
                                           "Inventory Check")
                         Samples.fresh_world)) 1 true [] in
  ∃ c bars,
    update_chart (serving [] Exhausted) 0 s
    = (Ok tt, State (world s) 1 true [Clear; Plot c])
    /\ c = Bars bars
    /\ bars !! HStr "bwendt" = Some (PStr "red", "red").
Proof.
  intros s.
  destruct (update_chart_draws_one_bar_per_user (serving [] Exhausted) 0 s)
    as (c & E & _ & Hbars & _).
  { intros k d. vm_compute. intros Hd.
    destruct (decide (k = HStr "bwendt")) as [->|Hk].
    - vm_compute in Hd. injection Hd as <-. by eexists.
    - exfalso. revert Hd.
      change (({[HStr "bwendt" := processed (Samples.payload "bwendt" "red"
                  "Inventory Check")]} : gmap hkey dict) !! k = Some d
              -> False).
      by rewrite lookup_singleton_ne. }
  destruct Hbars as (bars & -> & Hlookup).
  { intros H. apply (f_equal (fun m => m !! HStr "bwendt")) in H.
    vm_compute in H. discriminate. }
  exists (Bars bars), bars. split; [exact E|]. split; [reflexivity|].
  rewrite Hlookup. vm_compute. reflexivity.
Defined.

Lemma update_chart_world e frame s r s' :
  update_chart e frame s = (r, s') ->
  world s' = world s /\ received s' = received s.
Proof.
  rewrite update_chart_cases. cbv zeta.
  destruct (statuses_of _) as [statuses|x];
    [destruct (colors_of statuses) as [colors|x]|]; by intros [= <- <-].
Qed.

Lemma redraw_world e k s r s' :
  redraw e k s = (r, s') ->
  world s' = world s /\ received s' = received s.
Proof.
  unfold redraw. destruct (redraw_due e k); [|by intros [= <- <-]].
  unfold mbind, M_bind, bind.
  destruct (update_chart e 0 s) as [[[]|x] s1] eqn:U;
    apply update_chart_world in U as [W R].
  - destruct s1. cbv [record lift]. simpl in *.
    destruct (show e k); by intros [= _ <-].
  - by intros [= _ <-].
Qed.

Lemma after_values_app values1 values2 w :
  after_values (values1 ++ values2) w
  = after_values values2 (after_values values1 w).
Proof. apply fold_left_app. Qed.

Lemma after_values_objects ds w :
  after_values (JObject <$> ds) w = snd (process_messages ds w).
Proof.
  revert w. induction ds as [|d ds IH]; intros w; simpl; [done|].
  unfold mbind, M_bind, bind.
  destruct (process_message_returns d w) as [r Hr].
  fold (after_values (JObject <$> ds) (snd (process_message d w))).
  rewrite IH. destruct (process_message d w) as [r0 w1].
  simpl in Hr. by subst r0.
Qed.

(** One turn of the loop, by the message received. *)
Lemma consume_turn e sql_path fuel s :
  consume e sql_path (S fuel) s
  = match next_message e (received s) with
    | Exhausted => (Ok Returned, s)
    | Failed x => (Raise x, s)
    | Message value =>
        (redraw e (received s);; consume e sql_path fuel)
          (State (after_value value (world s)) (S (received s))
                 (consumer s) (calls s))
    end.
Proof.
  simpl. unfold mbind at 1, M_bind, bind at 1, get_state.
  destruct (next_message e (received s)) as [value| |x]; [|done|done].
  unfold mbind at 1, M_bind, bind at 1, count_received.
  unfold mbind at 1, M_bind, bind at 1.
  by rewrite consume_value_result.
Qed.

Lemma consume_folds e sql_path fuel s r s' :
  consume e sql_path fuel s = (r, s') ->
  ∃ values,
    received s' = (received s + length values)%nat
    /\ (∀ i v, values !! i = Some v ->
               next_message e (received s + i)%nat = Message v)
    /\ world s' = after_values values (world s).
Proof.
  revert s r s'. induction fuel as [|fuel IH]; intros s r s'.
  - intros [= <- <-]. exists []. split; [simpl; lia|]. by split.
  - rewrite consume_turn.
    destruct (next_message e (received s)) as [value| |x] eqn:N.
    + unfold mbind, M_bind, bind.
      destruct (redraw e (received s) _) as [[[]|x] s1] eqn:Rd;
        apply redraw_world in Rd as [W R]; simpl in W, R.
      * intros H. apply IH in H as (values & HR & HN & HW).
        exists (value :: values). split; [simpl; lia|]. split.
        -- intros [|i] v; simpl.
           ++ intros [= <-]. by rewrite Nat.add_0_r.
           ++ intros Hv. rewrite <- (HN i v Hv). f_equal. lia.
        -- simpl. by rewrite HW, W.
      * intros [= _ <-]. exists [value]. split; [simpl; lia|]. split.
        -- intros [|i] v; simpl; [|done].
           intros [= <-]. by rewrite Nat.add_0_r.
        -- done.
    + intros [= _ <-]. exists []. split; [simpl; lia|]. by split.
    + intros [= _ <-]. exists []. split; [simpl; lia|]. by split.
Qed.

Lemma finally_close_world e s :
  world (snd (finally_close e s)) = world s
  /\ received (snd (finally_close e s)) = received s.
Proof. rewrite finally_close_cases. by destruct (consumer s). Qed.

(** X21.  The dictionary is the fold of [process_message] over the
    messages received, in order.  However a run of
    [consume_messages_from_kafka] goes (setup failure, redraw failure,
    broker error, Ctrl-C, or still consuming), [user_status_data] and the
    database are afterwards what processing the messages received so far,
    one after the other in the order of the broker, makes of them: no
    message is skipped, none is processed twice, and drawing changes
    nothing.  When all of them are JSON objects, the entry of a user is
    the event of the last message with that user id. *)
Theorem consumer_state_is_the_fold_of_the_messages e topic kafka_url group
    sql_path interval_secs fuel s r s' :
  consume_messages_from_kafka e topic kafka_url group sql_path interval_secs
    fuel s = (r, s') ->
  ∃ values,
    received s' = (received s + length values)%nat
    /\ (∀ i v, values !! i = Some v ->
               next_message e (received s + i)%nat = Message v)
    /\ world s' = after_values values (world s)
    /\ (∀ ds k, values = JObject <$> ds ->
          user_status_data (world s') !! k
          = match Aggregate.last_event_of k ds with
            | Some event => Some event
            | None => user_status_data (world s) !! k
            end).
Proof.
  intros H.
  assert (Hfold : ∃ values,
            received s' = (received s + length values)%nat
            /\ (∀ i v, values !! i = Some v ->
                       next_message e (received s + i)%nat = Message v)
            /\ world s' = after_values values (world s)).
  { revert H. unfold consume_messages_from_kafka.
    match goal with |- context [match ?b s with _ => _ end] =>
      destruct (b s) as [rb sb] eqn:B end.
    assert (Hbody : ∃ values,
              received sb = (received s + length values)%nat
              /\ (∀ i v, values !! i = Some v ->
                         next_message e (received s + i)%nat = Message v)
              /\ world sb = after_values values (world s)).
    { revert B. destruct s as [w n c tr].
      cbv [mbind M_bind bind set_consumer lift world received consumer calls
           try_except].
      assert (Hnil : ∃ values : list payload,
                n = (n + length values)%nat
                /\ (∀ i v, values !! i = Some v ->
                           next_message e (n + i)%nat = Message v)
                /\ w = after_values values w).
      { exists []. split; [simpl; lia|]. by split. }
      destruct (verify_services e) as [[]|x1];
        [|destruct (is_Exception x1); intros [= _ <-]; simpl; exact Hnil].
      destruct (create_kafka_consumer e) as [[]|x2];
        [|destruct (is_Exception x2); intros [= _ <-]; simpl; exact Hnil].
      destruct (is_topic_available e) as [[]|x3];
        [| intros [= _ <-]; simpl; exact Hnil
         | destruct (is_Exception x3); intros [= _ <-]; simpl; exact Hnil].
      destruct (consume e sql_path fuel _) as [[p|x4] s1] eqn:Hc;
        apply consume_folds in Hc; simpl in Hc.
      - by intros [= _ <-].
      - destruct (is_Exception x4); by intros [= _ <-]. }
    destruct (finally_close_world e sb) as [FW FR].
    destruct Hbody as (values & HR & HN & HW).
    destruct rb as [[]|x].
    - intros [= _ <-]. exists values. by repeat split.
    - unfold mbind, M_bind, bind.
      destruct (finally_close e sb) as [[[]|y] s2]; simpl in FW, FR;
        intros [= _ <-]; exists values;
        (split; [congruence|]); (split; [done|congruence]).
    - unfold mbind, M_bind, bind.
      destruct (finally_close e sb) as [[[]|y] s2]; simpl in FW, FR;
        intros [= _ <-]; exists values;
        (split; [congruence|]); (split; [done|congruence]). }
  destruct Hfold as (values & HR & HN & HW). exists values.
  split; [done|]. split; [done|]. split; [done|].
  intros ds k ->. rewrite HW, after_values_objects.
  apply process_messages_lookup.
Qed.

Lemma consumer_state_is_the_fold_of_the_messages_witness :
  let e := redrawing (map JObject Samples.three_events) Exhausted in
  let run := consume_messages_from_kafka e "buzzline" "localhost:9092"
               "group" Samples.TEST_DB_PATH 2 5
               (initial Samples.fresh_world) in
  ∃ values,
    received (snd run) = (0 + length values)%nat
    /\ (∀ i v, values !! i = Some v ->
               next_message e (0 + i)%nat = Message v)
    /\ world (snd run) = after_values values Samples.fresh_world.
Proof.
  intros e run.
  destruct (consumer_state_is_the_fold_of_the_messages e "buzzline"
              "localhost:9092" "group" Samples.TEST_DB_PATH 2 5
              (initial Samples.fresh_world) (fst run) (snd run))
    as (values & H1 & H2 & H3 & _); [apply surjective_pairing|].
  exists values. split; [exact H1|]. split; [exact H2|exact H3].
Defined.

Lemma consume_values e sql_path values fuel s :
  (∀ i v, values !! i = Some v ->
          next_message e (received s + i)%nat = Message v
          /\ redraw_due e (received s + i)%nat = false) ->
  consume e sql_path (length values + fuel) s
  = consume e sql_path fuel
      (State (after_values values (world s))
             (received s + length values)%nat (consumer s) (calls s)).
Proof.
  revert s. induction values as [|v values IH]; intros s H.
  - destruct s. simpl. by rewrite Nat.add_0_r.
  - change (length (v :: values) + fuel)%nat
      with (S (length values + fuel)).
    rewrite consume_turn.
    destruct (H 0%nat v eq_refl) as [Hnext Hdue].
    rewrite Nat.add_0_r in Hnext, Hdue. rewrite Hnext.
    unfold mbind, M_bind, bind, redraw. rewrite Hdue. simpl.
    rewrite IH.
    + simpl. do 2 f_equal. lia.
    + intros i v' Hv. simpl.
      replace (S (received s + i)) with (received s + S i)%nat by lia.
      by apply H.
Qed.

(** X22.  How the consumer stops.  When the loop is reached and the
    messages received come with no redraw due, the consumer processes
    them in order and stops at the first request the broker does not
    answer with a message: the consumer is closed once, nothing has been
    drawn, and the function returns normally when the iteration ended or
    raised an [Exception] (a broker error, a payload that is not JSON);
    Ctrl-C leaves the function after the close.  An exception of
    [consumer.close()] replaces any of these outcomes. *)
Theorem consumer_stops_at_the_first_failed_request e topic kafka_url group
    sql_path interval_secs fuel values s :
  ready e = true ->
  (∀ i v, values !! i = Some v ->
          next_message e (received s + i)%nat = Message v
          /\ redraw_due e (received s + i)%nat = false) ->
  (∀ v, next_message e (received s + length values)%nat ≠ Message v) ->
  (length values < fuel)%nat ->
  consume_messages_from_kafka e topic kafka_url group sql_path interval_secs
    fuel s
  = (match consumer_close e with
     | Raise y => Raise y
     | Ok _ =>
         match next_message e (received s + length values)%nat with
         | Failed x => if is_Exception x then Ok Returned else Raise x
         | _ => Ok Returned
         end
     end,
     State (after_values values (world s))
           (received s + length values)%nat true
           (calls s ++ [CloseConsumer])).
Proof.
  intros Hready Hvalues Hlast Hfuel.
  rewrite run_ready by done.
  replace fuel with (length values + S (fuel - S (length values)))%nat
    by lia.
  unfold try_except. rewrite consume_values by done.
  rewrite consume_turn. simpl.
  destruct (next_message e (received s + length values)%nat)
    as [v| |x] eqn:N.
  - by destruct (Hlast v).
  - unfold mbind, M_bind, bind. rewrite finally_close_cases. simpl.
    by destruct (consumer_close e) as [[]|y].
  - destruct (is_Exception x) eqn:Hx; simpl;
      unfold mbind, M_bind, bind; rewrite finally_close_cases; simpl;
      by destruct (consumer_close e) as [[]|y].
Qed.

Lemma consumer_stops_at_the_first_failed_request_witness :
  consume_messages_from_kafka
    (serving (map JObject Samples.three_events) (Failed KafkaError))
    "buzzline" "localhost:9092" "group" Samples.TEST_DB_PATH 2 5
    (initial Samples.fresh_world)
  = (Ok Returned,
     State (after_values (map JObject Samples.three_events)
              Samples.fresh_world)
           3 true [CloseConsumer]).
Proof.
  apply (consumer_stops_at_the_first_failed_request
           (serving (map JObject Samples.three_events) (Failed KafkaError))
           "buzzline" "localhost:9092" "group" Samples.TEST_DB_PATH 2 5
           (map JObject Samples.three_events) (initial Samples.fresh_world)).
  - reflexivity.
  - intros i v H. simpl in *. by rewrite H.
  - intros v. vm_compute. discriminate.
  - simpl. lia.
Defined.

Lemma update_chart_list_status e frame s k event items :
  user_status_data (world s) !! k = Some event ->
  get event "Status" = PList items ->
  ∃ x, is_Exception x = true
       /\ update_chart e frame s
          = (Raise x,
             State (world s) (received s) (consumer s) (calls s ++ [Clear])).
Proof.
  intros Hk Hstatus. rewrite update_chart_cases. cbv zeta.
  unfold statuses_of. case_bool_decide; [|by exists (KeyError "Status")].
  unfold colors_of. rewrite bool_decide_eq_false_2; [by exists TypeError|].
  intros HF. apply (map_Forall_lookup_1 _ _ k (PList items)) in HF; [done|].
  by rewrite lookup_fmap, Hk; simpl; rewrite Hstatus.
Qed.

(** X23.  A status that is a JSON array stops the consumer at the next
    redraw.  [process_message] stores such an event under its user id;
    when the chart is redrawn after it, [update_chart] clears the axes
    and then raises on the status (it cannot be a key of [color_map]), so
    nothing is drawn, the [except Exception] of
    [consume_messages_from_kafka] ends the loop, the consumer is closed
    and the function returns normally (unless the close raises): no later
    message is consumed. *)
Theorem list_status_stops_the_consumer e topic kafka_url group sql_path
    interval_secs fuel s d k items :
  ready e = true ->
  next_message e (received s) = Message (JObject d) ->
  hash_key (get d "User_ID") = Ok k ->
  get d "Status" = PList items ->
  redraw_due e (received s) = true ->
  consume_messages_from_kafka e topic kafka_url group sql_path interval_secs
    (S fuel) s
  = (match consumer_close e with
     | Raise y => Raise y
     | Ok _ => Ok Returned
     end,
     State (World (db (world s))
                  (<[k := processed d]> (user_status_data (world s))))
           (S (received s)) true
           (calls s ++ [Clear; CloseConsumer])).
Proof.
  intros Hready Hnext Hk Hstatus Hdue.
  rewrite run_ready by done. unfold try_except.
  rewrite consume_turn. simpl. rewrite Hnext.
  unfold mbind at 1, M_bind, bind at 1, redraw. rewrite Hdue.
  cbv [after_value].
  rewrite (process_message_hashable _ _ _ Hk). simpl.
  unfold mbind at 1, M_bind, bind at 1.
  edestruct (update_chart_list_status e 0
               (State (World (db (world s))
                             (<[k := processed d]>
                                (user_status_data (world s))))
                      (S (received s)) true (calls s))
               k (processed d) items) as (x & Hx & ->).
  { simpl. apply lookup_insert_eq. }
  { rewrite get_processed; [done|]. unfold event_keys, fields. set_solver. }
  rewrite Hx. simpl.
  unfold mbind, M_bind, bind. rewrite finally_close_cases. simpl.
  rewrite <- app_assoc. simpl.
  by destruct (consumer_close e) as [[]|y].
Qed.

Lemma list_status_stops_the_consumer_witness :
  consume_messages_from_kafka
    (redrawing (map JObject (list_status :: Samples.three_events)) Exhausted)
    "buzzline" "localhost:9092" "group" Samples.TEST_DB_PATH 2 5
    (initial Samples.fresh_world)
  = (Ok Returned,
     State (World (db Samples.fresh_world)
                  (<[HStr "dsmith" := processed list_status]>
                     (user_status_data Samples.fresh_world)))
           1 true [Clear; CloseConsumer]).
Proof.
  apply (list_status_stops_the_consumer
           (redrawing (map JObject (list_status :: Samples.three_events))
              Exhausted)
           "buzzline" "localhost:9092" "group" Samples.TEST_DB_PATH 2 4
           (initial Samples.fresh_world) list_status (HStr "dsmith")
           [PStr "green"]); reflexivity.
Defined.

End RunFacts.
